(** * FB-Bus connector of the miniserver gateway: registry, handlers, codec

    A shallow embedding of the parts of
    [miniserver_gateway/connectors/fb_bus] that own the device registry and
    drive the serial bus: the connector ([fb_bus_connector.py]), the device,
    register and setting entities, the checking, reading and writing handlers,
    the pairing helper's settings-structure request, the PJON transport's
    [send_packet] and the value codec of [utilities/helpers.py].

    Conventions.
    - Python [int] is [Z]; a payload is a [list Z] of byte values.
    - A timestamp ([time.time()], a float of seconds) is a rational [Q].
    - A Python dict of entities is the list of its values in insertion order;
      every entry is filed under the string of its own id, and no entity has
      a setter for its id.  An entity object is referred to by its position
      in that list, so that a method mutating the object mutates the store.
    - The world outside the repository is an [Env]: the clock, the PJON link
      loop, the uuid generator and the binary32 codec of [struct]. *)

From Stdlib Require Import ZArith QArith Lia Lqa String.
From stdpp Require Import base tactics option list.

Local Open Scope Z_scope.

(** ** Enumerations ([types/types.py], [db/types.py]) *)

Inductive Packets :=
| FB_PACKET_PAIR_DEVICE
| FB_PACKET_READ_SINGLE_REGISTER
| FB_PACKET_READ_MULTIPLE_REGISTERS
| FB_PACKET_WRITE_SINGLE_REGISTER
| FB_PACKET_WRITE_MULTIPLE_REGISTERS
| FB_PACKET_REPORT_SINGLE_REGISTER
| FB_PACKET_READ_ONE_CONFIGURATION
| FB_PACKET_WRITE_ONE_CONFIGURATION
| FB_PACKET_REPORT_ONE_CONFIGURATION
| FB_PACKET_PING
| FB_PACKET_PONG
| FB_PACKET_HELLO
| FB_PACKET_GET_STATE
| FB_PACKET_SET_STATE
| FB_PACKET_REPORT_STATE
| FB_PACKET_CONTROL_DEVICE
| FB_PACKET_PUBSUB_BROADCAST
| FB_PACKET_PUBSUB_SUBSCRIBE
| FB_PACKET_PUBSUB_UNSUBSCRIBE
| FB_PACKET_EXCEPTION.

Definition Packets_value (p : Packets) : Z :=
  match p with
  | FB_PACKET_PAIR_DEVICE => 0x01
  | FB_PACKET_READ_SINGLE_REGISTER => 0x03
  | FB_PACKET_READ_MULTIPLE_REGISTERS => 0x05
  | FB_PACKET_WRITE_SINGLE_REGISTER => 0x07
  | FB_PACKET_WRITE_MULTIPLE_REGISTERS => 0x09
  | FB_PACKET_REPORT_SINGLE_REGISTER => 0x0B
  | FB_PACKET_READ_ONE_CONFIGURATION => 0x0D
  | FB_PACKET_WRITE_ONE_CONFIGURATION => 0x0F
  | FB_PACKET_REPORT_ONE_CONFIGURATION => 0x11
  | FB_PACKET_PING => 0x13
  | FB_PACKET_PONG => 0x15
  | FB_PACKET_HELLO => 0x17
  | FB_PACKET_GET_STATE => 0x19
  | FB_PACKET_SET_STATE => 0x1B
  | FB_PACKET_REPORT_STATE => 0x1D
  | FB_PACKET_CONTROL_DEVICE => 0x1F
  | FB_PACKET_PUBSUB_BROADCAST => 0x21
  | FB_PACKET_PUBSUB_SUBSCRIBE => 0x23
  | FB_PACKET_PUBSUB_UNSUBSCRIBE => 0x25
  | FB_PACKET_EXCEPTION => 0x63
  end.

Definition all_Packets : list Packets :=
  [ FB_PACKET_PAIR_DEVICE; FB_PACKET_READ_SINGLE_REGISTER;
    FB_PACKET_READ_MULTIPLE_REGISTERS; FB_PACKET_WRITE_SINGLE_REGISTER;
    FB_PACKET_WRITE_MULTIPLE_REGISTERS; FB_PACKET_REPORT_SINGLE_REGISTER;
    FB_PACKET_READ_ONE_CONFIGURATION; FB_PACKET_WRITE_ONE_CONFIGURATION;
    FB_PACKET_REPORT_ONE_CONFIGURATION; FB_PACKET_PING; FB_PACKET_PONG;
    FB_PACKET_HELLO; FB_PACKET_GET_STATE; FB_PACKET_SET_STATE;
    FB_PACKET_REPORT_STATE; FB_PACKET_CONTROL_DEVICE;
    FB_PACKET_PUBSUB_BROADCAST; FB_PACKET_PUBSUB_SUBSCRIBE;
    FB_PACKET_PUBSUB_UNSUBSCRIBE; FB_PACKET_EXCEPTION ].

(** [Packets(value)]: the member with that value, if any. *)
Definition Packets_of_value (v : Z) : option Packets :=
  List.find (fun p => Packets_value p =? v) all_Packets.

Inductive PacketsContents := FB_CONTENT_TERMINATOR | FB_CONTENT_DATA_SPACE.

Definition PacketsContents_value (c : PacketsContents) : Z :=
  match c with FB_CONTENT_TERMINATOR => 0x00 | FB_CONTENT_DATA_SPACE => 0x20 end.

Inductive PairingCommands :=
| FB_PAIRING_CMD_PROVIDE_ADDRESS
| FB_PAIRING_CMD_SET_ADDRESS
| FB_PAIRING_CMD_PROVIDE_ABOUT_INFO
| FB_PAIRING_CMD_PROVIDE_DEVICE_MODEL
| FB_PAIRING_CMD_PROVIDE_DEVICE_MANUFACTURER
| FB_PAIRING_CMD_PROVIDE_DEVICE_VERSION
| FB_PAIRING_CMD_PROVIDE_FIRMWARE_MANUFACTURER
| FB_PAIRING_CMD_PROVIDE_FIRMWARE_VERSION
| FB_PAIRING_CMD_PROVIDE_REGISTERS_SIZE
| FB_PAIRING_CMD_PROVIDE_REGISTERS_STRUCTURE
| FB_PAIRING_CMD_PROVIDE_SETTINGS_SIZE
| FB_PAIRING_CMD_PROVIDE_SETTINGS_STRUCTURE
| FB_PAIRING_CMD_FINISHED.

Definition PairingCommands_value (c : PairingCommands) : Z :=
  match c with
  | FB_PAIRING_CMD_PROVIDE_ADDRESS => 0x01
  | FB_PAIRING_CMD_SET_ADDRESS => 0x02
  | FB_PAIRING_CMD_PROVIDE_ABOUT_INFO => 0x03
  | FB_PAIRING_CMD_PROVIDE_DEVICE_MODEL => 0x04
  | FB_PAIRING_CMD_PROVIDE_DEVICE_MANUFACTURER => 0x05
  | FB_PAIRING_CMD_PROVIDE_DEVICE_VERSION => 0x06
  | FB_PAIRING_CMD_PROVIDE_FIRMWARE_MANUFACTURER => 0x07
  | FB_PAIRING_CMD_PROVIDE_FIRMWARE_VERSION => 0x08
  | FB_PAIRING_CMD_PROVIDE_REGISTERS_SIZE => 0x09
  | FB_PAIRING_CMD_PROVIDE_REGISTERS_STRUCTURE => 0x0A
  | FB_PAIRING_CMD_PROVIDE_SETTINGS_SIZE => 0x0B
  | FB_PAIRING_CMD_PROVIDE_SETTINGS_STRUCTURE => 0x0C
  | FB_PAIRING_CMD_FINISHED => 0x0D
  end.

(** The states a device reports on the wire ([types.DeviceStates], imported
    in [helpers.py] as [DevicePayloadStates]). *)
Inductive DevicePayloadStates :=
| FB_DEVICE_STATE_RUNNING
| FB_DEVICE_STATE_STOPPED
| FB_DEVICE_STATE_PAIRING
| FB_DEVICE_STATE_ERROR.

Definition DevicePayloadStates_of_value (v : Z) : option DevicePayloadStates :=
  if v =? 0x01 then Some FB_DEVICE_STATE_RUNNING
  else if v =? 0x02 then Some FB_DEVICE_STATE_STOPPED
  else if v =? 0x03 then Some FB_DEVICE_STATE_PAIRING
  else if v =? 0x04 then Some FB_DEVICE_STATE_ERROR
  else None.

Inductive DataTypes :=
| FB_DATA_TYPE_UNKNOWN
| FB_DATA_TYPE_UINT8
| FB_DATA_TYPE_UINT16
| FB_DATA_TYPE_UINT32
| FB_DATA_TYPE_INT8
| FB_DATA_TYPE_INT16
| FB_DATA_TYPE_INT32
| FB_DATA_TYPE_FLOAT32
| FB_DATA_TYPE_BOOL
| FB_DATA_TYPE_TIME
| FB_DATA_TYPE_DATE
| FB_DATA_TYPE_DATETIME.

Inductive RegistersTypes :=
| FB_REGISTER_DI
| FB_REGISTER_DO
| FB_REGISTER_AI
| FB_REGISTER_AO.

Definition RegistersTypes_value (t : RegistersTypes) : Z :=
  match t with
  | FB_REGISTER_DI => 0x01
  | FB_REGISTER_DO => 0x02
  | FB_REGISTER_AI => 0x03
  | FB_REGISTER_AO => 0x04
  end.

Definition RegistersTypes_of_value (v : Z) : option RegistersTypes :=
  if v =? 0x01 then Some FB_REGISTER_DI
  else if v =? 0x02 then Some FB_REGISTER_DO
  else if v =? 0x03 then Some FB_REGISTER_AI
  else if v =? 0x04 then Some FB_REGISTER_AO
  else None.

Inductive SettingsTypes := FB_SETTINGS_DEVICE | FB_SETTINGS_REGISTER.

Definition SettingsTypes_value (t : SettingsTypes) : Z :=
  match t with FB_SETTINGS_DEVICE => 0x01 | FB_SETTINGS_REGISTER => 0x02 end.

(** Lifecycle states of the gateway ([db/types.py]). *)
Inductive DeviceStates :=
| STATE_CONNECTED
| STATE_DISCONNECTED
| STATE_INIT
| STATE_READY
| STATE_RUNNING
| STATE_SLEEPING
| STATE_STOPPED
| STATE_LOST
| STATE_ALERT
| STATE_UNKNOWN.

#[global] Instance Packets_eq_dec : EqDecision Packets.
Proof. solve_decision. Defined.
#[global] Instance PairingCommands_eq_dec : EqDecision PairingCommands.
Proof. solve_decision. Defined.
#[global] Instance DataTypes_eq_dec : EqDecision DataTypes.
Proof. solve_decision. Defined.
#[global] Instance RegistersTypes_eq_dec : EqDecision RegistersTypes.
Proof. solve_decision. Defined.
#[global] Instance SettingsTypes_eq_dec : EqDecision SettingsTypes.
Proof. solve_decision. Defined.
#[global] Instance DeviceStates_eq_dec : EqDecision DeviceStates.
Proof. solve_decision. Defined.

(** ** Values and identifiers *)

(** A [uuid.UUID], by its 128-bit integer. *)
Definition UUID := N.

(** What a register value, or the argument of [publish], can be.  A Python
    float is carried by its IEEE-754 binary64 bit pattern. *)
Inductive Value :=
| VNone
| VBool (b : bool)
| VInt (z : Z)
| VFloat (bits : Z)
| VStr (s : string).

(** Python truthiness of a value ([if write_value:]). *)
Definition truthy (v : Value) : bool :=
  match v with
  | VNone => false
  | VBool b => b
  | VInt z => negb (z =? 0)
  | VFloat bits => negb (Z.land bits (2 ^ 63 - 1) =? 0)
  | VStr s => negb (String.eqb s EmptyString)
  end.

(** [v is True]: identity with the singleton [True], so only the boolean. *)
Definition is_True (v : Value) : bool :=
  match v with VBool true => true | _ => false end.

(** [expected == "toggle"]. *)
Definition eq_str (v : Value) (s : string) : bool :=
  match v with VStr s' => String.eqb s' s | _ => false end.

(** ** Outcomes of Python code *)

Inductive exn :=
| IndexError
| ValueError
| TypeError
| AttributeError
| StructError
| OverflowError
| InvalidStateException
| InvalidArgumentException
| PjonError (code : Z)
| DanglingReference.
(* [DanglingReference]: a position outside the store; no Python execution
   produces it, objects being kept alive by their references. *)

(** What a call into a library outside the repository gives back. *)
Inductive Outcome (A : Type) :=
| Returns (a : A)
| Raises (e : exn).
Arguments Returns {A} a.
Arguments Raises {A} e.

(** ** Entities ([entities/device.py], [entities/register.py],
       [entities/setting.py]) *)

Module DeviceEntity.

Record t := mk {
  id : UUID;
  address : Z;
  state : DeviceStates;
  serial_number : string;
  max_packet_length : Z;
  description_support : bool;
  settings_support : bool;
  pub_sub_support : bool;
  hw_model : string;
  hw_manufacturer : string;
  hw_version : option string;
  fw_manufacturer : string;
  fw_version : option string;
  waiting_for_packet : option Packets;
  last_packet_sent_timestamp : Q;
  attempts : Z;
  sampling_time : Q;
  reading_registers_timestamp : Q;
  reading_register_address : option Z;
  reading_register_type : option RegistersTypes;
  reading_settings_timestamp : Q;
  reading_setting_address : option Z;
  reading_setting_type : option SettingsTypes;
  lost_timestamp : Q;
  pairing_cmd : option PairingCommands
}.

(** [__init__], with the class-level defaults of the other attributes. *)
Definition init (index : UUID) (address : Z) (serial_number : string)
    (max_packet_length : Z)
    (description_support settings_support pub_sub_support : bool) : t :=
  {| id := index; address := address; state := STATE_UNKNOWN;
     serial_number := serial_number; max_packet_length := max_packet_length;
     description_support := description_support;
     settings_support := settings_support;
     pub_sub_support := pub_sub_support;
     hw_model := "custom"; hw_manufacturer := "generic"; hw_version := None;
     fw_manufacturer := "generic"; fw_version := None;
     waiting_for_packet := None; last_packet_sent_timestamp := 0%Q;
     attempts := 0; sampling_time := 10%Q;
     reading_registers_timestamp := 0%Q;
     reading_register_address := None; reading_register_type := None;
     reading_settings_timestamp := 0%Q;
     reading_setting_address := None; reading_setting_type := None;
     lost_timestamp := 0%Q; pairing_cmd := None |}.

(** Assignments to one attribute. *)
Definition with_state (s : DeviceStates) (d : t) : t :=
  mk (id d) (address d) s (serial_number d) (max_packet_length d)
     (description_support d) (settings_support d) (pub_sub_support d)
     (hw_model d) (hw_manufacturer d) (hw_version d) (fw_manufacturer d)
     (fw_version d) (waiting_for_packet d) (last_packet_sent_timestamp d)
     (attempts d) (sampling_time d) (reading_registers_timestamp d)
     (reading_register_address d) (reading_register_type d)
     (reading_settings_timestamp d) (reading_setting_address d)
     (reading_setting_type d) (lost_timestamp d) (pairing_cmd d).

Definition with_waiting_for_packet (p : option Packets) (d : t) : t :=
  mk (id d) (address d) (state d) (serial_number d) (max_packet_length d)
     (description_support d) (settings_support d) (pub_sub_support d)
     (hw_model d) (hw_manufacturer d) (hw_version d) (fw_manufacturer d)
     (fw_version d) p (last_packet_sent_timestamp d)
     (attempts d) (sampling_time d) (reading_registers_timestamp d)
     (reading_register_address d) (reading_register_type d)
     (reading_settings_timestamp d) (reading_setting_address d)
     (reading_setting_type d) (lost_timestamp d) (pairing_cmd d).

Definition with_last_packet_sent_timestamp (ts : Q) (d : t) : t :=
  mk (id d) (address d) (state d) (serial_number d) (max_packet_length d)
     (description_support d) (settings_support d) (pub_sub_support d)
     (hw_model d) (hw_manufacturer d) (hw_version d) (fw_manufacturer d)
     (fw_version d) (waiting_for_packet d) ts
     (attempts d) (sampling_time d) (reading_registers_timestamp d)
     (reading_register_address d) (reading_register_type d)
     (reading_settings_timestamp d) (reading_setting_address d)
     (reading_setting_type d) (lost_timestamp d) (pairing_cmd d).

Definition with_attempts (n : Z) (d : t) : t :=
  mk (id d) (address d) (state d) (serial_number d) (max_packet_length d)
     (description_support d) (settings_support d) (pub_sub_support d)
     (hw_model d) (hw_manufacturer d) (hw_version d) (fw_manufacturer d)
     (fw_version d) (waiting_for_packet d) (last_packet_sent_timestamp d)
     n (sampling_time d) (reading_registers_timestamp d)
     (reading_register_address d) (reading_register_type d)
     (reading_settings_timestamp d) (reading_setting_address d)
     (reading_setting_type d) (lost_timestamp d) (pairing_cmd d).

Definition with_reading_registers_timestamp (ts : Q) (d : t) : t :=
  mk (id d) (address d) (state d) (serial_number d) (max_packet_length d)
     (description_support d) (settings_support d) (pub_sub_support d)
     (hw_model d) (hw_manufacturer d) (hw_version d) (fw_manufacturer d)
     (fw_version d) (waiting_for_packet d) (last_packet_sent_timestamp d)
     (attempts d) (sampling_time d) ts
     (reading_register_address d) (reading_register_type d)
     (reading_settings_timestamp d) (reading_setting_address d)
     (reading_setting_type d) (lost_timestamp d) (pairing_cmd d).

Definition with_reading_settings_timestamp (ts : Q) (d : t) : t :=
  mk (id d) (address d) (state d) (serial_number d) (max_packet_length d)
     (description_support d) (settings_support d) (pub_sub_support d)
     (hw_model d) (hw_manufacturer d) (hw_version d) (fw_manufacturer d)
     (fw_version d) (waiting_for_packet d) (last_packet_sent_timestamp d)
     (attempts d) (sampling_time d) (reading_registers_timestamp d)
     (reading_register_address d) (reading_register_type d)
     ts (reading_setting_address d)
     (reading_setting_type d) (lost_timestamp d) (pairing_cmd d).

Definition with_lost_timestamp (ts : Q) (d : t) : t :=
  mk (id d) (address d) (state d) (serial_number d) (max_packet_length d)
     (description_support d) (settings_support d) (pub_sub_support d)
     (hw_model d) (hw_manufacturer d) (hw_version d) (fw_manufacturer d)
     (fw_version d) (waiting_for_packet d) (last_packet_sent_timestamp d)
     (attempts d) (sampling_time d) (reading_registers_timestamp d)
     (reading_register_address d) (reading_register_type d)
     (reading_settings_timestamp d) (reading_setting_address d)
     (reading_setting_type d) ts (pairing_cmd d).

Definition is_ready (d : t) : bool := bool_decide (state d = STATE_RUNNING).

Definition is_lost (d : t) : bool := bool_decide (state d = STATE_LOST).

Definition set_last_packet_timestamp (last_packet_sent : Q) (d : t) : t :=
  with_last_packet_sent_timestamp last_packet_sent d.

Definition set_waiting_for_packet (p : Packets) (d : t) : t :=
  with_waiting_for_packet (Some p) d.

Definition reset_waiting_for_packet (d : t) : t :=
  with_waiting_for_packet None d.

Definition increment_attempts (d : t) : t :=
  with_attempts (attempts d + 1) d.

Definition reset_communication (d : t) : t :=
  with_attempts 0 (with_waiting_for_packet None d).

Definition set_reading_setting (setting_address : Z)
    (setting_type : SettingsTypes) (d : t) : t :=
  mk (id d) (address d) (state d) (serial_number d) (max_packet_length d)
     (description_support d) (settings_support d) (pub_sub_support d)
     (hw_model d) (hw_manufacturer d) (hw_version d) (fw_manufacturer d)
     (fw_version d) (waiting_for_packet d) (last_packet_sent_timestamp d)
     (attempts d) (sampling_time d) (reading_registers_timestamp d)
     (reading_register_address d) (reading_register_type d)
     (reading_settings_timestamp d) (Some setting_address)
     (Some setting_type) (lost_timestamp d) (pairing_cmd d).

Definition get_reading_setting (d : t) : option Z * option SettingsTypes :=
  (reading_setting_address d, reading_setting_type d).

(** Further methods of the device. *)
Definition set_address (address : Z) (d : t) : t :=
  mk (id d) address (state d) (serial_number d) (max_packet_length d)
     (description_support d) (settings_support d) (pub_sub_support d)
     (hw_model d) (hw_manufacturer d) (hw_version d) (fw_manufacturer d)
     (fw_version d) (waiting_for_packet d) (last_packet_sent_timestamp d)
     (attempts d) (sampling_time d) (reading_registers_timestamp d)
     (reading_register_address d) (reading_register_type d)
     (reading_settings_timestamp d) (reading_setting_address d)
     (reading_setting_type d) (lost_timestamp d) (pairing_cmd d).

Definition set_max_packet_length (max_packet_length : Z) (d : t) : t :=
  mk (id d) (address d) (state d) (serial_number d) max_packet_length
     (description_support d) (settings_support d) (pub_sub_support d)
     (hw_model d) (hw_manufacturer d) (hw_version d) (fw_manufacturer d)
     (fw_version d) (waiting_for_packet d) (last_packet_sent_timestamp d)
     (attempts d) (sampling_time d) (reading_registers_timestamp d)
     (reading_register_address d) (reading_register_type d)
     (reading_settings_timestamp d) (reading_setting_address d)
     (reading_setting_type d) (lost_timestamp d) (pairing_cmd d).

Definition set_description_support (description_support : bool) (d : t) : t :=
  mk (id d) (address d) (state d) (serial_number d) (max_packet_length d)
     description_support (settings_support d) (pub_sub_support d)
     (hw_model d) (hw_manufacturer d) (hw_version d) (fw_manufacturer d)
     (fw_version d) (waiting_for_packet d) (last_packet_sent_timestamp d)
     (attempts d) (sampling_time d) (reading_registers_timestamp d)
     (reading_register_address d) (reading_register_type d)
     (reading_settings_timestamp d) (reading_setting_address d)
     (reading_setting_type d) (lost_timestamp d) (pairing_cmd d).

(** [get_settings_support(settings_support)] assigns the attribute, its name
    notwithstanding. *)
Definition get_settings_support (settings_support : bool) (d : t) : t :=
  mk (id d) (address d) (state d) (serial_number d) (max_packet_length d)
     (description_support d) settings_support (pub_sub_support d)
     (hw_model d) (hw_manufacturer d) (hw_version d) (fw_manufacturer d)
     (fw_version d) (waiting_for_packet d) (last_packet_sent_timestamp d)
     (attempts d) (sampling_time d) (reading_registers_timestamp d)
     (reading_register_address d) (reading_register_type d)
     (reading_settings_timestamp d) (reading_setting_address d)
     (reading_setting_type d) (lost_timestamp d) (pairing_cmd d).

Definition set_pub_sub_support (pub_sub_support : bool) (d : t) : t :=
  mk (id d) (address d) (state d) (serial_number d) (max_packet_length d)
     (description_support d) (settings_support d) pub_sub_support
     (hw_model d) (hw_manufacturer d) (hw_version d) (fw_manufacturer d)
     (fw_version d) (waiting_for_packet d) (last_packet_sent_timestamp d)
     (attempts d) (sampling_time d) (reading_registers_timestamp d)
     (reading_register_address d) (reading_register_type d)
     (reading_settings_timestamp d) (reading_setting_address d)
     (reading_setting_type d) (lost_timestamp d) (pairing_cmd d).

Definition set_pairing_cmd (cmd : option PairingCommands) (d : t) : t :=
  mk (id d) (address d) (state d) (serial_number d) (max_packet_length d)
     (description_support d) (settings_support d) (pub_sub_support d)
     (hw_model d) (hw_manufacturer d) (hw_version d) (fw_manufacturer d)
     (fw_version d) (waiting_for_packet d) (last_packet_sent_timestamp d)
     (attempts d) (sampling_time d) (reading_registers_timestamp d)
     (reading_register_address d) (reading_register_type d)
     (reading_settings_timestamp d) (reading_setting_address d)
     (reading_setting_type d) (lost_timestamp d) cmd.

Definition set_reading_register (register_address : Z)
    (register_type : RegistersTypes) (d : t) : t :=
  mk (id d) (address d) (state d) (serial_number d) (max_packet_length d)
     (description_support d) (settings_support d) (pub_sub_support d)
     (hw_model d) (hw_manufacturer d) (hw_version d) (fw_manufacturer d)
     (fw_version d) (waiting_for_packet d) (last_packet_sent_timestamp d)
     (attempts d) (sampling_time d) (reading_registers_timestamp d)
     (Some register_address) (Some register_type)
     (reading_settings_timestamp d) (reading_setting_address d)
     (reading_setting_type d) (lost_timestamp d) (pairing_cmd d).

(** [reset_reading_register], the timestamp being 0 or the clock reading. *)
Definition reset_reading_register_at (timestamp : Q) (d : t) : t :=
  mk (id d) (address d) (state d) (serial_number d) (max_packet_length d)
     (description_support d) (settings_support d) (pub_sub_support d)
     (hw_model d) (hw_manufacturer d) (hw_version d) (fw_manufacturer d)
     (fw_version d) (waiting_for_packet d) (last_packet_sent_timestamp d)
     (attempts d) (sampling_time d) timestamp None None
     (reading_settings_timestamp d) (reading_setting_address d)
     (reading_setting_type d) (lost_timestamp d) (pairing_cmd d).

Definition set_hw_model (model : string) (d : t) : t :=
  mk (id d) (address d) (state d) (serial_number d) (max_packet_length d)
     (description_support d) (settings_support d) (pub_sub_support d) model
     (hw_manufacturer d) (hw_version d) (fw_manufacturer d) (fw_version d)
     (waiting_for_packet d) (last_packet_sent_timestamp d) (attempts d)
     (sampling_time d) (reading_registers_timestamp d)
     (reading_register_address d) (reading_register_type d)
     (reading_settings_timestamp d) (reading_setting_address d)
     (reading_setting_type d) (lost_timestamp d) (pairing_cmd d).

Definition set_hw_manufacturer (manufacturer : string) (d : t) : t :=
  mk (id d) (address d) (state d) (serial_number d) (max_packet_length d)
     (description_support d) (settings_support d) (pub_sub_support d)
     (hw_model d) manufacturer (hw_version d) (fw_manufacturer d)
     (fw_version d) (waiting_for_packet d) (last_packet_sent_timestamp d)
     (attempts d) (sampling_time d) (reading_registers_timestamp d)
     (reading_register_address d) (reading_register_type d)
     (reading_settings_timestamp d) (reading_setting_address d)
     (reading_setting_type d) (lost_timestamp d) (pairing_cmd d).

Definition set_hw_version (version : string) (d : t) : t :=
  mk (id d) (address d) (state d) (serial_number d) (max_packet_length d)
     (description_support d) (settings_support d) (pub_sub_support d)
     (hw_model d) (hw_manufacturer d) (Some version) (fw_manufacturer d)
     (fw_version d) (waiting_for_packet d) (last_packet_sent_timestamp d)
     (attempts d) (sampling_time d) (reading_registers_timestamp d)
     (reading_register_address d) (reading_register_type d)
     (reading_settings_timestamp d) (reading_setting_address d)
     (reading_setting_type d) (lost_timestamp d) (pairing_cmd d).

Definition set_fw_manufacturer (manufacturer : string) (d : t) : t :=
  mk (id d) (address d) (state d) (serial_number d) (max_packet_length d)
     (description_support d) (settings_support d) (pub_sub_support d)
     (hw_model d) (hw_manufacturer d) (hw_version d) manufacturer
     (fw_version d) (waiting_for_packet d) (last_packet_sent_timestamp d)
     (attempts d) (sampling_time d) (reading_registers_timestamp d)
     (reading_register_address d) (reading_register_type d)
     (reading_settings_timestamp d) (reading_setting_address d)
     (reading_setting_type d) (lost_timestamp d) (pairing_cmd d).

Definition set_fw_version (version : string) (d : t) : t :=
  mk (id d) (address d) (state d) (serial_number d) (max_packet_length d)
     (description_support d) (settings_support d) (pub_sub_support d)
     (hw_model d) (hw_manufacturer d) (hw_version d) (fw_manufacturer d)
     (Some version) (waiting_for_packet d) (last_packet_sent_timestamp d)
     (attempts d) (sampling_time d) (reading_registers_timestamp d)
     (reading_register_address d) (reading_register_type d)
     (reading_settings_timestamp d) (reading_setting_address d)
     (reading_setting_type d) (lost_timestamp d) (pairing_cmd d).

Definition get_reading_register (d : t) : option Z * option RegistersTypes :=
  (reading_register_address d, reading_register_type d).

End DeviceEntity.

Module RegisterEntity.

(** [set_data_type]: the size that goes with a data type.  No branch
    covers TIME, DATE and DATETIME, which leave the size as it was. *)
Definition size_of (data_type : DataTypes) (previous : Z) : Z :=
  match data_type with
  | FB_DATA_TYPE_UINT8 | FB_DATA_TYPE_INT8 => 1
  | FB_DATA_TYPE_UINT16 | FB_DATA_TYPE_INT16 => 2
  | FB_DATA_TYPE_UINT32 | FB_DATA_TYPE_INT32 | FB_DATA_TYPE_FLOAT32 => 4
  | FB_DATA_TYPE_BOOL => 1
  | FB_DATA_TYPE_UNKNOWN => 0
  | _ => previous
  end.

Record t := mk {
  id : UUID;
  key : string;
  channel_id : UUID;
  device_id : UUID;
  type : RegistersTypes;
  data_type : DataTypes;
  size : Z;
  value : Value;
  address : Z
}.

Definition set_data_type (dt : DataTypes) (r : t) : t :=
  mk (id r) (key r) (channel_id r) (device_id r) (type r) dt
     (size_of dt (size r)) (value r) (address r).

Definition init (index : UUID) (key : string) (channel_id device_id : UUID)
    (register_address : Z) (register_type : RegistersTypes)
    (register_data_type : DataTypes) : t :=
  set_data_type register_data_type
    (mk index key channel_id device_id register_type FB_DATA_TYPE_UNKNOWN
        0 VNone register_address).

Definition is_writable (r : t) : bool :=
  bool_decide (type r = FB_REGISTER_DO) || bool_decide (type r = FB_REGISTER_AO).

Definition set_value (v : Value) (r : t) : t :=
  mk (id r) (key r) (channel_id r) (device_id r) (type r) (data_type r)
     (size r) v (address r).

End RegisterEntity.

Module SettingEntity.

(** [DeviceSettingEntity] and [RegisterSettingEntity]; the latter also
    names the register it configures. *)
Record t := mk {
  id : UUID;
  device_id : UUID;
  name : option string;
  data_type : DataTypes;
  size : Z;
  value : Value;
  address : Z;
  register_address : option Z;
  register_type : option RegistersTypes
}.

Definition init (index device_id : UUID) (setting_address : Z) : t :=
  mk index device_id None FB_DATA_TYPE_UNKNOWN 0 VNone setting_address
     None None.

Definition set_name (name : string) (s : t) : t :=
  mk (id s) (device_id s) (Some name) (data_type s) (size s) (value s)
     (address s) (register_address s) (register_type s).

(** [set_data_type], with the sizes of [RegisterEntity.set_data_type]. *)
Definition set_data_type (dt : DataTypes) (s : t) : t :=
  mk (id s) (device_id s) (name s) dt (RegisterEntity.size_of dt (size s))
     (value s) (address s) (register_address s) (register_type s).

Definition set_register (register_address : Z)
    (register_type : RegistersTypes) (s : t) : t :=
  mk (id s) (device_id s) (name s) (data_type s) (size s) (value s)
     (address s) (Some register_address) (Some register_type).

End SettingEntity.

(** ** The connector's state and its environment *)

(** Calls made on the gateway container ([propagate_*], [delete_*],
    [update_register_value]). *)
Inductive Upstream :=
| add_or_edit_device (device_id : UUID) (identifier : string)
    (state : DeviceStates)
| delete_channel_property (property_id : UUID)
| send_channel_property_to_storage (property_id : UUID)
    (actual_value previous_value : Value).

Record Connector := mkConnector {
  devices : list DeviceEntity.t;
  registers : list RegisterEntity.t;
  devices_settings : list SettingEntity.t;
  registers_settings : list SettingEntity.t;
  sent : list (Z * list Z);      (* frames handed to the link, oldest first *)
  upstream : list Upstream;     (* container calls, oldest first *)
  time_calls : nat;             (* readings of [time.time()] so far *)
  loop_calls : nat;             (* calls of the link's [loop()] so far *)
  uuid_calls : nat              (* calls of [uuid.uuid4()] so far *)
}.

Record Env := mkEnv {
  clock : nat -> Q;                           (* n-th reading of [time.time()] *)
  pjon_loop : nat -> Outcome (Z * Z);         (* n-th [loop()]: queue size, result *)
  PJON_ACK : Z;                               (* constant of [pjon_cython] *)
  uuid4 : nat -> UUID;                        (* n-th [uuid.uuid4()] *)
  struct_pack_f : Value -> Outcome (list Z);  (* [struct.pack("<f", v)] *)
  struct_unpack_f : list Z -> Outcome Value   (* [struct.unpack("<f", b)] *)
}.

(** How a method ends: it returns, an exception leaves it, or the polling
    budget given to a busy-wait loop ran out ([Hang]).  The first two carry
    the connector as the method left it. *)
Inductive Res (A : Type) :=
| Ok (a : A) (w : Connector)
| Raise (e : exn) (w : Connector)
| Hang.
Arguments Ok {A} a w.
Arguments Raise {A} e w.
Arguments Hang {A}.

(** State and exceptions threaded through the methods. *)
Definition M (A : Type) : Type := Connector -> Res A.

#[global] Instance M_ret : MRet M := fun A a w => Ok a w.
#[global] Instance M_bind : MBind M := fun A B f m w =>
  match m w with
  | Ok a w' => f a w'
  | Raise e w' => Raise e w'
  | Hang => Hang
  end.

Definition raise {A} (e : exn) : M A := fun w => Raise e w.
Definition get : M Connector := fun w => Ok w w.
Definition modify (f : Connector -> Connector) : M unit := fun w => Ok tt (f w).

(** An outcome of a library call, inside a method. *)
Definition lift {A} (o : Outcome A) : M A :=
  match o with Returns a => mret a | Raises e => raise e end.

Definition with_devices (ds : list DeviceEntity.t) (w : Connector) : Connector :=
  mkConnector ds (registers w) (devices_settings w) (registers_settings w)
    (sent w) (upstream w) (time_calls w) (loop_calls w) (uuid_calls w).

Definition with_registers (rs : list RegisterEntity.t) (w : Connector) : Connector :=
  mkConnector (devices w) rs (devices_settings w) (registers_settings w)
    (sent w) (upstream w) (time_calls w) (loop_calls w) (uuid_calls w).

Definition with_sent (fs : list (Z * list Z)) (w : Connector) : Connector :=
  mkConnector (devices w) (registers w) (devices_settings w)
    (registers_settings w) fs (upstream w) (time_calls w) (loop_calls w)
    (uuid_calls w).

Definition with_upstream (us : list Upstream) (w : Connector) : Connector :=
  mkConnector (devices w) (registers w) (devices_settings w)
    (registers_settings w) (sent w) us (time_calls w) (loop_calls w)
    (uuid_calls w).

Definition with_time_calls (n : nat) (w : Connector) : Connector :=
  mkConnector (devices w) (registers w) (devices_settings w)
    (registers_settings w) (sent w) (upstream w) n (loop_calls w)
    (uuid_calls w).

Definition with_loop_calls (n : nat) (w : Connector) : Connector :=
  mkConnector (devices w) (registers w) (devices_settings w)
    (registers_settings w) (sent w) (upstream w) (time_calls w) n
    (uuid_calls w).

Definition with_uuid_calls (n : nat) (w : Connector) : Connector :=
  mkConnector (devices w) (registers w) (devices_settings w)
    (registers_settings w) (sent w) (upstream w) (time_calls w)
    (loop_calls w) n.

(** ** Python built-ins *)

(** [range(lo, hi)]. *)
Definition py_range (lo hi : Z) : list Z := seqZ lo (hi - lo).

(** [payload[i]] on a bytes object, for [i >= 0]. *)
Definition payload_at (payload : list Z) (i : Z) : M Z :=
  if i <? 0 then raise IndexError
  else match payload !! Z.to_nat i with
       | Some b => mret b
       | None => raise IndexError
       end.

(** [d[key] = x] on a dict filed by [key]: replaces the entry of that key
    where it stands, or adds a new last entry.  Gives the position too. *)
Definition dict_set {A} (key : A -> UUID) (x : A) (l : list A) : nat * list A :=
  match list_find (fun y => key y = key x) l with
  | Some (i, _) => (i, <[i := x]> l)
  | None => (length l, l ++ [x])
  end.

(** [round(n / d)] for integers [n] and [d > 0]: Python 3 rounds the float
    quotient to the nearest integer, ties to the even one.  Exact on the
    integers of packet lengths, whose quotients are far from the rounding
    error of the float division unless they are ties. *)
Definition py_round_div (n d : Z) : Z :=
  let q := n / d in
  let r := n mod d in
  if 2 * r <? d then q
  else if d <? 2 * r then q + 1
  else if Z.even q then q else q + 1.

Section FbBus.

(** [budget] bounds the polls of one busy-wait for an acknowledgement. *)
Context (env : Env) (budget : nat).

(** ** The world outside *)

(** [time.time()]. *)
Definition time_time : M Q := fun w =>
  Ok (clock env (time_calls w)) (with_time_calls (S (time_calls w)) w).

(** [uuid.uuid4()]. *)
Definition uuid_uuid4 : M UUID := fun w =>
  Ok (uuid4 env (uuid_calls w)) (with_uuid_calls (S (uuid_calls w)) w).

(** The link's [loop()].  A call that gives [PJON_ACK] is one in which the
    library has handed a received frame to [PjonTransport.receive], and so
    to the receivers of the connector; the oracle gives the result of the
    call only.  What a wait leaves in the registry is therefore stated, in
    the properties, for waits that see no acknowledgement, in which no frame
    comes in. *)
Definition link_loop : M (Z * Z) := fun w =>
  match pjon_loop env (loop_calls w) with
  | Returns r => Ok r (with_loop_calls (S (loop_calls w)) w)
  | Raises e => Raise e (with_loop_calls (S (loop_calls w)) w)
  end.

(** ** Methods of a device that read the clock *)

(** [DeviceEntity.set_state]. *)
Definition DeviceEntity_set_state (state : DeviceStates) (d : DeviceEntity.t)
    : M DeviceEntity.t :=
  let d := DeviceEntity.with_state state d in
  if bool_decide (state = STATE_LOST) then
    now ← time_time;
    let d := DeviceEntity.with_lost_timestamp now d in
    let d := DeviceEntity.reset_communication d in
    mret (DeviceEntity.with_last_packet_sent_timestamp 0%Q d)
  else if bool_decide (state = STATE_READY) then
    let d := DeviceEntity.with_reading_registers_timestamp 0%Q d in
    mret (DeviceEntity.with_reading_settings_timestamp 0%Q d)
  else mret d.

(** [DeviceEntity.set_alive]. *)
Definition DeviceEntity_set_alive (d : DeviceEntity.t) : M DeviceEntity.t :=
  d ← DeviceEntity_set_state STATE_UNKNOWN d;
  let d := DeviceEntity.reset_communication d in
  mret (DeviceEntity.with_lost_timestamp 0%Q d).

(** ** References into the device store *)

(** The device object at a position. *)
Definition deref (i : nat) : M DeviceEntity.t := fun w =>
  match devices w !! i with
  | Some d => Ok d w
  | None => Raise DanglingReference w
  end.

(** A method call on the object at a position: the object is changed where
    it stands. *)
Definition on_device (i : nat) (method : DeviceEntity.t -> M DeviceEntity.t)
    : M unit :=
  d ← deref i;
  d' ← method d;
  modify (fun w => with_devices (<[i := d']> (devices w)) w).

Definition call (i : nat) (method : DeviceEntity.t -> DeviceEntity.t) : M unit :=
  on_device i (fun d => mret (method d)).

(** ** The registry ([FbBusConnector]) *)

Definition MAX_ADDRESS : Z := 253.

Definition get_device_by_id (w : Connector) (identifier : UUID) : option nat :=
  fst <$> list_find (fun d => DeviceEntity.id d = identifier) (devices w).

(** The sender of a frame may be absent ([None]), which no device's address
    equals. *)
Definition get_device_by_address (w : Connector) (address : option Z)
    : option nat :=
  fst <$> list_find (fun d => Some (DeviceEntity.address d) = address) (devices w).

(** [update_device], for an object of the store: files it under its id. *)
Definition update_device (i : nat) : M unit :=
  d ← deref i;
  modify (fun w =>
    match list_find (fun y => DeviceEntity.id y = DeviceEntity.id d) (devices w) with
    | Some (j, _) => with_devices (<[j := d]> (devices w)) w
    | None => w
    end).

Definition propagate_device_state (i : nat) : M unit :=
  d ← deref i;
  modify (fun w =>
    with_upstream
      (upstream w ++ [add_or_edit_device (DeviceEntity.id d)
                        (DeviceEntity.serial_number d) (DeviceEntity.state d)])
      w).

(** [create_device]; gives the position of the new device. *)
Definition create_device (serial_number : string) (max_packet_length : Z)
    : M nat :=
  w ← get;
  let reserved_addresses := DeviceEntity.address <$> devices w in
  match list_find (fun i => i ∉ reserved_addresses) (py_range 1 MAX_ADDRESS) with
  | None => raise InvalidStateException
  | Some (_, free_address) =>
      index ← uuid_uuid4;
      let device :=
        DeviceEntity.init index free_address serial_number max_packet_length
          false false false in
      device ← DeviceEntity_set_state STATE_CONNECTED device;
      w ← get;
      let '(i, ds) := dict_set DeviceEntity.id device (devices w) in
      modify (with_devices ds);;
      mret i
  end.

(** ** The transport ([transport/pjon.py]) *)

(** [bytes(payload)] accepts integers in [range(0, 256)] only. *)
Definition bytes_ok (payload : list Z) : bool :=
  forallb (fun b => (0 <=? b) && (b <? 256)) payload.

(** The busy-wait of [send_packet]:
    [while (time.time() - current_time) <= waiting_time]. *)
Fixpoint wait_for_ack (polls : nat) (current_time waiting_time : Q) : M bool :=
  match polls with
  | O => fun _ => Hang
  | S polls' =>
      now ← time_time;
      if Qle_bool (now - current_time) waiting_time then
        '(packets_to_send, send_packet_result) ← link_loop;
        if send_packet_result =? PJON_ACK env then mret true
        else wait_for_ack polls' current_time waiting_time
      else mret false
  end.

(** [PjonTransport.send_packet].  The frame is handed to the link, the
    log line names the packet ([Packets(payload[0])]), then the wait. *)
Definition send_packet (address : Z) (payload : list Z) (waiting_time : Q)
    : M bool :=
  if negb (bytes_ok payload) then raise ValueError
  else
    modify (fun w => with_sent (sent w ++ [(address, payload)]) w);;
    identifier ← payload_at payload 0;
    match Packets_of_value identifier with
    | None => raise ValueError
    | Some _ =>
        if negb (Qle_bool waiting_time 0) then
          current_time ← time_time;
          wait_for_ack budget current_time waiting_time
        else mret true
    end.

(** ** The value codec ([utilities/helpers.py]) *)

(** [Helpers.transform_state_for_gateway]. *)
Definition transform_state_for_gateway (received_state : Z) : DeviceStates :=
  match DevicePayloadStates_of_value received_state with
  | Some FB_DEVICE_STATE_RUNNING => STATE_RUNNING
  | Some FB_DEVICE_STATE_STOPPED => STATE_STOPPED
  | Some _ => STATE_UNKNOWN
  | None => STATE_UNKNOWN
  end.

(** Little-endian bytes of a number and back. *)
Definition of_le_bytes (l : list Z) : Z :=
  fold_right (fun b acc => b + 256 * acc) 0 l.

Definition le_bytes4 (z : Z) : list Z :=
  [ Z.land z 0xFF; Z.land (Z.shiftr z 8) 0xFF; Z.land (Z.shiftr z 16) 0xFF;
    Z.land (Z.shiftr z 24) 0xFF ].

(** [bytearray(l)] followed by [struct.unpack] of a 4-byte format. *)
Definition unpack4 (decode : list Z -> Outcome Value) (l : list Z)
    : Outcome Value :=
  if negb (bytes_ok l) then Raises ValueError
  else if negb (length l =? 4)%nat then Raises StructError
  else decode l.

(** [struct.unpack("<I", _)] and [struct.unpack("<i", _)]. *)
Definition struct_unpack_I (l : list Z) : Outcome Value :=
  Returns (VInt (of_le_bytes l)).

Definition struct_unpack_i (l : list Z) : Outcome Value :=
  let u := of_le_bytes l in
  Returns (VInt (if u <? 2 ^ 31 then u else u - 2 ^ 32)).

(** The integer [struct.pack] takes from a value: a bool counts as 0 or 1. *)
Definition as_integer (v : Value) : option Z :=
  match v with
  | VInt z => Some z
  | VBool b => Some (if b then 1 else 0)
  | _ => None
  end.

(** [struct.pack("<I", _)] and [struct.pack("<i", _)]. *)
Definition struct_pack_I (v : Value) : Outcome (list Z) :=
  match as_integer v with
  | Some z => if (0 <=? z) && (z <? 2 ^ 32) then Returns (le_bytes4 z)
              else Raises StructError
  | None => Raises StructError
  end.

Definition struct_pack_i (v : Value) : Outcome (list Z) :=
  match as_integer v with
  | Some z => if (- 2 ^ 31 <=? z) && (z <? 2 ^ 31) then Returns (le_bytes4 z)
              else Raises StructError
  | None => Raises StructError
  end.

(** *** The float format of [struct]

    [struct.pack("<f", _)] and [struct.unpack("<f", _)] belong to the C
    library of Python and are parameters of the environment.  What follows
    is the format as CPython has it on a machine with IEEE-754 arithmetic:
    [struct.unpack] widens the binary32 number of the four bytes to the
    binary64 number of a Python float, [struct.pack] narrows a float, or an
    integer made a float, to binary32. *)

(** [n / 2 ^ k] rounded to the nearest integer, a tie to the even one; for
    [k <= 0] it is the product [n * 2 ^ (- k)]. *)
Definition round_half_even (n k : Z) : Z :=
  if k <=? 0 then n * 2 ^ (- k)
  else
    let q := Z.shiftr n k in
    let r := Z.land n (Z.ones k) in
    let half := 2 ^ (k - 1) in
    if r <? half then q
    else if half <? r then q + 1
    else if Z.even q then q else q + 1.

(** The magnitude [sig * 2 ^ exp], rounded into the binary format with
    [mant] bits of mantissa whose smallest normal number is [2 ^ emin]: the
    bits of exponent and mantissa.  The bits of infinity or more say that
    the magnitude is beyond the format. *)
Definition ieee_round (mant emin sig exp : Z) : Z :=
  if sig =? 0 then 0
  else
    let e := Z.log2 sig + exp in
    let q := Z.max e emin - mant in
    (q - (emin - mant)) * 2 ^ mant + round_half_even sig (q - exp).

(** [float(z)] on an integer: the nearest binary64 number, or none when the
    integer is beyond the format ([OverflowError]). *)
Definition float_of_int (z : Z) : option Z :=
  let magnitude := ieee_round 52 (-1022) (Z.abs z) 0 in
  if 0x7FF0000000000000 <=? magnitude then None
  else Some ((if z <? 0 then 2 ^ 63 else 0) + magnitude).

(** The conversion of a binary64 number to binary32, by its bits: to the
    nearest, a NaN to a quiet NaN with the high bits of its payload; none
    when a finite number is beyond binary32. *)
Definition binary32_of_binary64 (bits : Z) : option Z :=
  let sign := Z.shiftl (Z.land (Z.shiftr bits 63) 1) 31 in
  let e := Z.land (Z.shiftr bits 52) 0x7FF in
  let m := Z.land bits (Z.ones 52) in
  if e =? 0x7FF then
    if m =? 0 then Some (sign + 0x7F800000)
    else Some (sign + Z.lor 0x7FC00000 (Z.shiftr m 29))
  else
    let magnitude :=
      if e =? 0 then ieee_round 23 (-126) m (-1074)
      else ieee_round 23 (-126) (2 ^ 52 + m) (e - 1075) in
    if 0x7F800000 <=? magnitude then None else Some (sign + magnitude).

(** The conversion of a binary32 number to binary64, which is exact; a NaN
    becomes a quiet NaN with the same payload. *)
Definition binary64_of_binary32 (bits : Z) : Z :=
  let sign := Z.shiftl (Z.land (Z.shiftr bits 31) 1) 63 in
  let e := Z.land (Z.shiftr bits 23) 0xFF in
  let m := Z.land bits (Z.ones 23) in
  sign +
  (if e =? 0xFF then
     if m =? 0 then 0x7FF0000000000000
     else Z.lor 0x7FF8000000000000 (Z.shiftl m 29)
   else if e =? 0 then ieee_round 52 (-1022) m (-149)
   else ieee_round 52 (-1022) (2 ^ 23 + m) (e - 150)).

(** The pattern of a signaling NaN of binary32: the exponent bits are all
    ones, the mantissa is not zero and its first bit, the quiet bit, is
    clear. *)
Definition signaling_nan (bits : Z) : bool :=
  (Z.land (Z.shiftr bits 23) 0xFF =? 0xFF)
  && negb (Z.land bits (Z.ones 23) =? 0)
  && negb (Z.testbit bits 22).

(** [struct.unpack("<f", b)] on four bytes. *)
Definition ieee_unpack_f (l : list Z) : Outcome Value :=
  Returns (VFloat (binary64_of_binary32 (of_le_bytes l))).

(** [struct.pack("<f", v)]: a float beyond binary32 raises [OverflowError];
    an integer, or a bool, is made a float first, and every failure on it
    ends as [struct.error]; no other value is taken. *)
Definition ieee_pack_f (v : Value) : Outcome (list Z) :=
  match v with
  | VFloat bits =>
      match binary32_of_binary64 bits with
      | Some r => Returns (le_bytes4 r)
      | None => Raises OverflowError
      end
  | VInt _ | VBool _ =>
      match z ← as_integer v; x ← float_of_int z; binary32_of_binary64 x
            return Outcome (list Z) with
      | Some r => Returns (le_bytes4 r)
      | None => Raises StructError
      end
  | VNone | VStr _ => Raises StructError
  end.

(** The float format of the environment is this one. *)
Definition ieee_struct : Prop :=
  (forall l, struct_unpack_f env l = ieee_unpack_f l)
  /\ (forall v, struct_pack_f env v = ieee_pack_f v).

(** [RegistersHelper.transform_value_from_bytes]. *)
Definition transform_value_from_bytes (register : RegisterEntity.t)
    (write_value : list Z) : Outcome (option Value) :=
  let some o := match o with Returns v => Returns (Some v) | Raises e => Raises e end in
  match RegisterEntity.data_type register with
  | FB_DATA_TYPE_FLOAT32 => some (unpack4 (struct_unpack_f env) write_value)
  | FB_DATA_TYPE_UINT8 | FB_DATA_TYPE_UINT16 | FB_DATA_TYPE_UINT32 =>
      some (unpack4 struct_unpack_I write_value)
  | FB_DATA_TYPE_INT8 | FB_DATA_TYPE_INT16 | FB_DATA_TYPE_INT32 =>
      some (unpack4 struct_unpack_i write_value)
  | _ => Returns None
  end.

(** [RegistersHelper.transform_value_to_bytes]. *)
Definition transform_value_to_bytes (register : RegisterEntity.t)
    (write_value : Value) : Outcome (option (list Z)) :=
  let some o := match o with Returns v => Returns (Some v) | Raises e => Raises e end in
  match RegisterEntity.data_type register with
  | FB_DATA_TYPE_FLOAT32 => some (struct_pack_f env write_value)
  | FB_DATA_TYPE_UINT8 | FB_DATA_TYPE_UINT16 | FB_DATA_TYPE_UINT32 =>
      some (struct_pack_I write_value)
  | FB_DATA_TYPE_INT8 | FB_DATA_TYPE_INT16 | FB_DATA_TYPE_INT32 =>
      some (struct_pack_i write_value)
  | _ => Returns None
  end.

(** ** The registry, continued: registers and settings *)

Definition get_registers_by_type (w : Connector) (device : DeviceEntity.t)
    (register_type : RegistersTypes) : list RegisterEntity.t :=
  filter (fun r => RegisterEntity.device_id r = DeviceEntity.id device
                   /\ RegisterEntity.type r = register_type)
         (registers w).

Definition get_register_by_address (w : Connector) (device : DeviceEntity.t)
    (register_type : RegistersTypes) (register_address : Z) : option nat :=
  fst <$> list_find
    (fun r => RegisterEntity.device_id r = DeviceEntity.id device
              /\ RegisterEntity.address r = register_address
              /\ RegisterEntity.type r = register_type)
    (registers w).

(** [update_register_value], for a register object of the store. *)
Definition update_register_value (ri : nat) (value : Value) : M unit :=
  w ← get;
  match registers w !! ri with
  | None => raise DanglingReference
  | Some register =>
      let previous_value := RegisterEntity.value register in
      let register := RegisterEntity.set_value value register in
      modify (fun w => with_registers (<[ri := register]> (registers w)) w);;
      w ← get;
      match list_find (fun y => RegisterEntity.id y = RegisterEntity.id register)
                      (registers w) with
      | Some (j, _) =>
          modify (fun w => with_registers (<[j := register]> (registers w)) w);;
          modify (fun w =>
            with_upstream
              (upstream w ++ [send_channel_property_to_storage
                                (RegisterEntity.id register) value previous_value])
              w)
      | None => mret tt
      end
  end.

Definition get_settings_by_type (w : Connector) (device : DeviceEntity.t)
    (settings_type : SettingsTypes) : list SettingEntity.t :=
  match settings_type with
  | FB_SETTINGS_DEVICE =>
      filter (fun s => SettingEntity.device_id s = DeviceEntity.id device)
             (devices_settings w)
  | FB_SETTINGS_REGISTER =>
      filter (fun s => SettingEntity.device_id s = DeviceEntity.id device)
             (registers_settings w)
  end.

(** ** The checking handler ([handlers/checking_handler.py]) *)

Definition MAX_TRANSMIT_ATTEMPTS : Z := 5.
Definition PING_DELAY : Q := 15.

Definition send_ping_handler (i : nat) : M unit :=
  let output_content :=
    [ Packets_value FB_PACKET_PING;
      PacketsContents_value FB_CONTENT_TERMINATOR ] in
  device ← deref i;
  result ← send_packet (DeviceEntity.address device) output_content 0;
  (if result : bool then
     call i (DeviceEntity.set_waiting_for_packet FB_PACKET_PONG);;
     now ← time_time;
     call i (DeviceEntity.set_last_packet_timestamp now);;
     call i DeviceEntity.increment_attempts
   else
     call i DeviceEntity.reset_waiting_for_packet;;
     now ← time_time;
     call i (DeviceEntity.set_last_packet_timestamp now);;
     call i DeviceEntity.increment_attempts);;
  update_device i.

Definition send_get_device_state_handler (i : nat) : M unit :=
  let output_content :=
    [ Packets_value FB_PACKET_GET_STATE;
      PacketsContents_value FB_CONTENT_TERMINATOR ] in
  call i DeviceEntity.increment_attempts;;
  call i (DeviceEntity.set_waiting_for_packet FB_PACKET_GET_STATE);;
  now ← time_time;
  call i (DeviceEntity.set_last_packet_timestamp now);;
  update_device i;;
  device ← deref i;
  result ← send_packet (DeviceEntity.address device) output_content 1;
  if result : bool then mret tt
  else call i DeviceEntity.reset_communication;; update_device i.

(** [CheckingHandler.handle]. *)
Definition CheckingHandler_handle (i : nat) : M unit :=
  device ← deref i;
  (if MAX_TRANSMIT_ATTEMPTS <=? DeviceEntity.attempts device then
     on_device i (DeviceEntity_set_state STATE_LOST);;
     update_device i;;
     propagate_device_state i
   else mret tt);;
  device ← deref i;
  ping ←
    (if DeviceEntity.is_lost device then
       now ← time_time;
       if Qle_bool PING_DELAY (now - DeviceEntity.lost_timestamp device) then
         now ← time_time;
         mret (Qle_bool PING_DELAY
                 (now - DeviceEntity.last_packet_sent_timestamp device))
       else mret false
     else mret false);
  if ping : bool then send_ping_handler i
  else if bool_decide (DeviceEntity.state device = STATE_UNKNOWN)
  then send_get_device_state_handler i
  else mret tt.

Definition pong_receiver (sender_address : option Z) : M unit :=
  w ← get;
  match get_device_by_address w sender_address with
  | None => mret tt
  | Some i =>
      on_device i DeviceEntity_set_alive;;
      update_device i;;
      propagate_device_state i
  end.

Definition get_state_receiver (sender_address : option Z) (payload : list Z)
    (payload_length : Z) : M unit :=
  w ← get;
  match get_device_by_address w sender_address with
  | None => mret tt
  | Some i =>
      if negb (payload_length =? 3) then mret tt
      else
        received_state ← payload_at payload 1;
        on_device i
          (DeviceEntity_set_state (transform_state_for_gateway received_state));;
        update_device i;;
        propagate_device_state i
  end.

Definition set_state_receiver (sender_address : option Z) (payload : list Z)
    (payload_length : Z) : M unit :=
  w ← get;
  match get_device_by_address w sender_address with
  | None => mret tt
  | Some i =>
      if negb (payload_length =? 3) then mret tt
      else mret tt
  end.

Definition report_state_receiver (sender_address : option Z) (payload : list Z)
    (payload_length : Z) : M unit :=
  w ← get;
  match get_device_by_address w sender_address with
  | None => mret tt
  | Some i =>
      if negb (payload_length =? 3) then mret tt
      else
        received_state ← payload_at payload 1;
        on_device i
          (DeviceEntity_set_state (transform_state_for_gateway received_state));;
        update_device i;;
        propagate_device_state i
  end.

(** [CheckingHandler.receive]. *)
Definition CheckingHandler_receive (packet : Packets)
    (sender_address : option Z) (payload : list Z) (length : Z) : M unit :=
  match packet with
  | FB_PACKET_PONG => pong_receiver sender_address
  | FB_PACKET_GET_STATE => get_state_receiver sender_address payload length
  | FB_PACKET_SET_STATE => set_state_receiver sender_address payload length
  | FB_PACKET_REPORT_STATE => report_state_receiver sender_address payload length
  | _ => mret tt
  end.

(** ** The reading handler ([handlers/reading_handler.py]) *)

(** Binary digits of a positive number, lowest first. *)
Fixpoint bin_digits (p : positive) : list Z :=
  match p with
  | xH => [1]
  | xO p' => 0 :: bin_digits p'
  | xI p' => 1 :: bin_digits p'
  end.

(** [data_byte] after [data_byte.reverse()]: the digits of [bin(b)], which
    [int] reads back as a decimal number and ["{:0>8d}"] pads with zeros on
    the left to eight characters, then reversed, so lowest digit first and
    the padding last.  For a byte value [b >= 0]. *)
Definition data_byte (b : Z) : list Z :=
  let digits := match b with Zpos p => bin_digits p | _ => [0] end in
  digits ++ replicate (8 - length digits) 0.

(** The body of [for i in range(8)], with its [break]; gives the register
    address the loop leaves. *)
Fixpoint digital_bits (indices : list nat) (bits : list Z)
    (device : DeviceEntity.t) (register_type : RegistersTypes)
    (registers_count register_address : Z) : M Z :=
  match indices with
  | [] => mret register_address
  | i :: indices' =>
      w ← get;
      match get_register_by_address w device register_type register_address with
      | Some register =>
          bit ← match bits !! i with
                | Some c => mret c
                | None => raise IndexError
                end;
          let write_value := negb (Z.land bit 0x01 =? 0) in
          update_register_value register (VBool write_value)
      | None => mret tt
      end;;
      let register_address := register_address + 1 in
      if registers_count <=? register_address then mret register_address
      else digital_bits indices' bits device register_type registers_count
             register_address
  end.

(** [while position_byte < (payload_length - 1)], over digital registers.
    [rounds] bounds the iterations; the receiver gives the count of the
    positions left, which the loop cannot exceed. *)
Fixpoint digital_bytes (rounds : nat) (payload : list Z) (payload_length : Z)
    (device : DeviceEntity.t) (register_type : RegistersTypes)
    (registers_count position_byte register_address : Z) : M unit :=
  match rounds with
  | O => mret tt
  | S rounds' =>
      if position_byte <? payload_length - 1 then
        b ← payload_at payload position_byte;
        register_address ←
          digital_bits (seq 0 8) (data_byte b) device register_type
            registers_count register_address;
        digital_bytes rounds' payload payload_length device register_type
          registers_count (position_byte + 1) register_address
      else mret tt
  end.

(** [while (position_byte + 3) < (payload_length - 1)], over analog
    registers. *)
Fixpoint analog_words (rounds : nat) (payload : list Z) (payload_length : Z)
    (device : DeviceEntity.t) (register_type : RegistersTypes)
    (position_byte register_address : Z) : M unit :=
  match rounds with
  | O => mret tt
  | S rounds' =>
      if position_byte + 3 <? payload_length - 1 then
        w ← get;
        match get_register_by_address w device register_type register_address with
        | Some ri =>
            b0 ← payload_at payload position_byte;
            b1 ← payload_at payload (position_byte + 1);
            b2 ← payload_at payload (position_byte + 2);
            b3 ← payload_at payload (position_byte + 3);
            register ← (fun w => match registers w !! ri with
                                 | Some r => Ok r w
                                 | None => Raise DanglingReference w
                                 end);
            transformed ← lift (transform_value_from_bytes register [b0; b1; b2; b3]);
            match transformed with
            | Some v => update_register_value ri v
            | None => mret tt
            end
        | None => mret tt
        end;;
        analog_words rounds' payload payload_length device register_type
          (position_byte + 4) (register_address + 1)
      else mret tt
  end.

Definition read_multiple_registers_receiver (sender_address : option Z)
    (payload : list Z) (payload_length : Z) : M unit :=
  w ← get;
  match get_device_by_address w sender_address with
  | None => mret tt
  | Some i =>
      device ← deref i;
      type_byte ← payload_at payload 1;
      match RegistersTypes_of_value type_byte with
      | None => mret tt
      | Some register_type =>
          hi ← payload_at payload 2;
          lo ← payload_at payload 3;
          let start_address := Z.lor (Z.shiftl hi 8) lo in
          bytes_length ← payload_at payload 4;
          let rounds := Z.to_nat (payload_length - 1 - 5) in
          match register_type with
          | FB_REGISTER_DI | FB_REGISTER_DO =>
              w ← get;
              let registers_count :=
                Z.of_nat (length (get_registers_by_type w device register_type)) in
              digital_bytes rounds payload payload_length device register_type
                registers_count 5 start_address
          | FB_REGISTER_AI | FB_REGISTER_AO =>
              analog_words rounds payload payload_length device register_type
                5 start_address
          end;;
          call i DeviceEntity.reset_communication;;
          update_device i
      end
  end.

(** [ReadingHandler.receive]. *)
Definition ReadingHandler_receive (packet : Packets)
    (sender_address : option Z) (payload : list Z) (length : Z) : M unit :=
  match packet with
  | FB_PACKET_READ_MULTIPLE_REGISTERS =>
      read_multiple_registers_receiver sender_address payload length
  | _ => mret tt
  end.

(** ** The writing handler ([handlers/writing_handler.py]) *)

(** [__PACKET_RESPONSE_DELAY: float = 0.1]: the float nearest to one tenth,
    which is a little above it. *)
Definition WritingHandler_PACKET_RESPONSE_DELAY : Q :=
  3602879701896397 # 36028797018963968.

(** [WritingHandler.write_value_to_register]. *)
Definition write_value_to_register (register : RegisterEntity.t)
    (write_value : Value) : M unit :=
  w ← get;
  match get_device_by_id w (RegisterEntity.device_id register) with
  | None => mret tt
  | Some i =>
      device ← deref i;
      if negb (DeviceEntity.is_ready device) then mret tt
      else
        let output_content :=
          [ Packets_value FB_PACKET_WRITE_SINGLE_REGISTER;
            RegistersTypes_value (RegisterEntity.type register);
            Z.shiftr (RegisterEntity.address register) 8;
            Z.land (RegisterEntity.address register) 0xFF ] in
        written ←
          match RegisterEntity.type register with
          | FB_REGISTER_DO =>
              let write_value := if truthy write_value then 0xFF00 else 0x0000 in
              mret (Some [Z.shiftr write_value 8; Z.land write_value 0xFF])
          | FB_REGISTER_AO =>
              transformed ← lift (transform_value_to_bytes register write_value);
              match transformed with
              | None => mret None
              | Some transformed =>
                  b0 ← payload_at transformed 0;
                  b1 ← payload_at transformed 1;
                  b2 ← payload_at transformed 2;
                  b3 ← payload_at transformed 3;
                  mret (Some [b0; b1; b2; b3])
              end
          | _ => mret None
          end;
        match written with
        | None => mret tt
        | Some written =>
            let output_content :=
              output_content ++ written
                ++ [PacketsContents_value FB_CONTENT_TERMINATOR] in
            call i DeviceEntity.increment_attempts;;
            call i (DeviceEntity.set_waiting_for_packet FB_PACKET_WRITE_SINGLE_REGISTER);;
            now ← time_time;
            call i (DeviceEntity.set_last_packet_timestamp now);;
            update_device i;;
            device ← deref i;
            result ← send_packet (DeviceEntity.address device) output_content
                       WritingHandler_PACKET_RESPONSE_DELAY;
            if result : bool then mret tt
            else call i DeviceEntity.reset_communication;; update_device i
        end
  end.

(** ** [FbBusConnector.publish] *)

(** The loop over [self.__registers.values()]; the loop variable [expected]
    is reassigned by the toggle and so carried to the next round.  The
    registers are not changed while iterating. *)
Fixpoint publish_loop (rs : list RegisterEntity.t) (property_id : UUID)
    (expected : Value) : M unit :=
  match rs with
  | [] => mret tt
  | register :: rs' =>
      if bool_decide (RegisterEntity.id register = property_id) then
        let expected :=
          if bool_decide (RegisterEntity.type register = FB_REGISTER_DO)
             && eq_str expected "toggle"
          then VBool (if is_True (RegisterEntity.value register) then false else true)
          else expected in
        write_value_to_register register expected;;
        publish_loop rs' property_id expected
      else publish_loop rs' property_id expected
  end.

Definition publish (property_id : UUID) (expected : Value) : M unit :=
  w ← get;
  publish_loop (registers w) property_id expected.

(** ** The pairing helper ([utilities/pairing_helper.py]) *)

Definition PairingHelper_PACKET_RESPONSE_DELAY : Q := 2.

Definition send_data_to_device (i : nat) (data : list Z) : M unit :=
  call i DeviceEntity.increment_attempts;;
  call i (DeviceEntity.set_waiting_for_packet FB_PACKET_PAIR_DEVICE);;
  now ← time_time;
  call i (DeviceEntity.set_last_packet_timestamp now);;
  update_device i;;
  device ← deref i;
  result ← send_packet (DeviceEntity.address device) data
             PairingHelper_PACKET_RESPONSE_DELAY;
  if result : bool then mret tt
  else call i DeviceEntity.reset_communication;; update_device i.

(** The count of settings asked for in one packet, as computed in
    [__send_provide_settings_structure_handler]. *)
Definition max_readable_settings_count (device : DeviceEntity.t)
    (setting_type : SettingsTypes) : Z :=
  let max_readable_settings_count := DeviceEntity.max_packet_length device - 5 in
  match setting_type with
  | FB_SETTINGS_DEVICE => py_round_div max_readable_settings_count 12
  | FB_SETTINGS_REGISTER => py_round_div max_readable_settings_count 15
  end.

(** [PairingHelper.__send_provide_settings_structure_handler]. *)
Definition send_provide_settings_structure_handler (i : nat) : M unit :=
  device ← deref i;
  let '(start_address, setting_type) := DeviceEntity.get_reading_setting device in
  match setting_type with
  | None => raise AttributeError
  | Some setting_type =>
      match start_address with
      | None => raise TypeError
      | Some start_address =>
          let output_content :=
            [ Packets_value FB_PACKET_PAIR_DEVICE;
              PairingCommands_value FB_PAIRING_CMD_PROVIDE_SETTINGS_STRUCTURE;
              SettingsTypes_value setting_type;
              Z.shiftr start_address 8;
              Z.land start_address 0xFF ] in
          w ← get;
          let settings_size :=
            Z.of_nat (length (get_settings_by_type w device setting_type)) in
          let max_readable_settings_count :=
            max_readable_settings_count device setting_type in
          let max_readable_addresses :=
            start_address + max_readable_settings_count - 1 in
          let requested :=
            if settings_size <=? max_readable_addresses + 1 then
              if start_address =? 0 then settings_size
              else settings_size - start_address
            else max_readable_settings_count in
          let output_content :=
            output_content
              ++ [Z.shiftr requested 8; Z.land requested 0xFF]
              ++ [PacketsContents_value FB_CONTENT_TERMINATOR] in
          send_data_to_device i output_content
      end
  end.

End FbBus.

(** ** Concrete environments and registries, for the examples *)

(** A clock that advances one second per reading from [t0], a link that
    never acknowledges, uuids counted from 1000, no float codec. *)
Definition silent_env (t0 : Q) : Env :=
  {| clock := fun n => (t0 + inject_Z (Z.of_nat n))%Q;
     pjon_loop := fun _ => Returns (0, 0);
     PJON_ACK := 6;
     uuid4 := fun n => (1000 + N.of_nat n)%N;
     struct_pack_f := fun _ => Raises StructError;
     struct_unpack_f := fun _ => Raises StructError |}.

(** The same, with the float format of a machine with IEEE-754
    arithmetic. *)
Definition ieee_env : Env :=
  {| clock := clock (silent_env 0);
     pjon_loop := pjon_loop (silent_env 0);
     PJON_ACK := PJON_ACK (silent_env 0);
     uuid4 := uuid4 (silent_env 0);
     struct_pack_f := ieee_pack_f;
     struct_unpack_f := ieee_unpack_f |}.

Definition empty_connector : Connector :=
  mkConnector [] [] [] [] [] [] 0 0 0.

(** One device at address 7 with packets of at most [max_packet_length]
    bytes, in the state [state], with [n] digital inputs at the addresses
    0 to n-1 and three device settings; its settings cursor is at the first
    device setting. *)
Definition single_device (state : DeviceStates) (max_packet_length : Z)
    : DeviceEntity.t :=
  DeviceEntity.set_reading_setting 0 FB_SETTINGS_DEVICE
    (DeviceEntity.with_state state
       (DeviceEntity.init 1%N 7 "AABBCC" max_packet_length false true false)).

Definition single_device_connector (state : DeviceStates)
    (max_packet_length : Z) (n : nat) : Connector :=
  mkConnector
    [single_device state max_packet_length]
    ((fun a => RegisterEntity.init (100 + Z.to_N a)%N "key" 50%N 1%N a
                 FB_REGISTER_DI FB_DATA_TYPE_BOOL) <$> seqZ 0 (Z.of_nat n))
    ((fun a => SettingEntity.init (200 + Z.to_N a)%N 1%N a) <$> seqZ 0 3)
    [] [] [] 0 0 0.

(** The same device after five attempts without a reply. *)
Definition exhausted_connector : Connector :=
  with_devices [DeviceEntity.with_attempts 5 (single_device STATE_RUNNING 24)]
    (single_device_connector STATE_RUNNING 24 0).

(** The running device with one digital output, never set. *)
Definition toggle_register : RegisterEntity.t :=
  RegisterEntity.init 300%N "key" 50%N 1%N 0 FB_REGISTER_DO FB_DATA_TYPE_BOOL.

Definition toggle_connector : Connector :=
  with_registers [toggle_register] (single_device_connector STATE_RUNNING 24 0).

(** The data bytes 0b10100101 and 0b00000011 of a digital read burst. *)
Definition read_burst_data : list Z := [165; 3; 0].

(** A registry whose devices hold the addresses 1 to 252. *)
Definition crowded_connector : Connector :=
  with_devices
    ((fun a => DeviceEntity.init (Z.to_N a) a "dev" 24 false false false)
       <$> py_range 1 253)
    empty_connector.

(** The running device with two digital inputs and one analog output, and
    neither digital outputs nor analog inputs. *)
Definition mixed_connector : Connector :=
  with_registers
    [ RegisterEntity.init 100%N "key" 50%N 1%N 0 FB_REGISTER_DI FB_DATA_TYPE_BOOL;
      RegisterEntity.init 101%N "key" 51%N 1%N 1 FB_REGISTER_DI FB_DATA_TYPE_BOOL;
      RegisterEntity.init 400%N "key" 52%N 1%N 0 FB_REGISTER_AO FB_DATA_TYPE_UINT16 ]
    (single_device_connector STATE_RUNNING 24 0).

(** The device at address 7, connected and waiting for its address, as the
    one being paired. *)
Definition pairing_candidate : DeviceEntity.t :=
  DeviceEntity.set_pairing_cmd (Some FB_PAIRING_CMD_SET_ADDRESS)
    (single_device STATE_CONNECTED 24).

Definition pairing_connector : Connector :=
  with_devices [pairing_candidate] (single_device_connector STATE_CONNECTED 24 0).

(** * The rest of the connector *)

(** ** Property data types of the gateway ([db/types.py]) *)

Inductive DataType :=
| DATA_TYPE_CHAR
| DATA_TYPE_UCHAR
| DATA_TYPE_SHORT
| DATA_TYPE_USHORT
| DATA_TYPE_INT
| DATA_TYPE_UINT
| DATA_TYPE_FLOAT
| DATA_TYPE_BOOLEAN
| DATA_TYPE_STRING
| DATA_TYPE_ENUM
| DATA_TYPE_COLOR.

Definition DataTypes_value (t : DataTypes) : Z :=
  match t with
  | FB_DATA_TYPE_UNKNOWN => 0xFF
  | FB_DATA_TYPE_UINT8 => 0x01
  | FB_DATA_TYPE_UINT16 => 0x02
  | FB_DATA_TYPE_UINT32 => 0x03
  | FB_DATA_TYPE_INT8 => 0x04
  | FB_DATA_TYPE_INT16 => 0x05
  | FB_DATA_TYPE_INT32 => 0x06
  | FB_DATA_TYPE_FLOAT32 => 0x07
  | FB_DATA_TYPE_BOOL => 0x08
  | FB_DATA_TYPE_TIME => 0x09
  | FB_DATA_TYPE_DATE => 0x0A
  | FB_DATA_TYPE_DATETIME => 0x0B
  end.

Definition all_DataTypes : list DataTypes :=
  [ FB_DATA_TYPE_UNKNOWN; FB_DATA_TYPE_UINT8; FB_DATA_TYPE_UINT16;
    FB_DATA_TYPE_UINT32; FB_DATA_TYPE_INT8; FB_DATA_TYPE_INT16;
    FB_DATA_TYPE_INT32; FB_DATA_TYPE_FLOAT32; FB_DATA_TYPE_BOOL;
    FB_DATA_TYPE_TIME; FB_DATA_TYPE_DATE; FB_DATA_TYPE_DATETIME ].

Definition DataTypes_of_value (v : Z) : option DataTypes :=
  List.find (fun t => DataTypes_value t =? v) all_DataTypes.

Definition SettingsTypes_of_value (v : Z) : option SettingsTypes :=
  if v =? 0x01 then Some FB_SETTINGS_DEVICE
  else if v =? 0x02 then Some FB_SETTINGS_REGISTER
  else None.

Inductive PairingResponses :=
| FB_PAIRING_RESPONSE_DEVICE_ADDRESS
| FB_PAIRING_RESPONSE_ADDRESS_ACCEPTED
| FB_PAIRING_RESPONSE_ABOUT_INFO
| FB_PAIRING_RESPONSE_DEVICE_MODEL
| FB_PAIRING_RESPONSE_DEVICE_MANUFACTURER
| FB_PAIRING_RESPONSE_DEVICE_VERSION
| FB_PAIRING_RESPONSE_FIRMWARE_MANUFACTURER
| FB_PAIRING_RESPONSE_FIRMWARE_VERSION
| FB_PAIRING_RESPONSE_REGISTERS_SIZE
| FB_PAIRING_RESPONSE_REGISTERS_STRUCTURE
| FB_PAIRING_RESPONSE_SETTINGS_SIZE
| FB_PAIRING_RESPONSE_SETTINGS_STRUCTURE
| FB_PAIRING_RESPONSE_FINISHED.

Definition ADDRESS_NOT_ASSIGNED : Z := 255.

(** ** Python sequences *)

(** [payload[i]]: a negative index counts from the end. *)
Definition py_getitem (payload : list Z) (i : Z) : Outcome Z :=
  let n := Z.of_nat (length payload) in
  let j := if i <? 0 then i + n else i in
  if j <? 0 then Raises IndexError
  else match payload !! Z.to_nat j with
       | Some b => Returns b
       | None => Raises IndexError
       end.

(** [chr(b)] for a byte, and [ord(c)]. *)
Definition chr (b : Z) : Outcome Ascii.ascii :=
  if (0 <=? b) && (b <? 256) then Returns (Ascii.ascii_of_N (Z.to_N b))
  else Raises ValueError.

Definition ord (c : Ascii.ascii) : Z := Z.of_N (Ascii.N_of_ascii c).

(** The code points of a string. *)
Definition ords (s : string) : list Z := ord <$> list_ascii_of_string s.

(** ** Helpers of the payload ([utilities/helpers.py]) *)

(** The loop of [Helpers.extract_text_from_payload] over the indices left;
    the payload is a bytes object, so [chr] gets a byte. *)
Fixpoint extract_text_loop (payload : list Z) (indices : list Z)
    : Outcome string :=
  match indices with
  | [] => Returns EmptyString
  | i :: indices' =>
      match py_getitem payload i with
      | Raises e => Raises e
      | Returns b =>
          if (b =? PacketsContents_value FB_CONTENT_DATA_SPACE)
             || (b =? PacketsContents_value FB_CONTENT_TERMINATOR)
          then Returns EmptyString
          else
            match chr b with
            | Raises e => Raises e
            | Returns c =>
                match extract_text_loop payload indices' with
                | Raises e => Raises e
                | Returns s => Returns (String c s)
                end
            end
      end
  end.

Definition extract_text_from_payload (payload : list Z) (start_pointer : Z)
    : Outcome string :=
  extract_text_loop payload
    (py_range start_pointer (Z.of_nat (length payload))).

(** The loop of [Helpers.find_space_in_payload]. *)
Fixpoint find_space_loop (payload : list Z) (indices : list Z) : Outcome Z :=
  match indices with
  | [] => Returns (-1)
  | i :: indices' =>
      match py_getitem payload i with
      | Raises e => Raises e
      | Returns b =>
          if b =? PacketsContents_value FB_CONTENT_DATA_SPACE then Returns i
          else find_space_loop payload indices'
      end
  end.

Definition find_space_in_payload (payload : list Z) (start_pointer : Z)
    : Outcome Z :=
  find_space_loop payload (py_range start_pointer (Z.of_nat (length payload))).

(** ** Data types for the gateway and for the device *)

(** What has a [get_data_type()]: registers and settings. *)
Class HasDataType (A : Type) := get_data_type : A -> DataTypes.
#[global] Instance RegisterEntity_HasDataType : HasDataType RegisterEntity.t :=
  RegisterEntity.data_type.
#[global] Instance SettingEntity_HasDataType : HasDataType SettingEntity.t :=
  SettingEntity.data_type.

(** [DataTypeHelper.transform_for_gateway]. *)
Definition transform_for_gateway `{HasDataType A} (item : A) : option DataType :=
  match get_data_type item with
  | FB_DATA_TYPE_BOOL => Some DATA_TYPE_BOOLEAN
  | FB_DATA_TYPE_INT8 => Some DATA_TYPE_CHAR
  | FB_DATA_TYPE_UINT8 => Some DATA_TYPE_UCHAR
  | FB_DATA_TYPE_INT16 => Some DATA_TYPE_SHORT
  | FB_DATA_TYPE_UINT16 => Some DATA_TYPE_USHORT
  | FB_DATA_TYPE_INT32 => Some DATA_TYPE_INT
  | FB_DATA_TYPE_UINT32 => Some DATA_TYPE_UINT
  | FB_DATA_TYPE_FLOAT32 => Some DATA_TYPE_FLOAT
  | _ => None
  end.

(** [DataTypeHelper.transform_for_device], on the [data_type] attribute of
    the stored property or configuration, which is all it reads.  The
    column of a property may be empty ([None]), which equals no member of
    [DataType] and so ends in the last branch. *)
Definition transform_for_device (data_type : option DataType)
    : Outcome DataTypes :=
  match data_type with
  | Some DATA_TYPE_BOOLEAN => Returns FB_DATA_TYPE_BOOL
  | Some DATA_TYPE_CHAR => Returns FB_DATA_TYPE_INT8
  | Some DATA_TYPE_UCHAR => Returns FB_DATA_TYPE_UINT8
  | Some DATA_TYPE_SHORT => Returns FB_DATA_TYPE_INT16
  | Some DATA_TYPE_USHORT => Returns FB_DATA_TYPE_UINT16
  | Some DATA_TYPE_INT => Returns FB_DATA_TYPE_INT32
  | Some DATA_TYPE_UINT => Returns FB_DATA_TYPE_UINT32
  | Some DATA_TYPE_FLOAT => Returns FB_DATA_TYPE_FLOAT32
  | _ => Raises InvalidStateException
  end.

#[global] Instance string_eq_dec : EqDecision string := String.string_dec.

(** A string without spaces and null characters. *)
Definition plain_text (s : string) : Prop :=
  Forall (fun c => ord c <> 0x20 /\ ord c <> 0x00) (list_ascii_of_string s).

Section FbBusRest.

(** [PJON_BROADCAST] and [PJON_PACKET_MAX_LENGTH] are constants of
    [pjon_cython]. *)
Context (env : Env) (budget : nat).
Context (PJON_BROADCAST PJON_PACKET_MAX_LENGTH : Z).

(** ** The registry, the rest *)

Definition get_device_by_serial_number (w : Connector) (serial_number : string)
    : option nat :=
  fst <$> list_find (fun d => DeviceEntity.serial_number d = serial_number)
            (devices w).

(** The register object at a position. *)
Definition deref_register (ri : nat) : M RegisterEntity.t := fun w =>
  match registers w !! ri with
  | Some r => Ok r w
  | None => Raise DanglingReference w
  end.

(** [update_register], for an object of the store: files it under its id. *)
Definition update_register (ri : nat) : M unit :=
  r ← deref_register ri;
  modify (fun w =>
    match list_find (fun y => RegisterEntity.id y = RegisterEntity.id r)
                    (registers w) with
    | Some (j, _) => with_registers (<[j := r]> (registers w)) w
    | None => w
    end).

(** [delete_register]: the entry filed under the register's id goes, and
    the gateway is told in any case. *)
Definition delete_register (deleted_register : RegisterEntity.t) : M unit :=
  modify (fun w =>
    match list_find
            (fun y => RegisterEntity.id y = RegisterEntity.id deleted_register)
            (registers w) with
    | Some (j, _) => with_registers (delete j (registers w)) w
    | None => w
    end);;
  modify (fun w =>
    with_upstream
      (upstream w ++ [delete_channel_property (RegisterEntity.id deleted_register)])
      w).

(** [FbBusConnector.broadcast_packet] and [PjonTransport.broadcast_packet]. *)
Definition broadcast_packet (payload : list Z) (waiting_time : Q) : M bool :=
  send_packet env budget PJON_BROADCAST payload waiting_time.

(** ** The checking handler: nothing is left *)

(** ** The writing handler, the receiver *)

Definition write_single_registers_receiver (sender_address : option Z)
    (payload : list Z) (payload_length : Z) : M unit :=
  w ← get;
  match get_device_by_address w sender_address with
  | None => mret tt
  | Some i =>
      device ← deref i;
      type_byte ← payload_at payload 1;
      match RegistersTypes_of_value type_byte with
      | None => mret tt
      | Some register_type =>
          hi ← payload_at payload 2;
          lo ← payload_at payload 3;
          let register_address := Z.lor (Z.shiftl hi 8) lo in
          w ← get;
          match get_register_by_address w device register_type register_address with
          | Some ri =>
              match register_type with
              | FB_REGISTER_DO =>
                  b4 ← payload_at payload 4;
                  b5 ← payload_at payload 5;
                  let write_value := Z.lor (Z.shiftl b4 8) b5 in
                  update_register_value ri (VBool (write_value =? 0xFF00))
              | FB_REGISTER_AO =>
                  b4 ← payload_at payload 4;
                  b5 ← payload_at payload 5;
                  b6 ← payload_at payload 6;
                  b7 ← payload_at payload 7;
                  register ← deref_register ri;
                  transformed ←
                    lift (transform_value_from_bytes env register [b4; b5; b6; b7]);
                  match transformed with
                  | Some v => update_register_value ri v
                  | None => mret tt
                  end
              | _ => mret tt
              end
          | None => mret tt
          end;;
          call i DeviceEntity.reset_communication;;
          update_device i
      end
  end.

(** [WritingHandler.receive]. *)
Definition WritingHandler_receive (packet : Packets)
    (sender_address : option Z) (payload : list Z) (length : Z) : M unit :=
  match packet with
  | FB_PACKET_WRITE_SINGLE_REGISTER =>
      write_single_registers_receiver sender_address payload length
  | _ => mret tt
  end.

(** ** The reporting handler ([handlers/reporting_handler.py]) *)

Definition reported_single_registers_receiver (i : nat) (payload : list Z)
    : M unit :=
  device ← deref i;
  type_byte ← payload_at payload 1;
  match RegistersTypes_of_value type_byte with
  | None => mret tt
  | Some register_type =>
      hi ← payload_at payload 2;
      lo ← payload_at payload 3;
      let register_address := Z.lor (Z.shiftl hi 8) lo in
      w ← get;
      match get_register_by_address w device register_type register_address with
      | Some ri =>
          match register_type with
          | FB_REGISTER_DI =>
              b4 ← payload_at payload 4;
              b5 ← payload_at payload 5;
              let write_value := Z.lor (Z.shiftl b4 8) b5 in
              update_register_value ri (VBool (write_value =? 0xFF00))
          | FB_REGISTER_AI =>
              b4 ← payload_at payload 4;
              b5 ← payload_at payload 5;
              b6 ← payload_at payload 6;
              b7 ← payload_at payload 7;
              register ← deref_register ri;
              transformed ←
                lift (transform_value_from_bytes env register [b4; b5; b6; b7]);
              match transformed with
              | Some v => update_register_value ri v
              | None => mret tt
              end
          | _ => mret tt
          end
      | None => mret tt
      end
  end.

(** [ReportingHandler.receive]. *)
Definition ReportingHandler_receive (packet : Packets)
    (sender_address : option Z) (payload : list Z) (length : Z) : M unit :=
  w ← get;
  match get_device_by_address w sender_address with
  | None => mret tt
  | Some i =>
      if bool_decide (packet = FB_PACKET_REPORT_SINGLE_REGISTER)
      then reported_single_registers_receiver i payload
      else mret tt
  end.

(** ** The reading handler, the requests *)

Definition READING_DELAY : Q := 1 # 2.

(** [DeviceEntity.reset_reading_register()], which stamps the clock. *)
Definition DeviceEntity_reset_reading_register (d : DeviceEntity.t)
    : M DeviceEntity.t :=
  now ← time_time env;
  mret (DeviceEntity.reset_reading_register_at now d).

(** [ReadingHandler.__update_reading_pointer]. *)
Definition update_reading_pointer (i : nat) : M unit :=
  device ← deref i;
  w ← get;
  let populated ty :=
    (0 <? Z.of_nat (length (get_registers_by_type w device ty))) in
  let next :=
    match DeviceEntity.reading_register_type device with
    | Some FB_REGISTER_DI =>
        if populated FB_REGISTER_DO then Some FB_REGISTER_DO
        else if populated FB_REGISTER_AI then Some FB_REGISTER_AI
        else if populated FB_REGISTER_AO then Some FB_REGISTER_AO
        else None
    | Some FB_REGISTER_DO =>
        if populated FB_REGISTER_AI then Some FB_REGISTER_AI
        else if populated FB_REGISTER_AO then Some FB_REGISTER_AO
        else None
    | Some FB_REGISTER_AI =>
        if populated FB_REGISTER_AO then Some FB_REGISTER_AO
        else None
    | _ => None
    end in
  match next with
  | Some ty => call i (DeviceEntity.set_reading_register 0 ty)
  | None => on_device i DeviceEntity_reset_reading_register
  end.

(** The count of registers one packet can carry, as computed in
    [__read_multiple_registers]. *)
Definition max_readable_registers_count (device : DeviceEntity.t)
    (register_type : RegistersTypes) : Z :=
  match register_type with
  | FB_REGISTER_DI | FB_REGISTER_DO =>
      (DeviceEntity.max_packet_length device - 7) * 8
  | FB_REGISTER_AI | FB_REGISTER_AO =>
      (DeviceEntity.max_packet_length device - 7) / 4
  end.

(** [ReadingHandler.__read_multiple_registers]. *)
Definition read_multiple_registers (i : nat) (register_type : RegistersTypes)
    (start_address : option Z) : M unit :=
  device ← deref i;
  w ← get;
  let register_size :=
    Z.of_nat (length (get_registers_by_type w device register_type)) in
  let start_address := default 0 start_address in
  let output_content :=
    [ Packets_value FB_PACKET_READ_MULTIPLE_REGISTERS;
      RegistersTypes_value register_type;
      Z.shiftr start_address 8;
      Z.land start_address 0xFF ] in
  let max_readable_registers_count :=
    max_readable_registers_count device register_type in
  let max_readable_addresses :=
    start_address + max_readable_registers_count - 1 in
  let read_length :=
    if register_size <=? max_readable_addresses + 1 then
      if start_address =? 0 then register_size
      else register_size - start_address
    else max_readable_registers_count in
  let next_address := start_address + read_length in
  if read_length <=? 0 then mret tt
  else
    let output_content :=
      output_content
        ++ [Z.shiftr read_length 8; Z.land read_length 0xFF]
        ++ [PacketsContents_value FB_CONTENT_TERMINATOR] in
    result ← send_packet env budget (DeviceEntity.address device) output_content 0;
    (if result : bool then
       call i (DeviceEntity.set_waiting_for_packet FB_PACKET_READ_MULTIPLE_REGISTERS);;
       now ← time_time env;
       call i (DeviceEntity.set_last_packet_timestamp now);;
       call i DeviceEntity.increment_attempts;;
       call i (DeviceEntity.set_reading_register next_address register_type);;
       if register_size <? next_address + 1 then update_reading_pointer i
       else mret tt
     else call i DeviceEntity.reset_communication);;
    update_device i.

(** [ReadingHandler.__read_handler]. *)
Definition read_handler (i : nat) : M unit :=
  device ← deref i;
  let '(reading_address, reading_register_type) :=
    DeviceEntity.get_reading_register device in
  w ← get;
  let due ty :=
    (0 <? Z.of_nat (length (get_registers_by_type w device ty)))
    && (bool_decide (reading_register_type = Some ty)
        || bool_decide (reading_register_type = None)) in
  if due FB_REGISTER_DI then read_multiple_registers i FB_REGISTER_DI reading_address
  else if due FB_REGISTER_DO then read_multiple_registers i FB_REGISTER_DO reading_address
  else if due FB_REGISTER_AI then read_multiple_registers i FB_REGISTER_AI reading_address
  else if due FB_REGISTER_AO then read_multiple_registers i FB_REGISTER_AO reading_address
  else mret tt.

(** [ReadingHandler.handle]. *)
Definition ReadingHandler_handle (i : nat) : M unit :=
  device ← deref i;
  if negb (DeviceEntity.is_ready device) then mret tt
  else
    free ←
      match DeviceEntity.waiting_for_packet device with
      | None => mret true
      | Some _ =>
          now ← time_time env;
          mret (Qle_bool READING_DELAY
                  (now - DeviceEntity.last_packet_sent_timestamp device))
      end;
    if free : bool then
      now ← time_time env;
      if Qle_bool (DeviceEntity.sampling_time device)
           (now - DeviceEntity.reading_registers_timestamp device)
      then read_handler i
      else mret tt
    else mret tt.

(** ** [FbBusConnector.close] *)

(** A loop over the positions of [self.__devices]. *)
Fixpoint for_each_device (body : nat -> M unit) (positions : list nat)
    : M unit :=
  match positions with
  | [] => mret tt
  | i :: positions' => body i;; for_each_device body positions'
  end.

(** [close]; gives the new value of [self.__stopped], the one attribute it
    assigns outside the registry. *)
Definition close : M bool :=
  w ← get;
  for_each_device
    (fun i => on_device i (DeviceEntity_set_state env STATE_DISCONNECTED))
    (seq 0 (length (devices w)));;
  w ← get;
  for_each_device propagate_device_state (seq 0 (length (devices w)));;
  mret true.

(** ** The pairing helper, the rest ([utilities/pairing_helper.py]) *)

Definition MAX_SEARCHING_ATTEMPTS : Z := 5.
Definition PairingHelper_MAX_TRANSMIT_ATTEMPTS : Z := 5.
Definition SEARCHING_DELAY : Q := 6.

(** The attributes of a [PairingHelper] object. *)
Record PairingHelper := mkPairingHelper {
  pairing_device : option UUID;
  last_pairing_request_broadcast : Q;
  pairing_attempts : Z;
  pairing_enabled : bool
}.

(** [PairingHelper()], with the class-level defaults. *)
Definition PairingHelper_init : PairingHelper :=
  mkPairingHelper None 0 0 false.

Definition with_pairing_device (device : option UUID) (h : PairingHelper)
    : PairingHelper :=
  mkPairingHelper device (last_pairing_request_broadcast h)
    (pairing_attempts h) (pairing_enabled h).

Definition enable_pairing (h : PairingHelper) : PairingHelper :=
  mkPairingHelper (pairing_device h) (last_pairing_request_broadcast h)
    (pairing_attempts h) true.

Definition disable_pairing (h : PairingHelper) : PairingHelper :=
  mkPairingHelper (pairing_device h) (last_pairing_request_broadcast h)
    (pairing_attempts h) false.

Definition is_pairing_enabled (h : PairingHelper) : bool := pairing_enabled h.

(** [__broadcast_pairing_request_handler]; the result of the broadcast is
    dropped. *)
Definition broadcast_pairing_request_handler : M unit :=
  _ ← broadcast_packet
        [ Packets_value FB_PACKET_PAIR_DEVICE;
          PairingCommands_value FB_PAIRING_CMD_PROVIDE_ADDRESS;
          PacketsContents_value FB_CONTENT_TERMINATOR ]
        PairingHelper_PACKET_RESPONSE_DELAY;
  mret tt.

(** [__send_set_address_handler]. *)
Definition send_set_address_handler (i : nat) : M unit :=
  device ← deref i;
  let output_content :=
    [ Packets_value FB_PACKET_PAIR_DEVICE;
      PairingCommands_value FB_PAIRING_CMD_SET_ADDRESS;
      DeviceEntity.address device ]
    ++ ords (DeviceEntity.serial_number device)
    ++ [PacketsContents_value FB_CONTENT_TERMINATOR] in
  send_data_to_device env budget i output_content.

(** [__send_pairing_cmd_handler]. *)
Definition send_pairing_cmd_handler (i : nat) (command : PairingCommands)
    : M unit :=
  send_data_to_device env budget i
    [ Packets_value FB_PACKET_PAIR_DEVICE;
      PairingCommands_value command;
      PacketsContents_value FB_CONTENT_TERMINATOR ].

(** [__send_provide_registers_structure_handler]. *)
Definition send_provide_registers_structure_handler (i : nat) : M unit :=
  device ← deref i;
  let '(start_address, registers_type) :=
    DeviceEntity.get_reading_register device in
  match registers_type with
  | None => raise AttributeError
  | Some registers_type =>
      match start_address with
      | None => raise TypeError
      | Some start_address =>
          let output_content :=
            [ Packets_value FB_PACKET_PAIR_DEVICE;
              PairingCommands_value FB_PAIRING_CMD_PROVIDE_REGISTERS_STRUCTURE;
              RegistersTypes_value registers_type;
              Z.shiftr start_address 8;
              Z.land start_address 0xFF ] in
          w ← get;
          match registers_type with
          | FB_REGISTER_AI | FB_REGISTER_AO =>
              let registers_size :=
                Z.of_nat (length (get_registers_by_type w device registers_type)) in
              let max_readable_registers_count :=
                DeviceEntity.max_packet_length device - 5 in
              let max_readable_addresses :=
                start_address + max_readable_registers_count - 1 in
              let requested :=
                if registers_size <=? max_readable_addresses + 1 then
                  if start_address =? 0 then registers_size
                  else registers_size - start_address
                else max_readable_registers_count in
              let output_content :=
                output_content
                  ++ [Z.shiftr requested 8; Z.land requested 0xFF]
                  ++ [PacketsContents_value FB_CONTENT_TERMINATOR] in
              send_data_to_device env budget i output_content
          | _ => raise InvalidArgumentException
          end
      end
  end.

(** [__device_address_receiver]; gives the helper's attributes after it.
    The sender of a frame may be absent, which no address equals. *)
Definition device_address_receiver (h : PairingHelper)
    (sender_address : option Z) (payload : list Z) : M PairingHelper :=
  device_current_address ← payload_at payload 2;
  if negb (bool_decide (Some device_current_address = sender_address))
  then mret h
  else
    serial_number ← lift (extract_text_from_payload payload 3);
    w ← get;
    device ←
      match get_device_by_serial_number w serial_number with
      | None =>
          i ← create_device env serial_number PJON_PACKET_MAX_LENGTH;
          mret (Some i)
      | Some i =>
          device ← deref i;
          if negb (device_current_address =? DeviceEntity.address device)
             && negb (device_current_address =? ADDRESS_NOT_ASSIGNED)
          then
            if DeviceEntity.address device =? ADDRESS_NOT_ASSIGNED then
              w ← get;
              let device_by_address :=
                get_device_by_address w (Some device_current_address) in
              if bool_decide (device_by_address <> None)
                 && negb (bool_decide (DeviceEntity.serial_number device
                                       = DeviceEntity.serial_number device))
              then mret None
              else
                call i (DeviceEntity.set_address device_current_address);;
                mret (Some i)
            else mret (Some i)
          else mret (Some i)
      end;
    match device with
    | None => mret h
    | Some i =>
        (if device_current_address =? ADDRESS_NOT_ASSIGNED then
           on_device i (DeviceEntity_set_state env STATE_CONNECTED);;
           call i (DeviceEntity.set_pairing_cmd (Some FB_PAIRING_CMD_SET_ADDRESS))
         else
           on_device i (DeviceEntity_set_state env STATE_INIT);;
           call i (DeviceEntity.set_pairing_cmd
                     (Some FB_PAIRING_CMD_PROVIDE_ABOUT_INFO)));;
        call i DeviceEntity.reset_communication;;
        update_device i;;
        device ← deref i;
        mret (mkPairingHelper (Some (DeviceEntity.id device)) 0 0
                (pairing_enabled h))
    end.

(** [__device_address_accepted_receiver]. *)
Definition device_address_accepted_receiver (sender_address : option Z)
    (payload : list Z) : M unit :=
  w ← get;
  match get_device_by_address w sender_address with
  | None => mret tt
  | Some i =>
      device ← deref i;
      serial_number ← lift (extract_text_from_payload payload 2);
      if negb (bool_decide (DeviceEntity.serial_number device = serial_number))
      then mret tt
      else
        on_device i (DeviceEntity_set_state env STATE_INIT);;
        call i (DeviceEntity.set_pairing_cmd
                  (Some FB_PAIRING_CMD_PROVIDE_ABOUT_INFO));;
        call i DeviceEntity.reset_communication;;
        update_device i
  end.

(** [__device_about_info_receiver]. *)
Definition device_about_info_receiver (sender_address : option Z)
    (payload : list Z) : M unit :=
  w ← get;
  match get_device_by_address w sender_address with
  | None => mret tt
  | Some i =>
      b2 ← payload_at payload 2;
      b3 ← payload_at payload 3;
      let max_packet_length := Z.lor (Z.shiftl b2 8) b3 in
      b4 ← payload_at payload 4;
      b5 ← payload_at payload 5;
      let description_support := Z.lor (Z.shiftl b4 8) b5 =? 0xFF00 in
      b6 ← payload_at payload 6;
      b7 ← payload_at payload 7;
      let settings_support := Z.lor (Z.shiftl b6 8) b7 =? 0xFF00 in
      b8 ← payload_at payload 8;
      b9 ← payload_at payload 9;
      let pub_sub_support := Z.lor (Z.shiftl b8 8) b9 =? 0xFF00 in
      call i (DeviceEntity.set_max_packet_length max_packet_length);;
      call i (DeviceEntity.set_description_support description_support);;
      call i (DeviceEntity.get_settings_support settings_support);;
      call i (DeviceEntity.set_pub_sub_support pub_sub_support);;
      device ← deref i;
      (if DeviceEntity.description_support device then
         call i (DeviceEntity.set_pairing_cmd
                   (Some FB_PAIRING_CMD_PROVIDE_DEVICE_MODEL))
       else
         call i (DeviceEntity.set_pairing_cmd
                   (Some FB_PAIRING_CMD_PROVIDE_REGISTERS_SIZE)));;
      call i DeviceEntity.reset_communication;;
      update_device i
  end.

(** [__device_description_receiver]; [handled] is false where the method
    returns from its last [else]. *)
Definition device_description_receiver (response : PairingResponses)
    (sender_address : option Z) (payload : list Z) : M unit :=
  w ← get;
  match get_device_by_address w sender_address with
  | None => mret tt
  | Some i =>
      content ← lift (extract_text_from_payload payload 2);
      handled ←
        match response with
        | FB_PAIRING_RESPONSE_DEVICE_MODEL =>
            call i (DeviceEntity.set_hw_model content);;
            call i (DeviceEntity.set_pairing_cmd
                      (Some FB_PAIRING_CMD_PROVIDE_DEVICE_MANUFACTURER));;
            mret true
        | FB_PAIRING_RESPONSE_DEVICE_MANUFACTURER =>
            call i (DeviceEntity.set_hw_manufacturer content);;
            call i (DeviceEntity.set_pairing_cmd
                      (Some FB_PAIRING_CMD_PROVIDE_DEVICE_VERSION));;
            mret true
        | FB_PAIRING_RESPONSE_DEVICE_VERSION =>
            call i (DeviceEntity.set_hw_version content);;
            call i (DeviceEntity.set_pairing_cmd
                      (Some FB_PAIRING_CMD_PROVIDE_FIRMWARE_MANUFACTURER));;
            mret true
        | FB_PAIRING_RESPONSE_FIRMWARE_MANUFACTURER =>
            call i (DeviceEntity.set_fw_manufacturer content);;
            call i (DeviceEntity.set_pairing_cmd
                      (Some FB_PAIRING_CMD_PROVIDE_FIRMWARE_VERSION));;
            mret true
        | FB_PAIRING_RESPONSE_FIRMWARE_VERSION =>
            call i (DeviceEntity.set_fw_version content);;
            call i (DeviceEntity.set_pairing_cmd
                      (Some FB_PAIRING_CMD_PROVIDE_REGISTERS_SIZE));;
            mret true
        | _ => mret false
        end;
      if handled : bool then
        call i DeviceEntity.reset_communication;;
        update_device i
      else mret tt
  end.

(** [PairingHelper.handle]; gives the helper's attributes after it. *)
Definition PairingHelper_handle (h : PairingHelper) : M PairingHelper :=
  if negb (pairing_enabled h) then mret h
  else
    match pairing_device h with
    | None =>
        if MAX_SEARCHING_ATTEMPTS <=? pairing_attempts h then
          mret (mkPairingHelper None 0 0 false)
        else
          due ←
            (if Qeq_bool (last_pairing_request_broadcast h) 0 then mret true
             else
               now ← time_time env;
               mret (Qle_bool SEARCHING_DELAY
                       (now - last_pairing_request_broadcast h)));
          if due : bool then
            broadcast_pairing_request_handler;;
            now ← time_time env;
            mret (mkPairingHelper None now (pairing_attempts h + 1) true)
          else mret h
    | Some identifier =>
        w ← get;
        match get_device_by_id w identifier with
        | None => mret (disable_pairing (with_pairing_device None h))
        | Some i =>
            pairing_device ← deref i;
            if PairingHelper_MAX_TRANSMIT_ATTEMPTS
               <=? DeviceEntity.attempts pairing_device
            then
              on_device i (DeviceEntity_set_state env STATE_LOST);;
              update_device i;;
              mret (disable_pairing (with_pairing_device None h))
            else if bool_decide (DeviceEntity.pairing_cmd pairing_device
                                 = Some FB_PAIRING_CMD_SET_ADDRESS)
            then
              if negb (bool_decide (DeviceEntity.state pairing_device
                                    = STATE_CONNECTED))
              then mret (disable_pairing (with_pairing_device None h))
              else send_set_address_handler i;; mret h
            else if negb (bool_decide (DeviceEntity.state pairing_device
                                       = STATE_INIT))
            then mret (with_pairing_device None h)
            else
              match DeviceEntity.pairing_cmd pairing_device with
              | Some FB_PAIRING_CMD_PROVIDE_REGISTERS_STRUCTURE =>
                  send_provide_registers_structure_handler i
              | Some FB_PAIRING_CMD_PROVIDE_SETTINGS_STRUCTURE =>
                  send_provide_settings_structure_handler env budget i
              | Some FB_PAIRING_CMD_PROVIDE_ADDRESS
              | Some FB_PAIRING_CMD_SET_ADDRESS
              | None => mret tt
              | Some command => send_pairing_cmd_handler i command
              end;;
              mret h
        end
    end.

End FbBusRest.

(** No two devices share an address, the unassigned address apart. *)
Definition distinct_addresses (w : Connector) : Prop :=
  forall i j d1 d2,
    devices w !! i = Some d1 -> devices w !! j = Some d2 ->
    DeviceEntity.address d1 = DeviceEntity.address d2 ->
    DeviceEntity.address d1 <> ADDRESS_NOT_ASSIGNED ->
    i = j.

(** The frame of [write_value_to_register] for a digital output. *)
Definition digital_write_frame (register : RegisterEntity.t) (on : bool)
    : list Z :=
  [ 0x07; 0x02; Z.shiftr (RegisterEntity.address register) 8;
    Z.land (RegisterEntity.address register) 0xFF;
    if on then 0xFF else 0x00; 0x00; 0x00 ].


(** A register after a word of an analog read: the value the codec gives
    for its data type, or the register as it was when the codec gives
    none. *)
Definition decoded (env : Env) (register : RegisterEntity.t)
    (block : list Z) : RegisterEntity.t :=
  match transform_value_from_bytes env register block with
  | Returns (Some v) => RegisterEntity.set_value v register
  | _ => register
  end.

(** No register is of the data type FLOAT32, the one the codec hands to
    [struct] with the float format. *)
Definition no_float_registers (w : Connector) : Prop :=
  Forall (fun r => RegisterEntity.data_type r <> FB_DATA_TYPE_FLOAT32)
    (registers w).

(** * Properties *)

Section Properties.

Context (env : Env) (budget : nat).

(** ** Vocabulary of the statements *)

(** What [set_state(LOST)] leaves of a device, at clock reading [now]. *)
Definition lost_at (now : Q) (d : DeviceEntity.t) : DeviceEntity.t :=
  DeviceEntity.with_last_packet_sent_timestamp 0%Q
    (DeviceEntity.reset_communication
       (DeviceEntity.with_lost_timestamp now
          (DeviceEntity.with_state STATE_LOST d))).

(** The [j]-th poll after a wait started at clock reading [tc] with the
    link's loop called [lc] times before: the poll is made when the clock
    is still within the window, and it sees no acknowledgement when the
    loop returns another result. *)
Definition in_window (tc : nat) (waiting_time : Q) (j : nat) : Prop :=
  (clock env (S tc + j) - clock env tc <= waiting_time)%Q.

Definition sees_ack (lc j : nat) : Prop :=
  exists q, pjon_loop env (lc + j) = Returns (q, PJON_ACK env).

Definition sees_no_ack (lc j : nat) : Prop :=
  exists q r, pjon_loop env (lc + j) = Returns (q, r) /\ r <> PJON_ACK env.

Definition quiet_polls (tc lc : nat) (waiting_time : Q) (k : nat) : Prop :=
  forall j, (j < k)%nat -> in_window tc waiting_time j /\ sees_no_ack lc j.

Definition integer_type (data_type : DataTypes) : bool :=
  match data_type with
  | FB_DATA_TYPE_UINT8 | FB_DATA_TYPE_UINT16 | FB_DATA_TYPE_UINT32
  | FB_DATA_TYPE_INT8 | FB_DATA_TYPE_INT16 | FB_DATA_TYPE_INT32 => true
  | _ => false
  end.

Definition valueless_type (data_type : DataTypes) : bool :=
  match data_type with
  | FB_DATA_TYPE_UNKNOWN | FB_DATA_TYPE_BOOL | FB_DATA_TYPE_TIME
  | FB_DATA_TYPE_DATE | FB_DATA_TYPE_DATETIME => true
  | _ => false
  end.

(** What files and finds a register; a value update leaves it alone. *)
Definition reg_key (r : RegisterEntity.t) : UUID * UUID * Z * RegistersTypes :=
  (RegisterEntity.id r, RegisterEntity.device_id r, RegisterEntity.address r,
   RegisterEntity.type r).

Definition same_keys (w w' : Connector) : Prop :=
  reg_key <$> registers w' = reg_key <$> registers w.

(** The boolean written for the [i]-th entry of [data_byte]. *)
Definition bit_of (bits : list Z) (i : nat) : bool :=
  match bits !! i with
  | Some c => negb (Z.land c 0x01 =? 0)
  | None => false
  end.

(** Between two connectors: the registers found at the addresses of
    [lo..hi-1] hold the booleans [bit], the registers found at the other
    addresses are as they were, and nothing is filed differently. *)
Definition updated_between (device : DeviceEntity.t) (ty : RegistersTypes)
    (w w' : Connector) (lo hi : Z) (bit : Z -> bool) : Prop :=
  same_keys w w' /\ devices w' = devices w
  /\ forall a ri,
       get_register_by_address w device ty a = Some ri ->
       (lo <= a < hi ->
        exists r, registers w' !! ri = Some r
                  /\ RegisterEntity.value r = VBool (bit a))
       /\ (~ lo <= a < hi -> registers w' !! ri = registers w !! ri).

(** ** Stepping through a method *)

Lemma bind_Ok {A B} (m : M A) (f : A -> M B) w a w1 :
  m w = Ok a w1 -> (m ≫= f) w = f a w1.
Proof. intros H. unfold mbind, M_bind. now rewrite H. Qed.

Lemma deref_Ok i w d : devices w !! i = Some d -> deref i w = Ok d w.
Proof. intros H. unfold deref. now rewrite H. Qed.

Lemma with_devices_id w : with_devices (devices w) w = w.
Proof. now destruct w. Qed.

(** A pure method call on the object at [i]. *)
Lemma call_Ok i f w d :
  devices w !! i = Some d ->
  call i f w = Ok tt (with_devices (<[i := f d]> (devices w)) w).
Proof.
  intros H. unfold call, on_device.
  rewrite (bind_Ok _ _ _ _ _ (deref_Ok _ _ _ H)). reflexivity.
Qed.

(** Filing an object of the store under its id leaves it where it is. *)
Lemma update_device_Ok i w d :
  devices w !! i = Some d ->
  exists ds, update_device i w = Ok tt (with_devices ds w)
             /\ ds !! i = Some d /\ length ds = length (devices w).
Proof.
  intros H. unfold update_device.
  rewrite (bind_Ok _ _ _ _ _ (deref_Ok _ _ _ H)). unfold modify.
  destruct (list_find _ (devices w)) as [[j y]|] eqn:Hf.
  - exists (<[j := d]> (devices w)). split; [reflexivity|]. split.
    + destruct (decide (j = i)) as [->|Hne].
      * apply list_lookup_insert_eq. now apply lookup_lt_Some in H.
      * now rewrite list_lookup_insert_ne.
    + apply length_insert.
  - exists (devices w). now rewrite with_devices_id.
Qed.

Lemma set_alive_Ok d w :
  DeviceEntity_set_alive env d w
  = Ok (DeviceEntity.with_lost_timestamp 0%Q
          (DeviceEntity.reset_communication
             (DeviceEntity.with_state STATE_UNKNOWN d))) w.
Proof. reflexivity. Qed.

Lemma on_device_Ok i method w d d' w1 :
  devices w !! i = Some d ->
  method d w = Ok d' w1 ->
  on_device i method w = Ok tt (with_devices (<[i := d']> (devices w1)) w1).
Proof.
  intros H Hm. unfold on_device.
  rewrite (bind_Ok _ _ _ _ _ (deref_Ok _ _ _ H)).
  rewrite (bind_Ok _ _ _ _ _ Hm). reflexivity.
Qed.

Lemma propagate_device_state_Ok i w d :
  devices w !! i = Some d ->
  propagate_device_state i w
  = Ok tt (with_upstream
             (upstream w ++ [add_or_edit_device (DeviceEntity.id d)
                               (DeviceEntity.serial_number d)
                               (DeviceEntity.state d)]) w).
Proof.
  intros H. unfold propagate_device_state.
  rewrite (bind_Ok _ _ _ _ _ (deref_Ok _ _ _ H)). reflexivity.
Qed.

Lemma get_device_by_address_Some w a i :
  get_device_by_address w a = Some i ->
  exists d, devices w !! i = Some d /\ Some (DeviceEntity.address d) = a.
Proof.
  unfold get_device_by_address. intros H.
  destruct (list_find _ _) as [[j d]|] eqn:Hf; [|discriminate].
  simpl in H. injection H as ->. apply list_find_Some in Hf.
  exists d. tauto.
Qed.

Lemma bind_ret {A B} (a : A) (f : A -> M B) w : (mret a ≫= f) w = f a w.
Proof. reflexivity. Qed.

(** With attempts to spare, a device in the state UNKNOWN is asked for its
    state. *)
Lemma handle_unknown i w d :
  devices w !! i = Some d ->
  DeviceEntity.attempts d < MAX_TRANSMIT_ATTEMPTS ->
  DeviceEntity.state d = STATE_UNKNOWN ->
  CheckingHandler_handle env budget i w
  = send_get_device_state_handler env budget i w.
Proof.
  intros Hd Hatt Hst. unfold CheckingHandler_handle.
  rewrite (bind_Ok _ _ _ _ _ (deref_Ok _ _ _ Hd)).
  rewrite (proj2 (Z.leb_gt _ _) Hatt), bind_ret.
  rewrite (bind_Ok _ _ _ _ _ (deref_Ok _ _ _ Hd)).
  unfold DeviceEntity.is_lost. rewrite Hst.
  rewrite (bool_decide_eq_false_2 (STATE_UNKNOWN = STATE_LOST)) by done.
  rewrite bind_ret. now rewrite bool_decide_eq_true_2.
Qed.

(** C3. A PONG from a known device brings it back alive: state UNKNOWN,
    lost-since 0, no expected reply, no attempts counted, the state sent
    upstream; the next step of the checking handler is the GET_STATE
    request for that device. *)
Theorem pong_marks_alive (w : Connector) (a : Z) (i : nat)
    (payload : list Z) (len : Z) :
  get_device_by_address w (Some a) = Some i ->
  exists w' d',
    CheckingHandler_receive env FB_PACKET_PONG (Some a) payload len w = Ok tt w'
    /\ devices w' !! i = Some d'
    /\ DeviceEntity.state d' = STATE_UNKNOWN
    /\ DeviceEntity.lost_timestamp d' = 0%Q
    /\ DeviceEntity.waiting_for_packet d' = None
    /\ DeviceEntity.attempts d' = 0
    /\ upstream w' = upstream w ++ [add_or_edit_device (DeviceEntity.id d')
                                      (DeviceEntity.serial_number d')
                                      STATE_UNKNOWN]
    /\ CheckingHandler_handle env budget i w'
       = send_get_device_state_handler env budget i w'.
Proof.
  intros Hi. destruct (get_device_by_address_Some _ _ _ Hi) as (d & Hd & _).
  set (d' := DeviceEntity.with_lost_timestamp 0%Q
               (DeviceEntity.reset_communication
                  (DeviceEntity.with_state STATE_UNKNOWN d))).
  assert (Hlt : (i < List.length (devices w))%nat) by now apply lookup_lt_Some in Hd.
  set (w1 := with_devices (<[i := d']> (devices w)) w).
  assert (H1 : devices w1 !! i = Some d') by now apply list_lookup_insert_eq.
  destruct (update_device_Ok i w1 d' H1) as (ds & Hup & Hds & _).
  set (w2 := with_devices ds w1) in *.
  assert (H2 : devices w2 !! i = Some d') by exact Hds.
  exists (with_upstream (upstream w2 ++ [add_or_edit_device (DeviceEntity.id d')
            (DeviceEntity.serial_number d') (DeviceEntity.state d')]) w2), d'.
  split.
  { unfold CheckingHandler_receive, pong_receiver.
    unfold mbind at 1, M_bind, get. rewrite Hi.
    rewrite (bind_Ok _ _ _ _ _ (on_device_Ok _ _ _ _ _ _ Hd (set_alive_Ok d w))).
    fold w1. rewrite (bind_Ok _ _ _ _ _ Hup).
    now apply propagate_device_state_Ok. }
  repeat split; try reflexivity; try exact H2.
  apply (handle_unknown _ _ d'); [exact H2 | reflexivity | reflexivity].
Qed.

Lemma set_state_LOST_Ok d w :
  DeviceEntity_set_state env STATE_LOST d w
  = Ok (lost_at (clock env (time_calls w)) d)
       (with_time_calls (S (time_calls w)) w).
Proof. reflexivity. Qed.

(** C2. A device whose attempt counter has reached MAX_TRANSMIT_ATTEMPTS is
    marked lost by the next step of the checking handler: state LOST,
    lost-since the clock reading of that step (not zero), no expected reply,
    attempt counter zero, the state sent upstream, and no frame sent.  The
    clock is read as positive and the step as shorter than PING_DELAY. *)
Theorem exhausted_attempts_mark_lost (w : Connector) (i : nat)
    (d : DeviceEntity.t) :
  devices w !! i = Some d ->
  MAX_TRANSMIT_ATTEMPTS <= DeviceEntity.attempts d ->
  (0 < clock env (time_calls w))%Q ->
  (clock env (S (time_calls w)) - clock env (time_calls w) < PING_DELAY)%Q ->
  exists w' d',
    CheckingHandler_handle env budget i w = Ok tt w'
    /\ devices w' !! i = Some d'
    /\ DeviceEntity.state d' = STATE_LOST
    /\ DeviceEntity.lost_timestamp d' = clock env (time_calls w)
    /\ ~ (DeviceEntity.lost_timestamp d' == 0)%Q
    /\ DeviceEntity.waiting_for_packet d' = None
    /\ DeviceEntity.attempts d' = 0
    /\ upstream w' = upstream w ++ [add_or_edit_device (DeviceEntity.id d)
                                      (DeviceEntity.serial_number d)
                                      STATE_LOST]
    /\ sent w' = sent w.
Proof.
  intros Hd Hatt Hpos Hshort.
  set (t1 := clock env (time_calls w)) in *.
  set (d' := lost_at t1 d).
  set (w1 := with_devices (<[i := d']> (devices w))
               (with_time_calls (S (time_calls w)) w)).
  assert (Hlt : (i < length (devices w))%nat) by now apply lookup_lt_Some in Hd.
  assert (H1 : devices w1 !! i = Some d') by now apply list_lookup_insert_eq.
  destruct (update_device_Ok i w1 d' H1) as (ds & Hup & Hds & _).
  set (w2 := with_devices ds w1) in *.
  set (w3 := with_upstream (upstream w2 ++ [add_or_edit_device (DeviceEntity.id d')
               (DeviceEntity.serial_number d') (DeviceEntity.state d')]) w2).
  assert (H3 : devices w3 !! i = Some d') by exact Hds.
  exists (with_time_calls (S (S (time_calls w))) w3), d'.
  split.
  { unfold CheckingHandler_handle.
    rewrite (bind_Ok _ _ _ _ _ (deref_Ok _ _ _ Hd)).
    rewrite (proj2 (Z.leb_le _ _) Hatt).
    erewrite bind_Ok; cycle 1.
    { erewrite bind_Ok
        by (eapply on_device_Ok; [exact Hd | apply set_state_LOST_Ok]).
      fold t1 d' w1. rewrite (bind_Ok _ _ _ _ _ Hup).
      apply (propagate_device_state_Ok i w2 d' Hds). }
    fold w3. rewrite (bind_Ok _ _ _ _ _ (deref_Ok _ _ _ H3)).
    change (DeviceEntity.is_lost d') with true.
    change (DeviceEntity.lost_timestamp d') with t1.
    unfold mbind at 1, M_bind. unfold mbind at 1, M_bind.
    change (time_time env w3)
      with (Ok (clock env (S (time_calls w)))
              (with_time_calls (S (S (time_calls w))) w3)).
    cbv beta iota.
    destruct (Qle_bool PING_DELAY (clock env (S (time_calls w)) - t1)) eqn:Hq.
    { apply Qle_bool_iff in Hq. exfalso. revert Hq. apply Qlt_not_le, Hshort. }
    reflexivity. }
  repeat split; try reflexivity; try exact H3.
  change (DeviceEntity.lost_timestamp d') with t1.
  intros Hz. rewrite Hz in Hpos. now apply Qlt_irrefl in Hpos.
Qed.

(** C9. A received SET_STATE packet changes nothing: whatever the sender and
    the payload, the checking handler returns with the connector as it was
    (registry, frames sent, upstream calls, clock readings). *)
Theorem set_state_packet_is_ignored (w : Connector) (sender_address : option Z)
    (payload : list Z) (len : Z) :
  CheckingHandler_receive env FB_PACKET_SET_STATE sender_address payload len w
  = Ok tt w.
Proof.
  unfold CheckingHandler_receive, set_state_receiver.
  unfold mbind, M_bind, get.
  destruct (get_device_by_address w sender_address); [|reflexivity].
  now destruct (len =? 3).
Qed.

Lemma get_device_by_id_Some w identifier i :
  get_device_by_id w identifier = Some i ->
  exists d, devices w !! i = Some d /\ DeviceEntity.id d = identifier.
Proof.
  unfold get_device_by_id. intros H.
  destruct (list_find _ _) as [[j d]|] eqn:Hf; [|discriminate].
  simpl in H. injection H as ->. apply list_find_Some in Hf.
  exists d. tauto.
Qed.

(** C6. A write to a register that is neither a DO nor an AO is dropped: the
    handler returns with the connector as it was, so no frame is sent and
    the device's attempt counter and expected reply and the register's
    value are unchanged. *)
Theorem write_to_input_register_is_dropped (w : Connector)
    (register : RegisterEntity.t) (write_value : Value) :
  RegisterEntity.type register <> FB_REGISTER_DO ->
  RegisterEntity.type register <> FB_REGISTER_AO ->
  write_value_to_register env budget register write_value w = Ok tt w.
Proof.
  intros HDO HAO. unfold write_value_to_register.
  unfold mbind at 1, M_bind at 1, get.
  destruct (get_device_by_id w _) as [i|] eqn:Hi; [|reflexivity].
  destruct (get_device_by_id_Some _ _ _ Hi) as (device & Hd & _).
  rewrite (bind_Ok _ _ _ _ _ (deref_Ok _ _ _ Hd)).
  destruct (DeviceEntity.is_ready device); [|reflexivity].
  destruct (RegisterEntity.type register); try reflexivity; congruence.
Qed.

Lemma publish_loop_no_match rs property_id expected w :
  Forall (fun x => RegisterEntity.id x <> property_id) rs ->
  publish_loop env budget rs property_id expected w = Ok tt w.
Proof.
  induction 1 as [|x rs Hx _ IH]; [reflexivity|]. simpl.
  now rewrite bool_decide_eq_false_2.
Qed.

Lemma bind_unit_ret (m : M unit) w : (m ≫= fun _ => mret tt) w = m w.
Proof. unfold mbind, M_bind. now destruct (m w) as [[] w'| |]. Qed.

(** C10. [publish] with "toggle" on a DO register commands the write of a
    boolean that is false exactly when the register's value is the boolean
    true; in particular a register never set (value None) is commanded to
    true.  The register is the one filed under the property id. *)
Theorem publish_toggle_negates (w : Connector) (property_id : UUID)
    (before after : list RegisterEntity.t) (register : RegisterEntity.t) :
  registers w = before ++ register :: after ->
  Forall (fun x => RegisterEntity.id x <> property_id) before ->
  Forall (fun x => RegisterEntity.id x <> property_id) after ->
  RegisterEntity.id register = property_id ->
  RegisterEntity.type register = FB_REGISTER_DO ->
  exists commanded : bool,
    publish env budget property_id (VStr "toggle") w
    = write_value_to_register env budget register (VBool commanded) w
    /\ (commanded = false <-> RegisterEntity.value register = VBool true)
    /\ (RegisterEntity.value register = VNone -> commanded = true).
Proof.
  intros Hregs Hbefore Hafter Hid Hty.
  exists (if is_True (RegisterEntity.value register) then false else true).
  split.
  - unfold publish, mbind at 1, M_bind at 1, get. rewrite Hregs.
    clear Hregs. induction Hbefore as [|x before Hx _ IH]; simpl.
    + rewrite bool_decide_eq_true_2 by assumption.
      rewrite bool_decide_eq_true_2 by assumption. simpl.
      unfold mbind, M_bind.
      destruct (write_value_to_register _ _ _ _ w) as [[] w'| |]; try reflexivity.
      now apply publish_loop_no_match.
    + now rewrite bool_decide_eq_false_2.
  - split.
    + destruct (RegisterEntity.value register) as [| [|] | | |]; simpl;
        split; congruence.
    + now intros ->.
Qed.

Lemma dict_set_lookup {A} (key : A -> UUID) (x : A) (l : list A) :
  snd (dict_set key x l) !! fst (dict_set key x l) = Some x.
Proof.
  unfold dict_set. destruct (list_find _ l) as [[j y]|] eqn:Hf; simpl.
  - apply list_find_Some in Hf as (Hj & _). apply list_lookup_insert_eq.
    now apply lookup_lt_Some in Hj.
  - rewrite lookup_app_r by lia. now rewrite Nat.sub_diag.
Qed.

Lemma create_device_unfold (w : Connector) (serial_number : string)
    (max_packet_length : Z) :
  create_device env serial_number max_packet_length w
  = match list_find (fun i => i ∉ DeviceEntity.address <$> devices w)
                    (py_range 1 MAX_ADDRESS) with
    | None => Raise InvalidStateException w
    | Some (_, a) =>
        let d := DeviceEntity.with_state STATE_CONNECTED
                   (DeviceEntity.init (uuid4 env (uuid_calls w)) a serial_number
                      max_packet_length false false false) in
        let w1 := with_uuid_calls (S (uuid_calls w)) w in
        Ok (fst (dict_set DeviceEntity.id d (devices w1)))
           (with_devices (snd (dict_set DeviceEntity.id d (devices w1))) w1)
    end.
Proof.
  unfold create_device, mbind at 1, M_bind at 1, get.
  destruct (list_find _ _) as [[k a]|]; [|reflexivity].
  unfold mbind at 1, M_bind at 1, uuid_uuid4.
  unfold mbind at 1, M_bind at 1.
  change (DeviceEntity_set_state env STATE_CONNECTED ?d ?w0)
    with (Ok (DeviceEntity.with_state STATE_CONNECTED d) w0).
  cbv beta iota zeta. unfold mbind at 1, M_bind at 1, get.
  simpl devices.
  now destruct (dict_set _ _ _).
Qed.

(** What [create_device] does on every registry: the new device gets the
    lowest address of 1..252 that no device holds, in the state CONNECTED;
    when every address of 1..252 is held the call raises and the registry
    is as it was. *)
Lemma create_device_lowest_free_below_max (w : Connector)
    (serial_number : string) (max_packet_length : Z) :
  let reserved := DeviceEntity.address <$> devices w in
  (exists a i w' d,
      create_device env serial_number max_packet_length w = Ok i w'
      /\ devices w' !! i = Some d
      /\ DeviceEntity.address d = a
      /\ DeviceEntity.state d = STATE_CONNECTED
      /\ DeviceEntity.serial_number d = serial_number
      /\ 1 <= a < MAX_ADDRESS /\ (a ∉ reserved)
      /\ forall b, 1 <= b < a -> b ∈ reserved)
  \/ (create_device env serial_number max_packet_length w
      = Raise InvalidStateException w
      /\ forall b, 1 <= b < MAX_ADDRESS -> b ∈ reserved).
Proof.
  intros reserved. rewrite create_device_unfold. fold reserved.
  destruct (list_find _ (py_range 1 MAX_ADDRESS)) as [[k a]|] eqn:Hf.
  - left. apply list_find_Some in Hf as (Hk & Hfree & Hlow).
    apply lookup_seqZ in Hk as [-> Hk].
    exists (1 + Z.of_nat k). eexists _, _, _. split; [reflexivity|].
    split; [apply dict_set_lookup|].
    do 3 (split; [reflexivity|]).
    split; [unfold MAX_ADDRESS in *; lia|]. split; [assumption|].
    intros b Hb.
    destruct (decide (b ∈ reserved)) as [|Hn]; [assumption|exfalso].
    apply (Hlow (Z.to_nat (b - 1)) b); [|lia|exact Hn].
    apply lookup_seqZ. split; lia.
  - right. split; [reflexivity|]. intros b Hb.
    apply list_find_None in Hf. rewrite Forall_forall in Hf.
    destruct (decide (b ∈ reserved)) as [|Hn]; [assumption|exfalso].
    apply (Hf b); [|exact Hn]. apply elem_of_seqZ. unfold MAX_ADDRESS in *. lia.
Qed.

(** C1, at the registry whose devices hold the addresses 1 to 252: address
    253 is held by no device, and [create_device] raises instead of
    assigning it; the registry is as it was. *)
Theorem create_device_never_assigns_253 :
  (253 ∉ DeviceEntity.address <$> devices crowded_connector)
  /\ create_device env "AABBCC" 24 crowded_connector
     = Raise InvalidStateException crowded_connector.
Proof.
  split.
  - apply (bool_decide_unpack _). vm_compute. reflexivity.
  - vm_compute. reflexivity.
Qed.

(** The count of settings per packet is the floor of the quotient exactly
    when the remainder is below half the descriptor size, or is the half
    and the floor is even; otherwise it is one more. *)
Lemma py_round_div_floor_iff (n d : Z) :
  0 < d ->
  py_round_div n d = n / d
  <-> (2 * (n mod d) < d \/ (2 * (n mod d) = d /\ Z.even (n / d) = true)).
Proof.
  intros Hd. unfold py_round_div.
  destruct (Z.ltb_spec (2 * (n mod d)) d) as [H1|H1].
  - split; [now left|reflexivity].
  - destruct (Z.ltb_spec d (2 * (n mod d))) as [H2|H2].
    + split; [lia|]. intros [H|[H _]]; lia.
    + destruct (Z.even (n / d)) eqn:He.
      * split; [intros _; right; split; [lia|reflexivity]|reflexivity].
      * split; [lia|]. intros [H|[_ H]]; [lia|discriminate].
Qed.

Lemma py_round_div_examples :
  py_round_div 7 12 = 1 /\ py_round_div 6 12 = 0 /\ py_round_div 18 12 = 2
  /\ py_round_div (-3) 12 = 0 /\ py_round_div 30 12 = 2
  /\ py_round_div 3 12 = 0 /\ py_round_div 8 15 = 1.
Proof. repeat split. Qed.

(** ** The busy-wait for an acknowledgement *)

Lemma wait_for_ack_step polls current_time waiting_time w :
  wait_for_ack env (S polls) current_time waiting_time w
  = let w1 := with_time_calls (S (time_calls w)) w in
    let w2 := with_loop_calls (S (loop_calls w)) w1 in
    if Qle_bool (clock env (time_calls w) - current_time) waiting_time then
      match pjon_loop env (loop_calls w) with
      | Returns (_, send_packet_result) =>
          if send_packet_result =? PJON_ACK env then Ok true w2
          else wait_for_ack env polls current_time waiting_time w2
      | Raises e => Raise e w2
      end
    else Ok false w1.
Proof.
  simpl wait_for_ack. unfold mbind at 1, M_bind at 1, time_time.
  cbv beta iota zeta. destruct (Qle_bool _ _); [|reflexivity].
  unfold mbind at 1, M_bind at 1, link_loop. simpl loop_calls.
  destruct (pjon_loop env (loop_calls w)) as [[q r]|e]; [|reflexivity].
  cbv beta iota. now destruct (r =? PJON_ACK env).
Qed.

Lemma wait_for_ack_outcome (k : nat) :
  forall (polls tc lc : nat) (waiting_time : Q) (w : Connector),
    (k < polls)%nat ->
    (forall j, (j < k)%nat ->
       (clock env (time_calls w + j) - clock env tc <= waiting_time)%Q
       /\ sees_no_ack (loop_calls w) j) ->
    ((clock env (time_calls w + k) - clock env tc <= waiting_time)%Q ->
     sees_ack (loop_calls w) k ->
     wait_for_ack env polls (clock env tc) waiting_time w
     = Ok true (with_loop_calls (loop_calls w + S k)
                  (with_time_calls (time_calls w + S k) w)))
    /\ (~ (clock env (time_calls w + k) - clock env tc <= waiting_time)%Q ->
        wait_for_ack env polls (clock env tc) waiting_time w
        = Ok false (with_loop_calls (loop_calls w + k)
                      (with_time_calls (time_calls w + S k) w))).
Proof.
  induction k as [|k IH]; intros polls tc lc waiting_time w Hpolls Hquiet;
    (destruct polls as [|polls]; [lia|]); rewrite wait_for_ack_step;
    cbv zeta.
  - split; [intros Hwin (q & Hack)|intros Hout]; rewrite ?Nat.add_0_r in *.
    + apply Qle_bool_iff in Hwin. rewrite Hwin, Hack, Z.eqb_refl.
      rewrite !Nat.add_1_r. reflexivity.
    + destruct (Qle_bool _ _) eqn:Hq.
      { apply Qle_bool_iff in Hq. contradiction. }
      rewrite Nat.add_1_r. now destruct w.
  - destruct (Hquiet 0%nat ltac:(lia)) as (Hwin0 & q0 & r0 & Hloop0 & Hr0).
    rewrite !Nat.add_0_r in *. apply Qle_bool_iff in Hwin0.
    rewrite Hwin0, Hloop0, (proj2 (Z.eqb_neq _ _) Hr0).
    set (w1 := with_loop_calls _ _).
    specialize (IH polls tc lc waiting_time w1 ltac:(lia)).
    simpl time_calls in IH. simpl loop_calls in IH.
    replace (S (time_calls w) + k)%nat with (time_calls w + S k)%nat in IH by lia.
    replace (S (time_calls w) + S k)%nat with (time_calls w + S (S k))%nat in IH by lia.
    replace (S (loop_calls w) + S k)%nat with (loop_calls w + S (S k))%nat in IH by lia.
    replace (S (loop_calls w) + k)%nat with (loop_calls w + S k)%nat in IH by lia.
    assert (Hq : forall j, (j < k)%nat ->
              (clock env (S (time_calls w) + j) - clock env tc <= waiting_time)%Q
              /\ sees_no_ack (S (loop_calls w)) j).
    { intros j Hj. destruct (Hquiet (S j) ltac:(lia)) as (Hw & q & r & Hl & Hr).
      split.
      - now replace (S (time_calls w) + j)%nat with (time_calls w + S j)%nat by lia.
      - exists q, r. split; [|exact Hr].
        now replace (S (loop_calls w) + j)%nat with (loop_calls w + S j)%nat by lia. }
    destruct (IH Hq) as [IHa IHb]. split.
    + intros Hwin (q & Hack). rewrite IHa; [reflexivity|exact Hwin|].
      exists q. now replace (S (loop_calls w) + k)%nat with (loop_calls w + S k)%nat by lia.
    + intros Hout. now rewrite IHb.
Qed.

Lemma Packets_of_value_value p : Packets_of_value (Packets_value p) = Some p.
Proof. now destruct p. Qed.

Lemma send_packet_unfold (w : Connector) (address : Z) (waiting_time : Q)
    (p : Packets) (rest : list Z) :
  bytes_ok (Packets_value p :: rest) = true ->
  send_packet env budget address (Packets_value p :: rest) waiting_time w
  = let handed :=
      with_sent (sent w ++ [(address, Packets_value p :: rest)]) w in
    if Qle_bool waiting_time 0 then Ok true handed
    else wait_for_ack env budget (clock env (time_calls w)) waiting_time
           (with_time_calls (S (time_calls w)) handed).
Proof.
  intros Hbytes. unfold send_packet. rewrite Hbytes.
  cbv [negb]. unfold mbind at 1, M_bind at 1, modify.
  change (payload_at (Packets_value p :: rest) 0 ≫= ?f)
    with (mret (M := M) (Packets_value p) ≫= f).
  rewrite bind_ret, Packets_of_value_value. cbv zeta.
  now destruct (Qle_bool waiting_time 0).
Qed.

(** C8, amended. [send_packet] hands the frame to the link and, for a
    waiting time that is not positive, returns true at once.  For a positive
    waiting time it polls the link's loop while the time elapsed since the
    start is within the waiting time: it returns true at the first poll that
    sees an acknowledgement, and false when the clock leaves the window
    before any poll has seen one.  The frame is a sequence of bytes that
    starts with a packet identifier; [k] counts the polls that saw no
    acknowledgement, within the polling budget. *)
Theorem send_packet_returns_whether_acknowledged (w : Connector) (address : Z)
    (payload : list Z) (waiting_time : Q) (p : Packets) (rest : list Z) :
  bytes_ok payload = true ->
  payload = Packets_value p :: rest ->
  let handed := with_sent (sent w ++ [(address, payload)]) w in
  ((waiting_time <= 0)%Q ->
   send_packet env budget address payload waiting_time w = Ok true handed)
  /\ (forall k : nat,
        (0 < waiting_time)%Q -> (k < budget)%nat ->
        quiet_polls (time_calls w) (loop_calls w) waiting_time k ->
        (in_window (time_calls w) waiting_time k ->
         sees_ack (loop_calls w) k ->
         exists w', send_packet env budget address payload waiting_time w
                    = Ok true w'
                    /\ sent w' = sent handed)
        /\ (~ in_window (time_calls w) waiting_time k ->
            exists w', send_packet env budget address payload waiting_time w
                       = Ok false w'
                       /\ sent w' = sent handed)).
Proof.
  intros Hbytes -> handed. rewrite (send_packet_unfold _ _ _ _ _ Hbytes).
  cbv zeta. fold handed. split.
  - intros Hle. apply Qle_bool_iff in Hle. now rewrite Hle.
  - intros k Hpos Hk Hquiet.
    assert (Hq : Qle_bool waiting_time 0 = false).
    { destruct (Qle_bool _ _) eqn:E; [|reflexivity].
      apply Qle_bool_iff in E. exfalso. revert E. now apply Qlt_not_le. }
    rewrite Hq.
    set (w1 := with_time_calls _ handed).
    destruct (wait_for_ack_outcome k budget (time_calls w) (loop_calls w)
                waiting_time w1 Hk) as [Hack Hout].
    { intros j Hj. exact (Hquiet j Hj). }
    split.
    + intros Hwin Hsees. eexists. split; [apply Hack; assumption|reflexivity].
    + intros Hwin. eexists. split; [apply Hout; assumption|reflexivity].
Qed.

(** ** The value codec *)

Lemma bytes_ok_four (block : list Z) :
  bytes_ok block = true -> length block = 4%nat ->
  exists b0 b1 b2 b3,
    block = [b0; b1; b2; b3]
    /\ 0 <= b0 < 256 /\ 0 <= b1 < 256 /\ 0 <= b2 < 256 /\ 0 <= b3 < 256.
Proof.
  intros Hok Hlen.
  destruct block as [|b0 [|b1 [|b2 [|b3 [|? ?]]]]]; try discriminate.
  exists b0, b1, b2, b3. split; [reflexivity|].
  unfold bytes_ok in Hok. simpl in Hok.
  rewrite !andb_true_iff in Hok. lia.
Qed.

(** The four low bytes of a number made of four bytes, also after the
    wrap-around of the signed reading. *)
Lemma le_bytes4_of_le_bytes (b0 b1 b2 b3 k : Z) :
  0 <= b0 < 256 -> 0 <= b1 < 256 -> 0 <= b2 < 256 -> 0 <= b3 < 256 ->
  le_bytes4 (of_le_bytes [b0; b1; b2; b3] + k * 2 ^ 32) = [b0; b1; b2; b3].
Proof.
  intros H0 H1 H2 H3. unfold le_bytes4, of_le_bytes. simpl fold_right.
  change 0xFF with (Z.ones 8). rewrite !Z.land_ones by lia.
  rewrite !Z.shiftr_div_pow2 by lia.
  change (2 ^ 8) with 256. change (2 ^ 16) with 65536.
  change (2 ^ 24) with 16777216. change (2 ^ 32) with 4294967296.
  repeat f_equal; Z.div_mod_to_equations; lia.
Qed.

(** The float format: bits set in a pattern. *)
Lemma lor_quiet_bit (hi m k : Z) :
  0 <= k -> 2 ^ k <= m < 2 ^ (k + 1) ->
  Z.lor ((2 * hi + 1) * 2 ^ k) m = hi * 2 ^ (k + 1) + m.
Proof.
  intros Hk Hm.
  assert (Hpow : 2 ^ (k + 1) = 2 * 2 ^ k).
  { rewrite Z.pow_add_r by lia. change (2 ^ 1) with 2. lia. }
  assert (Hlow : forall n, 0 <= n < k + 1 ->
            Z.testbit (hi * 2 ^ (k + 1) + m) n = Z.testbit m n).
  { intros n Hn.
    rewrite <- (Z.mod_pow2_bits_low (hi * 2 ^ (k + 1) + m) (k + 1) n) by lia.
    rewrite Z.add_comm, Z.mod_add by lia.
    now rewrite Z.mod_pow2_bits_low by lia. }
  apply Z.bits_inj'. intros n Hn. rewrite Z.lor_spec.
  destruct (Z.lt_trichotomy n k) as [Hlt | [-> | Hgt]].
  - rewrite Z.mul_pow2_bits_low by lia. rewrite Hlow by lia. reflexivity.
  - rewrite Hlow by lia.
    replace (Z.testbit m k) with true; [apply orb_true_r|].
    symmetry. rewrite Z.testbit_eqb by lia. apply Z.eqb_eq.
    assert (m / 2 ^ k = 1) as ->; [|reflexivity].
    symmetry. apply (Z.div_unique _ _ 1 (m - 2 ^ k)); lia.
  - rewrite Z.mul_pow2_bits by lia.
    replace (n - k) with (Z.succ (n - k - 1)) by lia.
    rewrite Z.testbit_odd_succ by lia.
    assert (Z.testbit m n = false) as ->.
    { rewrite Z.testbit_eqb by lia.
      assert (m / 2 ^ n = 0) as ->; [|reflexivity].
      apply Z.div_small. split; [lia|].
      apply Z.lt_le_trans with (2 ^ (k + 1)); [lia|].
      apply Z.pow_le_mono_r; lia. }
    rewrite orb_false_r.
    replace n with ((n - k - 1) + (k + 1)) at 2 by lia.
    rewrite <- Z.div_pow2_bits by lia.
    rewrite Z.div_add_l by lia.
    rewrite (Z.div_small m) by lia. now rewrite Z.add_0_r.
Qed.

Lemma lor_disjoint (hi x k : Z) :
  0 <= k -> 0 <= x < 2 ^ k -> Z.lor (hi * 2 ^ k) x = hi * 2 ^ k + x.
Proof.
  intros Hk Hx. apply Z.bits_inj'. intros n Hn. rewrite Z.lor_spec.
  destruct (Z.lt_ge_cases n k) as [Hlt | Hge].
  - rewrite Z.mul_pow2_bits_low by lia.
    rewrite <- (Z.mod_pow2_bits_low (hi * 2 ^ k + x) k n) by lia.
    rewrite Z.add_comm, Z.mod_add by lia.
    now rewrite Z.mod_pow2_bits_low by lia.
  - assert (Z.testbit x n = false) as ->.
    { rewrite Z.testbit_eqb by lia.
      assert (x / 2 ^ n = 0) as ->; [|reflexivity].
      apply Z.div_small. split; [lia|].
      apply Z.lt_le_trans with (2 ^ k); [lia|].
      apply Z.pow_le_mono_r; lia. }
    rewrite orb_false_r. rewrite Z.mul_pow2_bits by lia.
    replace n with ((n - k) + k) at 2 by lia.
    rewrite <- Z.div_pow2_bits by lia.
    rewrite Z.div_add_l by lia.
    rewrite (Z.div_small x) by lia. now rewrite Z.add_0_r.
Qed.

(** The fields of a binary format, put together and taken apart. *)
Lemma binary32_fields (u : Z) :
  0 <= u < 2 ^ 32 ->
  let s := Z.land (Z.shiftr u 31) 1 in
  let e := Z.land (Z.shiftr u 23) 0xFF in
  let m := Z.land u (Z.ones 23) in
  u = s * 2 ^ 31 + e * 2 ^ 23 + m
  /\ 0 <= s <= 1 /\ 0 <= e < 256 /\ 0 <= m < 2 ^ 23.
Proof.
  intros Hu s e m. subst s e m.
  replace (Z.land (Z.shiftr u 31) 1) with ((u / 2 ^ 31) mod 2 ^ 1)
    by (now rewrite <- Z.land_ones, Z.shiftr_div_pow2 by lia).
  replace (Z.land (Z.shiftr u 23) 255) with ((u / 2 ^ 23) mod 2 ^ 8)
    by (now rewrite <- Z.land_ones, Z.shiftr_div_pow2 by lia).
  rewrite Z.land_ones by lia.
  change (2 ^ 32) with 4294967296 in Hu.
  change (2 ^ 31) with 2147483648. change (2 ^ 23) with 8388608.
  change (2 ^ 8) with 256. change (2 ^ 1) with 2.
  Z.div_mod_to_equations. lia.
Qed.

Lemma binary64_fields (s e m : Z) :
  0 <= s <= 1 -> 0 <= e < 2048 -> 0 <= m < 2 ^ 52 ->
  let bits := s * 2 ^ 63 + (e * 2 ^ 52 + m) in
  Z.land (Z.shiftr bits 63) 1 = s
  /\ Z.land (Z.shiftr bits 52) 0x7FF = e
  /\ Z.land bits (Z.ones 52) = m.
Proof.
  intros Hs He Hm bits. subst bits.
  replace (Z.land (Z.shiftr (s * 2 ^ 63 + (e * 2 ^ 52 + m)) 63) 1)
    with (((s * 2 ^ 63 + (e * 2 ^ 52 + m)) / 2 ^ 63) mod 2 ^ 1)
    by (now rewrite <- Z.land_ones, Z.shiftr_div_pow2 by lia).
  replace (Z.land (Z.shiftr (s * 2 ^ 63 + (e * 2 ^ 52 + m)) 52) 2047)
    with (((s * 2 ^ 63 + (e * 2 ^ 52 + m)) / 2 ^ 52) mod 2 ^ 11)
    by (now rewrite <- Z.land_ones, Z.shiftr_div_pow2 by lia).
  rewrite Z.land_ones by lia.
  change (2 ^ 52) with 4503599627370496 in *.
  change (2 ^ 63) with 9223372036854775808.
  change (2 ^ 11) with 2048. change (2 ^ 1) with 2.
  Z.div_mod_to_equations. lia.
Qed.

(** A multiple of [2 ^ k] is rounded to itself. *)
Lemma round_half_even_exact (n k : Z) :
  0 <= n -> 0 < k -> round_half_even (n * 2 ^ k) k = n.
Proof.
  intros Hn Hk. unfold round_half_even.
  rewrite (proj2 (Z.leb_gt k 0)) by lia. cbv zeta.
  rewrite Z.land_ones by lia. rewrite Z.mod_mul by lia.
  rewrite Z.shiftr_div_pow2 by lia. rewrite Z.div_mul by lia.
  assert (0 < 2 ^ (k - 1)) by (apply Z.pow_pos_nonneg; lia).
  now rewrite (proj2 (Z.ltb_lt 0 (2 ^ (k - 1)))) by lia.
Qed.

Lemma log2_leading (n k : Z) :
  0 <= k -> 2 ^ k <= n < 2 ^ (k + 1) -> Z.log2 n = k.
Proof.
  intros Hk Hn. apply Z.log2_unique; [exact Hk|].
  now replace (Z.succ k) with (k + 1) by lia.
Qed.

(** A normal number of binary32, widened and narrowed. *)
Lemma widen_normal (e m : Z) :
  0 < e < 255 -> 0 <= m < 2 ^ 23 ->
  ieee_round 52 (-1022) (2 ^ 23 + m) (e - 150)
  = (e + 896) * 2 ^ 52 + m * 2 ^ 29.
Proof.
  intros He Hm. unfold ieee_round.
  rewrite (proj2 (Z.eqb_neq _ 0)) by lia.
  rewrite (log2_leading (2 ^ 23 + m) 23) by (change (2 ^ (23 + 1)) with (2 * 2 ^ 23); lia).
  cbv zeta. rewrite Z.max_l by lia. unfold round_half_even.
  rewrite (proj2 (Z.leb_le _ 0)) by lia.
  replace (- (23 + (e - 150) - 52 - (e - 150))) with 29 by lia.
  change (2 ^ 52) with (2 ^ 23 * 2 ^ 29). lia.
Qed.

Lemma narrow_normal (e m : Z) :
  0 < e < 255 -> 0 <= m < 2 ^ 23 ->
  ieee_round 23 (-126) (2 ^ 52 + m * 2 ^ 29) (e + 896 - 1075)
  = e * 2 ^ 23 + m.
Proof.
  intros He Hm. unfold ieee_round.
  rewrite (proj2 (Z.eqb_neq _ 0)) by lia.
  rewrite (log2_leading (2 ^ 52 + m * 2 ^ 29) 52)
    by (change (2 ^ (52 + 1)) with (2 * 2 ^ 52);
        change (2 ^ 52) with (2 ^ 23 * 2 ^ 29); lia).
  cbv zeta. rewrite Z.max_l by lia.
  replace (52 + (e + 896 - 1075) - 23 - (e + 896 - 1075)) with 29 by lia.
  replace (2 ^ 52 + m * 2 ^ 29) with ((2 ^ 23 + m) * 2 ^ 29)
    by (change (2 ^ 52) with (2 ^ 23 * 2 ^ 29); lia).
  rewrite round_half_even_exact by lia. lia.
Qed.

(** A subnormal number of binary32 is a normal one of binary64. *)
Lemma widen_subnormal (m : Z) :
  0 < m < 2 ^ 23 ->
  let p := Z.log2 m in
  0 <= p < 23
  /\ 2 ^ 52 <= m * 2 ^ (52 - p) < 2 ^ 53
  /\ ieee_round 52 (-1022) m (-149) = (p + 873) * 2 ^ 52 + m * 2 ^ (52 - p).
Proof.
  intros Hm p.
  destruct (Z.log2_spec m (proj1 Hm)) as [Hlo Hhi]. fold p in Hlo, Hhi.
  assert (Hp0 : 0 <= p) by apply Z.log2_nonneg.
  assert (Hp : p < 23).
  { apply (Z.pow_lt_mono_r_iff 2); lia. }
  assert (Hpow : 2 ^ p * 2 ^ (52 - p) = 2 ^ 52).
  { rewrite <- Z.pow_add_r by lia. f_equal. lia. }
  assert (Hj : 0 < 2 ^ (52 - p)) by (apply Z.pow_pos_nonneg; lia).
  replace (Z.succ p) with (p + 1) in Hhi by lia.
  rewrite Z.pow_add_r in Hhi by lia. change (2 ^ 1) with 2 in Hhi.
  split; [lia|]. split.
  { change (2 ^ 53) with (2 * 2 ^ 52). rewrite <- Hpow. nia. }
  unfold ieee_round. rewrite (proj2 (Z.eqb_neq _ 0)) by lia.
  fold p. cbv zeta. rewrite Z.max_l by lia. unfold round_half_even.
  rewrite (proj2 (Z.leb_le _ 0)) by lia.
  replace (- (p + -149 - 52 - -149)) with (52 - p) by lia. lia.
Qed.

Lemma narrow_subnormal (m p : Z) :
  0 < m -> 0 <= p < 23 -> 2 ^ 52 <= m * 2 ^ (52 - p) < 2 ^ 53 ->
  ieee_round 23 (-126) (m * 2 ^ (52 - p)) (p + 874 - 1075) = m.
Proof.
  intros Hm Hp Hx. unfold ieee_round.
  rewrite (proj2 (Z.eqb_neq _ 0)) by lia.
  rewrite (log2_leading (m * 2 ^ (52 - p)) 52) by (simpl Z.add; lia).
  cbv zeta. rewrite Z.max_r by lia.
  replace (-126 - 23 - (p + 874 - 1075)) with (52 - p) by lia.
  rewrite round_half_even_exact by lia. lia.
Qed.

(** A pattern of binary32 comes back from binary64 as it was, but for that
    of a signaling NaN, which comes back with its quiet bit set. *)
Lemma binary32_round_trip (u : Z) :
  0 <= u < 2 ^ 32 ->
  binary32_of_binary64 (binary64_of_binary32 u)
  = Some (if signaling_nan u then u + 2 ^ 22 else u).
Proof.
  intros Hu.
  destruct (binary32_fields u Hu) as (Hfields & Hs & He & Hm).
  assert (Hbit : Z.testbit u 22
                 = (2 ^ 22 <=? Z.land u (Z.ones 23))).
  { rewrite Z.testbit_eqb by lia. revert Hm. rewrite Z.land_ones by lia.
    intros Hm. change (2 ^ 23) with (2 * 2 ^ 22) in *.
    destruct (Z.leb_spec (2 ^ 22) (u mod (2 * 2 ^ 22)));
      [apply Z.eqb_eq | apply Z.eqb_neq];
      change (2 ^ 22) with 4194304 in *; Z.div_mod_to_equations; lia. }
  unfold signaling_nan. rewrite Hbit. clear Hbit.
  unfold binary64_of_binary32.
  set (s := Z.land (Z.shiftr u 31) 1) in *.
  set (e := Z.land (Z.shiftr u 23) 0xFF) in *.
  set (m := Z.land u (Z.ones 23)) in *.
  cbv zeta. rewrite !Z.shiftl_mul_pow2 by lia.
  assert (Hnarrow : forall e' m' r,
    0 <= e' < 2048 -> 0 <= m' < 2 ^ 52 ->
    (if e' =? 0x7FF
     then if m' =? 0 then Some (s * 2 ^ 31 + 0x7F800000)
          else Some (s * 2 ^ 31 + Z.lor 0x7FC00000 (Z.shiftr m' 29))
     else
       let magnitude :=
         if e' =? 0 then ieee_round 23 (-126) m' (-1074)
         else ieee_round 23 (-126) (2 ^ 52 + m') (e' - 1075) in
       if 0x7F800000 <=? magnitude then None
       else Some (s * 2 ^ 31 + magnitude)) = Some r ->
    binary32_of_binary64 (s * 2 ^ 63 + (e' * 2 ^ 52 + m')) = Some r).
  { intros e' m' r He' Hm' Hr. unfold binary32_of_binary64.
    destruct (binary64_fields s e' m' Hs He' Hm') as (-> & -> & ->).
    now rewrite Z.shiftl_mul_pow2 by lia. }
  destruct (Z.eqb_spec e 0xFF) as [He255 | He255].
  - destruct (Z.eqb_spec m 0) as [Hm0 | Hm0].
    + apply (Hnarrow 0x7FF 0); [lia | lia |]. simpl. f_equal. lia.
    + destruct (Z.leb_spec (2 ^ 22) m) as [Hq | Hq]; simpl andb; cbv iota.
      * change 0x7FF8000000000000 with ((2 * 0x7FF + 1) * 2 ^ 51).
        rewrite (lor_quiet_bit 0x7FF (m * 2 ^ 29) 51)
          by (change (2 ^ (51 + 1)) with (2 ^ 23 * 2 ^ 29);
              change (2 ^ 51) with (2 ^ 22 * 2 ^ 29); lia).
        apply (Hnarrow 0x7FF (m * 2 ^ 29));
          [lia | change (2 ^ 52) with (2 ^ 23 * 2 ^ 29); lia |].
        change (2047 =? 2047) with true. cbv iota.
        rewrite (proj2 (Z.eqb_neq _ 0)) by lia.
        rewrite Z.shiftr_div_pow2, Z.div_mul by lia.
        change 0x7FC00000 with ((2 * 0xFF + 1) * 2 ^ 22).
        rewrite (lor_quiet_bit 0xFF m 22) by (simpl Z.add; lia).
        f_equal. lia.
      * change 0x7FF8000000000000 with (0xFFF * 2 ^ 51).
        rewrite (lor_disjoint 0xFFF (m * 2 ^ 29) 51)
          by (change (2 ^ 51) with (2 ^ 22 * 2 ^ 29); lia).
        replace (0xFFF * 2 ^ 51 + m * 2 ^ 29)
          with (0x7FF * 2 ^ 52 + (2 ^ 22 + m) * 2 ^ 29)
          by (change (2 ^ 52) with (2 * 2 ^ 51);
              change (2 ^ 51) with (2 ^ 22 * 2 ^ 29); lia).
        apply (Hnarrow 0x7FF ((2 ^ 22 + m) * 2 ^ 29));
          [lia | change (2 ^ 52) with (2 ^ 23 * 2 ^ 29); lia |].
        change (2047 =? 2047) with true. cbv iota.
        rewrite (proj2 (Z.eqb_neq _ 0)) by lia.
        rewrite Z.shiftr_div_pow2, Z.div_mul by lia.
        change 0x7FC00000 with ((2 * 0xFF + 1) * 2 ^ 22).
        rewrite (lor_quiet_bit 0xFF (2 ^ 22 + m) 22) by (simpl Z.add; lia).
        f_equal. lia.
  - simpl andb. cbv iota. destruct (Z.eqb_spec e 0) as [He0 | He0].
    + destruct (Z.eq_dec m 0) as [Hm0 | Hm0].
      * rewrite Hm0. apply (Hnarrow 0 0); [lia | lia |].
        change (ieee_round 23 (-126) 0 (-1074)) with 0.
        change (0 =? 2047) with false. change (0 =? 0) with true.
        cbv iota zeta. change (2139095040 <=? 0) with false. cbv iota.
        f_equal. lia.
      * destruct (widen_subnormal m ltac:(lia)) as (Hp & Hx & ->).
        set (p := Z.log2 m) in *.
        replace ((p + 873) * 2 ^ 52 + m * 2 ^ (52 - p))
          with ((p + 874) * 2 ^ 52 + (m * 2 ^ (52 - p) - 2 ^ 52)) by lia.
        apply Hnarrow; [lia | lia |].
        rewrite (proj2 (Z.eqb_neq _ 0x7FF)) by lia.
        rewrite (proj2 (Z.eqb_neq _ 0)) by lia. cbv zeta.
        replace (2 ^ 52 + (m * 2 ^ (52 - p) - 2 ^ 52))
          with (m * 2 ^ (52 - p)) by lia.
        rewrite (narrow_subnormal m p) by lia.
        rewrite (proj2 (Z.leb_gt _ _)) by lia. f_equal. lia.
    + rewrite widen_normal by lia.
      apply Hnarrow; [lia | change (2 ^ 52) with (2 ^ 23 * 2 ^ 29); lia |].
      rewrite (proj2 (Z.eqb_neq _ 0x7FF)) by lia.
      rewrite (proj2 (Z.eqb_neq _ 0)) by lia. cbv zeta.
      rewrite narrow_normal by lia.
      rewrite (proj2 (Z.leb_gt _ _)) by lia. f_equal. lia.
Qed.

(** C5, amended. The codec works on blocks of four bytes whatever the data
    type. For a register of an integer data type, decoding a block of four
    bytes and encoding the value gives the block back, so four bytes and
    not the size of the data type; for the data types UNKNOWN, BOOL, TIME,
    DATE and DATETIME decoding gives null.  For a register of the data type
    FLOAT32, with the float format of IEEE-754 arithmetic, decoding a block
    of four bytes and encoding the value gives the block back too, but for
    the pattern of a signaling NaN, which comes back with its quiet bit
    set. *)
Theorem codec_round_trip_on_four_bytes (register : RegisterEntity.t)
    (block : list Z) :
  bytes_ok block = true ->
  length block = 4%nat ->
  (integer_type (RegisterEntity.data_type register) = true ->
   exists v,
     transform_value_from_bytes env register block = Returns (Some v)
     /\ transform_value_to_bytes env register v = Returns (Some block))
  /\ (valueless_type (RegisterEntity.data_type register) = true ->
      transform_value_from_bytes env register block = Returns None)
  /\ (RegisterEntity.data_type register = FB_DATA_TYPE_FLOAT32 ->
      ieee_struct env ->
      exists v,
        transform_value_from_bytes env register block = Returns (Some v)
        /\ transform_value_to_bytes env register v
           = Returns (Some (if signaling_nan (of_le_bytes block)
                            then le_bytes4 (of_le_bytes block + 2 ^ 22)
                            else block))).
Proof.
  intros Hok Hlen.
  destruct (bytes_ok_four block Hok Hlen) as (b0 & b1 & b2 & b3 & -> & B0 & B1 & B2 & B3).
  pose proof (le_bytes4_of_le_bytes b0 b1 b2 b3 0 B0 B1 B2 B3) as Hu.
  pose proof (le_bytes4_of_le_bytes b0 b1 b2 b3 (-1) B0 B1 B2 B3) as Hs.
  rewrite Z.add_0_r in Hu.
  assert (Hrange : 0 <= of_le_bytes [b0; b1; b2; b3] < 2 ^ 32).
  { unfold of_le_bytes. simpl. lia. }
  unfold transform_value_from_bytes, transform_value_to_bytes, unpack4.
  rewrite Hok. simpl negb. cbv iota.
  split; [|split].
  - intros Hint.
    destruct (RegisterEntity.data_type register); try discriminate Hint;
      clear Hint.
    1-3: (eexists; split; [reflexivity|]; unfold struct_pack_I, as_integer;
          replace ((0 <=? _) && (_ <? 2 ^ 32)) with true
            by (symmetry; apply andb_true_iff; lia);
          now rewrite Hu).
    all: (eexists; split; [reflexivity|]; unfold struct_pack_i, as_integer;
          destruct (Z.ltb_spec (of_le_bytes [b0; b1; b2; b3]) (2 ^ 31));
          [ replace ((- 2 ^ 31 <=? _) && (_ <? 2 ^ 31)) with true
              by (symmetry; apply andb_true_iff; lia);
            now rewrite Hu
          | replace ((- 2 ^ 31 <=? _) && (_ <? 2 ^ 31)) with true
              by (symmetry; apply andb_true_iff; lia);
            replace (of_le_bytes [b0; b1; b2; b3] - 2 ^ 32)
              with (of_le_bytes [b0; b1; b2; b3] + -1 * 2 ^ 32) by lia;
            now rewrite Hs ]).
  - intros Hnone.
    now destruct (RegisterEntity.data_type register); try discriminate Hnone.
  - intros -> [Hunpack Hpack].
    exists (VFloat (binary64_of_binary32 (of_le_bytes [b0; b1; b2; b3]))).
    rewrite Hunpack, Hpack. split; [reflexivity|].
    unfold ieee_pack_f. rewrite (binary32_round_trip _ Hrange).
    destruct (signaling_nan _); [reflexivity|]. now rewrite Hu.
Qed.

(** ** The register store under value updates *)

Lemma same_keys_refl w : same_keys w w.
Proof. reflexivity. Qed.

Lemma same_keys_trans w1 w2 w3 :
  same_keys w1 w2 -> same_keys w2 w3 -> same_keys w1 w3.
Proof. unfold same_keys. congruence. Qed.

Lemma find_register_keys (device : DeviceEntity.t) (ty : RegistersTypes)
    (a : Z) (l1 l2 : list RegisterEntity.t) :
  reg_key <$> l1 = reg_key <$> l2 ->
  fst <$> list_find
    (fun r => RegisterEntity.device_id r = DeviceEntity.id device
              /\ RegisterEntity.address r = a /\ RegisterEntity.type r = ty) l1
  = fst <$> list_find
    (fun r => RegisterEntity.device_id r = DeviceEntity.id device
              /\ RegisterEntity.address r = a /\ RegisterEntity.type r = ty) l2.
Proof.
  revert l2. induction l1 as [|x l1 IH]; intros [|y l2] H; try discriminate;
    [reflexivity|].
  rewrite !fmap_cons in H. unfold reg_key at 1 3 in H.
  injection H as Hid Hd Ha Hty Ht.
  cbn [list_find]. rewrite Hd, Ha, Hty.
  destruct (decide _); [reflexivity|].
  specialize (IH l2 Ht).
  destruct (list_find _ l1) as [[? ?]|], (list_find _ l2) as [[? ?]|];
    simpl in *; congruence.
Qed.

Lemma get_register_by_address_keys w w' device ty a :
  same_keys w w' ->
  get_register_by_address w' device ty a = get_register_by_address w device ty a.
Proof. intros H. now apply find_register_keys. Qed.

Lemma count_registers_keys (device : DeviceEntity.t) (ty : RegistersTypes)
    (l1 l2 : list RegisterEntity.t) :
  reg_key <$> l1 = reg_key <$> l2 ->
  length (filter (fun r => RegisterEntity.device_id r = DeviceEntity.id device
                           /\ RegisterEntity.type r = ty) l1)
  = length (filter (fun r => RegisterEntity.device_id r = DeviceEntity.id device
                             /\ RegisterEntity.type r = ty) l2).
Proof.
  revert l2. induction l1 as [|x l1 IH]; intros [|y l2] H; try discriminate;
    [reflexivity|].
  rewrite !fmap_cons in H. unfold reg_key at 1 3 in H.
  injection H as Hid Hd Ha Hty Ht.
  rewrite !filter_cons, Hd, Hty.
  destruct (decide _); simpl; now rewrite (IH l2 Ht).
Qed.

(** In a store filed by id, an entry is the one found under its id. *)
Lemma list_find_by_id (l : list RegisterEntity.t) (i : nat)
    (x : RegisterEntity.t) :
  NoDup (RegisterEntity.id <$> l) ->
  l !! i = Some x ->
  list_find (fun y => RegisterEntity.id y = RegisterEntity.id x) l = Some (i, x).
Proof.
  intros Hnd Hi. apply list_find_Some. split; [exact Hi|]. split; [reflexivity|].
  intros j y Hj Hlt Heq.
  assert (j = i); [|lia].
  apply (NoDup_lookup _ _ _ (RegisterEntity.id x) Hnd).
  - rewrite list_lookup_fmap, Hj. simpl. now rewrite Heq.
  - now rewrite list_lookup_fmap, Hi.
Qed.

Lemma NoDup_ids_keys w w' :
  same_keys w w' ->
  NoDup (RegisterEntity.id <$> registers w) ->
  NoDup (RegisterEntity.id <$> registers w').
Proof.
  unfold same_keys. intros Hk Hnd.
  assert (E : forall l : list RegisterEntity.t,
             RegisterEntity.id <$> l = (fun k => k.1.1.1) <$> (reg_key <$> l)).
  { intros l. rewrite <- list_fmap_compose. reflexivity. }
  rewrite E in *. now rewrite Hk.
Qed.

(** [update_register_value] on a register of a store filed by id: the
    value is set where the register stands and the change sent upstream. *)
Lemma update_register_value_Ok (ri : nat) (v : Value) (w : Connector)
    (r : RegisterEntity.t) :
  NoDup (RegisterEntity.id <$> registers w) ->
  registers w !! ri = Some r ->
  update_register_value ri v w
  = Ok tt (with_upstream
             (upstream w ++ [send_channel_property_to_storage
                               (RegisterEntity.id r) v (RegisterEntity.value r)])
             (with_registers (<[ri := RegisterEntity.set_value v r]> (registers w)) w)).
Proof.
  intros Hnd Hr. unfold update_register_value.
  unfold mbind at 1, M_bind at 1, get. rewrite Hr.
  unfold mbind at 1, M_bind at 1, modify.
  unfold mbind at 1, M_bind at 1, get.
  set (r' := RegisterEntity.set_value v r).
  set (w1 := with_registers _ w).
  assert (Hlt : (ri < length (registers w))%nat) by now apply lookup_lt_Some in Hr.
  assert (H1 : registers w1 !! ri = Some r') by now apply list_lookup_insert_eq.
  assert (Hk : same_keys w w1).
  { unfold same_keys, w1. simpl. rewrite list_fmap_insert.
    apply list_insert_id. now rewrite list_lookup_fmap, Hr. }
  rewrite (list_find_by_id _ _ _ (NoDup_ids_keys _ _ Hk Hnd) H1).
  unfold mbind at 1, M_bind at 1. unfold w1 at 1. simpl registers.
  rewrite list_insert_insert_eq. reflexivity.
Qed.

(** ** Bits of a payload byte *)

Lemma bit_of_cons_S c bits i : bit_of (c :: bits) (S i) = bit_of bits i.
Proof. reflexivity. Qed.

Lemma bit_of_zeros n i : bit_of (replicate n 0) i = false.
Proof.
  unfold bit_of. destruct (replicate n 0 !! i) as [c|] eqn:E; [|reflexivity].
  apply lookup_replicate in E as [-> _]. reflexivity.
Qed.

Lemma bin_digits_bit (p : positive) (n i : nat) :
  bit_of (bin_digits p ++ replicate n 0) i = Z.testbit (Zpos p) (Z.of_nat i).
Proof.
  revert i. induction p as [p IH|p IH|]; intros [|i]; simpl bin_digits;
    try reflexivity.
  - rewrite <- app_comm_cons, bit_of_cons_S, IH, Nat2Z.inj_succ.
    rewrite Pos2Z.inj_xI. now rewrite Z.testbit_odd_succ by lia.
  - rewrite <- app_comm_cons, bit_of_cons_S, IH, Nat2Z.inj_succ.
    rewrite Pos2Z.inj_xO. now rewrite Z.testbit_even_succ by lia.
  - simpl app. rewrite bit_of_cons_S, bit_of_zeros, Nat2Z.inj_succ.
    change 1 with (2 * 0 + 1). rewrite Z.testbit_odd_succ by lia.
    now rewrite Z.testbit_0_l.
Qed.

(** The entries of [data_byte] are the bits of the byte, lowest first. *)
Lemma data_byte_bit (b : Z) (i : nat) :
  0 <= b -> bit_of (data_byte b) i = Z.testbit b (Z.of_nat i).
Proof.
  intros Hb. unfold data_byte. destruct b as [|p|p]; [|apply bin_digits_bit|lia].
  rewrite Z.testbit_0_l. change ([0] ++ replicate (8 - length [0]) 0)
    with (replicate 8 0). apply bit_of_zeros.
Qed.

Lemma data_byte_length (b : Z) : (8 <= length (data_byte b))%nat.
Proof. unfold data_byte. rewrite length_app, length_replicate. lia. Qed.

(** ** The digital branch of the read-multiple-registers receiver *)

Lemma get_register_by_address_Some w device ty a ri :
  get_register_by_address w device ty a = Some ri ->
  exists r, registers w !! ri = Some r /\ RegisterEntity.address r = a.
Proof.
  unfold get_register_by_address. intros H.
  destruct (list_find _ _) as [[j r]|] eqn:Hf; [|discriminate].
  simpl in H. injection H as ->. apply list_find_Some in Hf.
  exists r. tauto.
Qed.

Lemma updated_between_empty device ty w lo bit :
  updated_between device ty w w lo lo bit.
Proof.
  split; [apply same_keys_refl|]. split; [reflexivity|].
  intros a ri _. split; [lia|reflexivity].
Qed.

Lemma updated_between_compose device ty w w1 w2 lo mid hi f g h :
  updated_between device ty w w1 lo mid f ->
  updated_between device ty w1 w2 mid hi g ->
  lo <= mid <= hi ->
  (forall a, lo <= a < mid -> h a = f a) ->
  (forall a, mid <= a < hi -> h a = g a) ->
  updated_between device ty w w2 lo hi h.
Proof.
  intros (K1 & D1 & U1) (K2 & D2 & U2) Hord Hf Hg.
  split; [eapply same_keys_trans; eassumption|]. split; [congruence|].
  intros a ri Hri.
  assert (Hri1 : get_register_by_address w1 device ty a = Some ri)
    by now rewrite (get_register_by_address_keys _ _ _ _ _ K1).
  destruct (U1 a ri Hri) as [U1a U1b]. destruct (U2 a ri Hri1) as [U2a U2b].
  split.
  - intros Ha. destruct (decide (a < mid)) as [Hlt|Hge].
    + destruct U1a as (r & Hr & Hv); [lia|]. exists r.
      rewrite U2b by lia. split; [exact Hr|]. now rewrite Hf by lia.
    + destruct U2a as (r & Hr & Hv); [lia|]. exists r.
      split; [exact Hr|]. now rewrite Hg by lia.
  - intros Ha. rewrite U2b by lia. apply U1b. lia.
Qed.

(** The visit of one address by the body of the inner loop. *)
Lemma visit_address device ty w a (v : bool) :
  NoDup (RegisterEntity.id <$> registers w) ->
  exists w',
    match get_register_by_address w device ty a with
    | Some ri => update_register_value ri (VBool v) w
    | None => Ok tt w
    end = Ok tt w'
    /\ updated_between device ty w w' a (a + 1) (fun _ => v).
Proof.
  intros Hnd. destruct (get_register_by_address w device ty a) as [ri|] eqn:Hri.
  - destruct (get_register_by_address_Some _ _ _ _ _ Hri) as (r & Hr & Ha).
    rewrite (update_register_value_Ok ri _ w r Hnd Hr).
    eexists. split; [reflexivity|].
    assert (Hlt : (ri < length (registers w))%nat) by now apply lookup_lt_Some in Hr.
    split; [|split; [reflexivity|]].
    + unfold same_keys. simpl. rewrite list_fmap_insert.
      apply list_insert_id. now rewrite list_lookup_fmap, Hr.
    + intros a' ri' Hri'. simpl registers. split.
      * intros Ha'. assert (a' = a) as -> by lia.
        assert (ri' = ri) as -> by congruence.
        eexists. split; [now apply list_lookup_insert_eq|reflexivity].
      * intros Ha'.
        destruct (get_register_by_address_Some _ _ _ _ _ Hri') as (r' & Hr' & Ha'').
        apply list_lookup_insert_ne. intros ->. rewrite Hr in Hr'.
        injection Hr' as <-. lia.
  - exists w. split; [reflexivity|].
    split; [apply same_keys_refl|]. split; [reflexivity|].
    intros a' ri' Hri'. split; [|reflexivity].
    intros Ha'. assert (a' = a) as -> by lia. congruence.
Qed.

(** The inner loop over the bits [s .. s+n-1] of a byte, from the register
    address [addr]: it stops at [addr + n], or earlier at the first address
    that is not below the register count. *)
Lemma digital_bits_outcome device ty registers_count bits (n : nat) :
  forall (s : nat) (addr : Z) (w : Connector),
    NoDup (RegisterEntity.id <$> registers w) ->
    (s + n <= length bits)%nat ->
    exists addr' w',
      digital_bits (seq s n) bits device ty registers_count addr w
      = Ok addr' w'
      /\ updated_between device ty w w' addr addr'
           (fun a => bit_of bits (s + Z.to_nat (a - addr)))
      /\ addr <= addr' <= addr + Z.of_nat n
      /\ (addr' < addr + Z.of_nat n -> registers_count <= addr').
Proof.
  induction n as [|n IH]; intros s addr w Hnd Hlen.
  - exists addr, w. split; [reflexivity|].
    split; [apply updated_between_empty|]. lia.
  - simpl seq. simpl digital_bits.
    unfold mbind at 1, M_bind at 1, get.
    destruct (lookup_lt_is_Some_2 bits s ltac:(lia)) as [c Hc].
    destruct (visit_address device ty w addr (negb (Z.land c 1 =? 0)) Hnd)
      as (w1 & Hvisit & Hup1).
    assert (Hstep :
      (match get_register_by_address w device ty addr with
       | Some register =>
           (match bits !! s with
            | Some c => mret c
            | None => raise IndexError
            end) ≫= fun bit : Z =>
             update_register_value register (VBool (negb (Z.land bit 1 =? 0)))
       | None => mret tt
       end) w = Ok tt w1).
    { rewrite Hc. destruct (get_register_by_address w device ty addr);
        [rewrite bind_ret|]; exact Hvisit. }
    rewrite (bind_Ok _ _ _ _ _ Hstep).
    assert (Hbit0 : forall a, addr <= a < addr + 1 ->
              bit_of bits (s + Z.to_nat (a - addr)) = negb (Z.land c 1 =? 0)).
    { intros a Ha. replace (a - addr) with 0 by lia.
      rewrite Nat.add_0_r. unfold bit_of. now rewrite Hc. }
    destruct (Z.leb_spec registers_count (addr + 1)) as [Hbreak|Hgo].
    + exists (addr + 1), w1. split; [reflexivity|]. split; [|lia].
      eapply updated_between_compose;
        [exact Hup1|apply (updated_between_empty _ _ _ _ (fun _ => true))
        |lia|exact Hbit0|lia].
    + assert (Hnd1 : NoDup (RegisterEntity.id <$> registers w1))
        by (eapply NoDup_ids_keys; [apply Hup1|exact Hnd]).
      destruct (IH (S s) (addr + 1) w1 Hnd1 ltac:(lia))
        as (addr' & w' & Hrun & Hup & Hrange & Hstop).
      exists addr', w'. split; [exact Hrun|]. split; [|lia].
      eapply updated_between_compose; [exact Hup1|exact Hup|lia|exact Hbit0|].
      intros a Ha. cbv beta. f_equal. lia.
Qed.

Lemma payload_at_Ok (payload : list Z) (i b : Z) (w : Connector) :
  0 <= i -> payload !! Z.to_nat i = Some b -> payload_at payload i w = Ok b w.
Proof.
  intros Hi Hb. unfold payload_at.
  destruct (Z.ltb_spec i 0); [lia|]. now rewrite Hb.
Qed.

(** The outer loop over the payload bytes from [position_byte], from the
    register address [addr]: the registers found at lower addresses are as
    they were; a register found at an address below the register count
    holds bit [i] of the byte [k] bytes on, where the address is
    [addr + 8 k + i]. *)
Lemma digital_bytes_outcome device ty registers_count payload payload_length
    (rounds : nat) :
  forall (position_byte addr : Z) (w : Connector),
    NoDup (RegisterEntity.id <$> registers w) ->
    0 <= position_byte ->
    payload_length <= Z.of_nat (length payload) ->
    Forall (fun b => 0 <= b) payload ->
    payload_length - 1 - position_byte <= Z.of_nat rounds ->
    exists w',
      digital_bytes rounds payload payload_length device ty registers_count
        position_byte addr w = Ok tt w'
      /\ same_keys w w' /\ devices w' = devices w
      /\ forall a ri,
           get_register_by_address w device ty a = Some ri ->
           (a < addr -> registers w' !! ri = registers w !! ri)
           /\ (forall k i b,
                 0 <= k -> 0 <= i < 8 -> a = addr + 8 * k + i ->
                 a < registers_count ->
                 position_byte + k < payload_length - 1 ->
                 payload !! Z.to_nat (position_byte + k) = Some b ->
                 exists r, registers w' !! ri = Some r
                           /\ RegisterEntity.value r = VBool (Z.testbit b i)).
Proof.
  induction rounds as [|rounds IH];
    intros position_byte addr w Hnd Hpos Hlen Hbytes Hrounds.
  - exists w. split; [reflexivity|]. split; [apply same_keys_refl|].
    split; [reflexivity|]. intros a ri _. split; [reflexivity|]. lia.
  - simpl digital_bytes.
    destruct (Z.ltb_spec position_byte (payload_length - 1)) as [Hin|Hout].
    2:{ exists w. split; [reflexivity|]. split; [apply same_keys_refl|].
        split; [reflexivity|]. intros a ri _. split; [reflexivity|]. lia. }
    destruct (lookup_lt_is_Some_2 payload (Z.to_nat position_byte) ltac:(lia))
      as [b Hb].
    rewrite (bind_Ok _ _ _ _ _ (payload_at_Ok _ _ _ w Hpos Hb)).
    assert (Hb0 : 0 <= b).
    { rewrite Forall_forall in Hbytes. apply Hbytes.
      eapply list_elem_of_lookup_2. exact Hb. }
    destruct (digital_bits_outcome device ty registers_count (data_byte b) 8
                0%nat addr w Hnd (data_byte_length b))
      as (addr1 & w1 & Hrun1 & Hup1 & Hrange1 & Hstop1).
    rewrite (bind_Ok _ _ _ _ _ Hrun1).
    destruct Hup1 as (K1 & D1 & U1).
    assert (Hnd1 : NoDup (RegisterEntity.id <$> registers w1))
      by (eapply NoDup_ids_keys; [exact K1|exact Hnd]).
    destruct (IH (position_byte + 1) addr1 w1 Hnd1 ltac:(lia) Hlen Hbytes
                ltac:(lia))
      as (w' & Hrun & K2 & D2 & U2).
    exists w'. split; [exact Hrun|].
    split; [eapply same_keys_trans; eassumption|]. split; [congruence|].
    intros a ri Hri.
    assert (Hri1 : get_register_by_address w1 device ty a = Some ri)
      by now rewrite (get_register_by_address_keys _ _ _ _ _ K1).
    destruct (U1 a ri Hri) as [U1a U1b]. destruct (U2 a ri Hri1) as [U2a U2b].
    split.
    + intros Ha. rewrite U2a by lia. apply U1b. lia.
    + intros k i b' Hk Hi -> Hcount Hk' Hb'.
      destruct (decide (k = 0)) as [->|Hk0].
      * rewrite Z.add_0_r in Hb'. rewrite Hb in Hb'. injection Hb' as <-.
        destruct U1a as (r & Hr & Hv); [lia|]. exists r.
        rewrite U2a by lia. split; [exact Hr|]. rewrite Hv.
        rewrite data_byte_bit by exact Hb0. do 2 f_equal. lia.
      * assert (addr1 = addr + 8) as -> by lia.
        apply (U2b (k - 1) i b'); try lia.
        now replace (position_byte + 1 + (k - 1)) with (position_byte + k) by lia.
Qed.

Lemma bytes_ok_nonneg (payload : list Z) :
  bytes_ok payload = true -> Forall (fun b => 0 <= b) payload.
Proof.
  unfold bytes_ok. intros H. apply Forall_forall. intros b Hb.
  rewrite forallb_forall in H. apply list_elem_of_In in Hb.
  specialize (H b Hb). apply andb_true_iff in H. lia.
Qed.

(** C4. A READ_MULTIPLE_REGISTERS response for a digital register type with
    start address [s]: for every data byte [k] within the payload length
    and every bit index [i] of 0..7 with [s + 8 k + i] below the device's
    register count of that type, the register at that address holds bit
    [i] of the byte, lowest bit first.  The registers are filed by id. *)
Theorem digital_read_sets_registers_bitwise (w : Connector)
    (sender_address : option Z) (di : nat) (device : DeviceEntity.t)
    (identifier hi lo bytes_length : Z) (ty : RegistersTypes) (data : list Z)
    (payload_length : Z) :
  let payload :=
    identifier :: RegistersTypes_value ty :: hi :: lo :: bytes_length :: data in
  let s := Z.lor (Z.shiftl hi 8) lo in
  let registers_count :=
    Z.of_nat (length (get_registers_by_type w device ty)) in
  NoDup (RegisterEntity.id <$> registers w) ->
  get_device_by_address w sender_address = Some di ->
  devices w !! di = Some device ->
  ty = FB_REGISTER_DI \/ ty = FB_REGISTER_DO ->
  bytes_ok payload = true ->
  payload_length <= Z.of_nat (length payload) ->
  exists w',
    ReadingHandler_receive env FB_PACKET_READ_MULTIPLE_REGISTERS sender_address
      payload payload_length w = Ok tt w'
    /\ forall (k : nat) (i b : Z) (ri : nat),
         data !! k = Some b ->
         5 + Z.of_nat k < payload_length - 1 ->
         0 <= i < 8 ->
         s + 8 * Z.of_nat k + i < registers_count ->
         get_register_by_address w device ty (s + 8 * Z.of_nat k + i) = Some ri ->
         get_register_by_address w' device ty (s + 8 * Z.of_nat k + i) = Some ri
         /\ exists r, registers w' !! ri = Some r
                      /\ RegisterEntity.value r = VBool (Z.testbit b i).
Proof.
  intros payload s registers_count Hnd Hdi Hdev Hty Hok Hlen.
  unfold ReadingHandler_receive, read_multiple_registers_receiver.
  unfold mbind at 1, M_bind at 1, get. rewrite Hdi.
  rewrite (bind_Ok _ _ _ _ _ (deref_Ok _ _ _ Hdev)).
  rewrite (bind_Ok _ _ _ _ _ (payload_at_Ok payload 1 _ w ltac:(lia) eq_refl)).
  assert (Hof : RegistersTypes_of_value (RegistersTypes_value ty) = Some ty)
    by now destruct ty.
  rewrite Hof.
  rewrite (bind_Ok _ _ _ _ _ (payload_at_Ok payload 2 _ w ltac:(lia) eq_refl)).
  rewrite (bind_Ok _ _ _ _ _ (payload_at_Ok payload 3 _ w ltac:(lia) eq_refl)).
  rewrite (bind_Ok _ _ _ _ _ (payload_at_Ok payload 4 _ w ltac:(lia) eq_refl)).
  fold s.
  destruct (digital_bytes_outcome device ty registers_count payload
              payload_length (Z.to_nat (payload_length - 1 - 5)) 5 s w Hnd
              ltac:(lia) Hlen (bytes_ok_nonneg _ Hok) ltac:(lia))
    as (w1 & Hrun & K & D & U).
  assert (Hloop :
    (match ty with
     | FB_REGISTER_DI | FB_REGISTER_DO =>
         get ≫= fun w0 : Connector =>
           digital_bytes (Z.to_nat (payload_length - 1 - 5)) payload
             payload_length device ty
             (Z.of_nat (length (get_registers_by_type w0 device ty))) 5 s
     | FB_REGISTER_AI | FB_REGISTER_AO =>
         analog_words env (Z.to_nat (payload_length - 1 - 5)) payload
           payload_length device ty 5 s
     end) w = Ok tt w1).
  { destruct Hty as [-> | ->]; exact Hrun. }
  rewrite (bind_Ok _ _ _ _ _ Hloop).
  assert (Hdev1 : devices w1 !! di = Some device) by now rewrite D.
  rewrite (bind_Ok _ _ _ _ _ (call_Ok _ _ _ _ Hdev1)).
  set (d' := DeviceEntity.reset_communication device).
  set (w2 := with_devices _ w1).
  assert (Hdev2 : devices w2 !! di = Some d').
  { apply list_lookup_insert_eq. now apply lookup_lt_Some in Hdev1. }
  destruct (update_device_Ok di w2 d' Hdev2) as (ds & Hup & _).
  exists (with_devices ds w2). split; [exact Hup|].
  intros k i b ri Hb Hk Hi Hcount Hri.
  split.
  - rewrite <- Hri. now apply (find_register_keys device ty _ (registers w1)).
  - destruct (U _ ri Hri) as [_ Uhit].
    apply (Uhit (Z.of_nat k) i b); try lia; try reflexivity.
    replace (Z.to_nat (5 + Z.of_nat k)) with (5 + k)%nat by lia. exact Hb.
Qed.

End Properties.

(** * The properties at concrete connectors *)

(** C7, at a device with packets of at most 12 bytes and three device
    settings: a descriptor of 12 bytes does not fit the 7 bytes left, the
    floor of 7 / 12 is 0, and the request asks for 1 setting per packet. *)
Theorem settings_page_count_is_rounded :
  max_readable_settings_count (single_device STATE_INIT 12) FB_SETTINGS_DEVICE = 1
  /\ (12 - 5) / 12 = 0
  /\ exists w',
       send_provide_settings_structure_handler (silent_env 0) 5 0
         (single_device_connector STATE_INIT 12 0) = Ok tt w'
       /\ sent w' = [(7, [0x01; 0x0C; 0x01; 0; 0; 0; 1; 0])].
Proof.
  split; [reflexivity|]. split; [reflexivity|].
  eexists. split; vm_compute; reflexivity.
Qed.

(** The device at address 7 after five attempts, at clock reading 1000. *)
Lemma exhausted_attempts_mark_lost_witness :
  exists w' d',
    CheckingHandler_handle (silent_env 1000) 5 0 exhausted_connector = Ok tt w'
    /\ devices w' !! 0%nat = Some d'
    /\ DeviceEntity.state d' = STATE_LOST
    /\ DeviceEntity.attempts d' = 0
    /\ sent w' = [].
Proof.
  destruct (exhausted_attempts_mark_lost (silent_env 1000) 5 exhausted_connector
              0 (DeviceEntity.with_attempts 5 (single_device STATE_RUNNING 24)))
    as (w' & d' & Hrun & Hd & Hst & _ & _ & _ & Hatt & _ & Hsent).
  - reflexivity.
  - vm_compute. discriminate.
  - reflexivity.
  - reflexivity.
  - exists w', d'. repeat split; assumption.
Defined.

(** A PONG from the lost device at address 7. *)
Lemma pong_marks_alive_witness :
  exists w' d',
    CheckingHandler_receive (silent_env 0) FB_PACKET_PONG (Some 7) [0x15; 0x00] 2
      (single_device_connector STATE_LOST 24 0) = Ok tt w'
    /\ devices w' !! 0%nat = Some d'
    /\ DeviceEntity.state d' = STATE_UNKNOWN
    /\ DeviceEntity.lost_timestamp d' = 0%Q.
Proof.
  destruct (pong_marks_alive (silent_env 0) 5
              (single_device_connector STATE_LOST 24 0) 7 0 [0x15; 0x00] 2)
    as (w' & d' & Hrun & Hd & Hst & Hlost & _).
  - reflexivity.
  - exists w', d'. repeat split; assumption.
Defined.

(** The read burst of the scenario: bits 5 and 6 of the first data byte and
    bit 1 of the second, at the addresses 5, 6 and 9. *)
Lemma digital_read_sets_registers_bitwise_witness :
  exists w',
    ReadingHandler_receive (silent_env 0) FB_PACKET_READ_MULTIPLE_REGISTERS
      (Some 7) ([0x05; 0x01; 0x00; 0x00; 0x02] ++ read_burst_data) 8
      (single_device_connector STATE_RUNNING 24 10) = Ok tt w'
    /\ (exists r, registers w' !! 5%nat = Some r
                  /\ RegisterEntity.value r = VBool true)
    /\ (exists r, registers w' !! 6%nat = Some r
                  /\ RegisterEntity.value r = VBool false)
    /\ (exists r, registers w' !! 9%nat = Some r
                  /\ RegisterEntity.value r = VBool true).
Proof.
  destruct (digital_read_sets_registers_bitwise (silent_env 0)
              (single_device_connector STATE_RUNNING 24 10) (Some 7) 0
              (single_device STATE_RUNNING 24) 0x05 0x00 0x00 0x02
              FB_REGISTER_DI read_burst_data 8)
    as (w' & Hrun & Hbits).
  - apply (bool_decide_unpack _). vm_compute. reflexivity.
  - reflexivity.
  - reflexivity.
  - now left.
  - reflexivity.
  - vm_compute. discriminate.
  - exists w'. split; [exact Hrun|]. repeat split.
    + apply (Hbits 0%nat 5 165 5%nat); try reflexivity; try lia.
    + apply (Hbits 0%nat 6 165 6%nat); try reflexivity; try lia.
    + apply (Hbits 1%nat 1 3 9%nat); try reflexivity; try lia.
Defined.

(** The read burst of the specification's scenario, in full: ten digital
    inputs, data bytes 0b10100101 and 0b00000011. *)
Example digital_read_burst :
  exists w',
    ReadingHandler_receive (silent_env 0) FB_PACKET_READ_MULTIPLE_REGISTERS
      (Some 7) ([0x05; 0x01; 0x00; 0x00; 0x02] ++ read_burst_data) 8
      (single_device_connector STATE_RUNNING 24 10) = Ok tt w'
    /\ RegisterEntity.value <$> registers w'
       = VBool <$> [true; false; true; false; false; true; false; true; true; true].
Proof. eexists. split; vm_compute; reflexivity. Qed.

(** A register of the data type UINT8 has the size 1; the codec refuses a
    block of one byte, and gives back four bytes for a block of four.  A
    register of the data type BOOL decodes to null, as one of UNKNOWN.  On
    a register of the data type FLOAT32 the signaling NaN 7F800001 comes
    back as the quiet NaN 7FC00001. *)
Lemma codec_round_trip_counterexample :
  let u8 := RegisterEntity.init 400%N "key" 50%N 1%N 0 FB_REGISTER_AO
              FB_DATA_TYPE_UINT8 in
  let bool := RegisterEntity.init 401%N "key" 50%N 1%N 1 FB_REGISTER_AO
                FB_DATA_TYPE_BOOL in
  let f32 := RegisterEntity.init 403%N "key" 50%N 1%N 3 FB_REGISTER_AO
               FB_DATA_TYPE_FLOAT32 in
  RegisterEntity.size u8 = 1
  /\ transform_value_from_bytes (silent_env 0) u8 [7] = Raises StructError
  /\ transform_value_from_bytes (silent_env 0) u8 [7; 0; 0; 0]
     = Returns (Some (VInt 7))
  /\ transform_value_to_bytes (silent_env 0) u8 (VInt 7)
     = Returns (Some [7; 0; 0; 0])
  /\ RegisterEntity.size bool = 1
  /\ transform_value_from_bytes (silent_env 0) bool [1] = Returns None
  /\ transform_value_from_bytes ieee_env f32 [0x01; 0x00; 0x80; 0x7F]
     = Returns (Some (VFloat 0x7FF8000020000000))
  /\ transform_value_to_bytes ieee_env f32 (VFloat 0x7FF8000020000000)
     = Returns (Some [0x01; 0x00; 0xC0; 0x7F]).
Proof. repeat split; vm_compute; reflexivity. Qed.

(** The block FE FF FF FF on a register of the data type INT16, and the
    block 00 00 80 3F, the number one, on a register of the data type
    FLOAT32. *)
Lemma codec_round_trip_on_four_bytes_witness :
  let i16 := RegisterEntity.init 402%N "key" 50%N 1%N 2 FB_REGISTER_AO
               FB_DATA_TYPE_INT16 in
  let f32 := RegisterEntity.init 403%N "key" 50%N 1%N 3 FB_REGISTER_AO
               FB_DATA_TYPE_FLOAT32 in
  (exists v,
     transform_value_from_bytes (silent_env 0) i16 [0xFE; 0xFF; 0xFF; 0xFF]
     = Returns (Some v)
     /\ transform_value_to_bytes (silent_env 0) i16 v
        = Returns (Some [0xFE; 0xFF; 0xFF; 0xFF]))
  /\ (exists v,
        transform_value_from_bytes ieee_env f32 [0x00; 0x00; 0x80; 0x3F]
        = Returns (Some v)
        /\ v = VFloat 0x3FF0000000000000
        /\ transform_value_to_bytes ieee_env f32 v
           = Returns (Some [0x00; 0x00; 0x80; 0x3F])).
Proof.
  intros i16 f32. split.
  - destruct (codec_round_trip_on_four_bytes (silent_env 0) i16
                [0xFE; 0xFF; 0xFF; 0xFF]) as [Hint _].
    + reflexivity.
    + reflexivity.
    + apply Hint. reflexivity.
  - destruct (codec_round_trip_on_four_bytes ieee_env f32
                [0x00; 0x00; 0x80; 0x3F]) as (_ & _ & Hfloat).
    + reflexivity.
    + reflexivity.
    + destruct (Hfloat eq_refl) as (v & Hfrom & Hto).
      * split; intros; reflexivity.
      * exists v. split; [exact Hfrom|]. split; [|exact Hto].
        assert (H : Returns (Some v)
                    = Returns (Some (VFloat 0x3FF0000000000000)))
          by (rewrite <- Hfrom; vm_compute; reflexivity).
        now injection H.
Defined.

(** A write to the digital input at address 0 of a running device. *)
Lemma write_to_input_register_is_dropped_witness :
  write_value_to_register (silent_env 0) 5
    (RegisterEntity.init 100%N "key" 50%N 1%N 0 FB_REGISTER_DI FB_DATA_TYPE_BOOL)
    (VBool true) (single_device_connector STATE_RUNNING 24 10)
  = Ok tt (single_device_connector STATE_RUNNING 24 10).
Proof.
  apply write_to_input_register_is_dropped; discriminate.
Defined.

(** A link that never acknowledges: with a waiting time of one second and a
    clock that advances a second per reading, [send_packet] returns false
    after one poll. *)
Lemma send_packet_unacknowledged_counterexample :
  exists w',
    send_packet (silent_env 0) 5 7 [0x13; 0x00] 1 empty_connector = Ok false w'
    /\ sent w' = [(7, [0x13; 0x00])].
Proof. eexists. split; vm_compute; reflexivity. Qed.

(** A PING frame to address 7: no wait, and a wait of one second on a link
    that never acknowledges. *)
Lemma send_packet_returns_whether_acknowledged_witness :
  send_packet (silent_env 0) 5 7 [0x13; 0x00] 0 empty_connector
  = Ok true (with_sent [(7, [0x13; 0x00])] empty_connector)
  /\ exists w',
       send_packet (silent_env 0) 5 7 [0x13; 0x00] 1 empty_connector
       = Ok false w'.
Proof.
  destruct (send_packet_returns_whether_acknowledged (silent_env 0) 5
              empty_connector 7 [0x13; 0x00] 0 FB_PACKET_PING [0x00])
    as [Hnow _]; [reflexivity|reflexivity|].
  destruct (send_packet_returns_whether_acknowledged (silent_env 0) 5
              empty_connector 7 [0x13; 0x00] 1 FB_PACKET_PING [0x00])
    as [_ Hwait]; [reflexivity|reflexivity|].
  split.
  - apply Hnow. vm_compute. discriminate.
  - destruct (Hwait 1%nat) as [_ Hout].
    + reflexivity.
    + lia.
    + intros j Hj. assert (j = 0%nat) as -> by lia. split.
      * vm_compute. discriminate.
      * exists 0, 0. split; [reflexivity|]. vm_compute. discriminate.
    + destruct Hout as (w' & Hrun & _).
      * vm_compute. intros H. apply H. reflexivity.
      * exists w'. exact Hrun.
Defined.

(** A toggle of the digital output that was never set. *)
Lemma publish_toggle_negates_witness :
  exists commanded : bool,
    publish (silent_env 0) 5 300%N (VStr "toggle") toggle_connector
    = write_value_to_register (silent_env 0) 5 toggle_register (VBool commanded)
        toggle_connector
    /\ commanded = true.
Proof.
  destruct (publish_toggle_negates (silent_env 0) 5 toggle_connector 300%N
              [] [] toggle_register) as (commanded & Hrun & _ & Hnone).
  - reflexivity.
  - constructor.
  - constructor.
  - reflexivity.
  - reflexivity.
  - exists commanded. split; [exact Hrun|]. apply Hnone. reflexivity.
Defined.

(** The frames of a toggle: a digital output that holds true is written
    false (00 00), one never set is written true (FF 00). *)
Example publish_toggle_frames :
  (exists w',
     publish (silent_env 0) 5 300%N (VStr "toggle") toggle_connector = Ok tt w'
     /\ sent w' = [(7, [0x07; 0x02; 0x00; 0x00; 0xFF; 0x00; 0x00])])
  /\ (exists w',
        publish (silent_env 0) 5 300%N (VStr "toggle")
          (with_registers [RegisterEntity.set_value (VBool true) toggle_register]
             toggle_connector) = Ok tt w'
        /\ sent w' = [(7, [0x07; 0x02; 0x00; 0x00; 0x00; 0x00; 0x00])]).
Proof. split; eexists; split; vm_compute; reflexivity. Qed.

(** * Properties of the rest of the connector *)

(** ** Text fields and data types *)

Lemma py_getitem_nonneg (payload : list Z) (i : Z) :
  0 <= i ->
  py_getitem payload i
  = match payload !! Z.to_nat i with
    | Some b => Returns b
    | None => Raises IndexError
    end.
Proof.
  intros Hi. unfold py_getitem.
  destruct (Z.ltb_spec i 0); [lia|]. destruct (Z.ltb_spec i 0); [lia|].
  reflexivity.
Qed.

Lemma find_space_loop_first (payload : list Z) (k : nat) :
  forall start : Z,
    0 <= start ->
    start + Z.of_nat k = Z.of_nat (length payload) ->
    exists r,
      find_space_loop payload (seqZ start (Z.of_nat k)) = Returns r
      /\ ((r = -1
           /\ forall (i : nat) b, start <= Z.of_nat i -> payload !! i = Some b ->
                                  b <> 0x20)
          \/ (start <= r
              /\ payload !! Z.to_nat r = Some 0x20
              /\ forall (i : nat) b, start <= Z.of_nat i < r ->
                                     payload !! i = Some b -> b <> 0x20)).
Proof.
  induction k as [|k IH]; intros start Hstart Hlen.
  - exists (-1). split; [reflexivity|]. left. split; [reflexivity|].
    intros i b Hi Hb. apply lookup_lt_Some in Hb. lia.
  - rewrite seqZ_cons by lia. simpl find_space_loop.
    rewrite py_getitem_nonneg by lia.
    destruct (lookup_lt_is_Some_2 payload (Z.to_nat start) ltac:(lia)) as [b Hb].
    rewrite Hb. change (PacketsContents_value FB_CONTENT_DATA_SPACE) with 0x20.
    destruct (Z.eqb_spec b 0x20) as [->|Hne].
    + exists start. split; [reflexivity|]. right.
      split; [lia|]. split; [exact Hb|]. intros i b' Hi. lia.
    + replace (Z.pred (Z.of_nat (S k))) with (Z.of_nat k) by lia.
      destruct (IH (Z.succ start) ltac:(lia) ltac:(lia)) as (r & Hr & Hspec).
      exists r. split; [exact Hr|].
      assert (Hhere : forall (i : nat) b', Z.of_nat i = start ->
                payload !! i = Some b' -> b' <> 0x20).
      { intros i b' Hi Hb'. replace (Z.to_nat start) with i in Hb by lia.
        congruence. }
      destruct Hspec as [(-> & Hnone)|(Hle & Hat & Hbefore)].
      * left. split; [reflexivity|]. intros i b' Hi Hb'.
        destruct (decide (Z.of_nat i = start)); [eauto|].
        apply (Hnone i b'); [lia|exact Hb'].
      * right. split; [lia|]. split; [exact Hat|]. intros i b' Hi Hb'.
        destruct (decide (Z.of_nat i = start)); [eauto|].
        apply (Hbefore i b'); [lia|exact Hb'].
Qed.

(** X1. [find_space_in_payload] from a start that is not negative gives -1
    when no byte from the start on is a space, and otherwise the index of
    the first space from the start on. *)
Theorem find_space_in_payload_first (payload : list Z) (start : Z) :
  0 <= start ->
  exists r,
    find_space_in_payload payload start = Returns r
    /\ ((r = -1
         /\ forall (i : nat) b, start <= Z.of_nat i -> payload !! i = Some b ->
                                b <> 0x20)
        \/ (start <= r
            /\ payload !! Z.to_nat r = Some 0x20
            /\ forall (i : nat) b, start <= Z.of_nat i < r ->
                                   payload !! i = Some b -> b <> 0x20)).
Proof.
  intros Hstart. unfold find_space_in_payload, py_range.
  destruct (Z_le_gt_dec start (Z.of_nat (length payload))) as [Hle|Hgt].
  - replace (Z.of_nat (length payload) - start)
      with (Z.of_nat (Z.to_nat (Z.of_nat (length payload) - start))) by lia.
    apply find_space_loop_first; lia.
  - rewrite seqZ_nil by lia. exists (-1). split; [reflexivity|]. left.
    split; [reflexivity|]. intros i b Hi Hb. apply lookup_lt_Some in Hb. lia.
Qed.

Lemma chr_ord (c : Ascii.ascii) : chr (ord c) = Returns c.
Proof.
  unfold chr, ord. pose proof (Ascii.N_ascii_bounded c) as Hb.
  replace ((0 <=? Z.of_N (Ascii.N_of_ascii c))
           && (Z.of_N (Ascii.N_of_ascii c) <? 256)) with true
    by (symmetry; apply andb_true_iff; lia).
  now rewrite N2Z.id, Ascii.ascii_N_embedding.
Qed.

Lemma extract_text_loop_round_trip (payload : list Z) (s : string) :
  forall (start : Z) (k : nat),
    0 <= start ->
    start + Z.of_nat k = Z.of_nat (length payload) ->
    plain_text s ->
    (forall (j : nat) c, ords s !! j = Some c ->
                         payload !! (Z.to_nat start + j)%nat = Some c) ->
    (forall b, payload !! (Z.to_nat start + String.length s)%nat = Some b ->
               b = 0x20 \/ b = 0x00) ->
    extract_text_loop payload (seqZ start (Z.of_nat k)) = Returns s.
Proof.
  induction s as [|c s IH]; intros start k Hstart Hlen Hplain Htext Hstop.
  - destruct k as [|k]; [reflexivity|].
    rewrite seqZ_cons by lia. simpl extract_text_loop.
    rewrite py_getitem_nonneg by lia.
    destruct (lookup_lt_is_Some_2 payload (Z.to_nat start) ltac:(lia)) as [b Hb].
    rewrite Hb. simpl String.length in Hstop. rewrite Nat.add_0_r in Hstop.
    destruct (Hstop b Hb) as [-> | ->]; reflexivity.
  - unfold plain_text in Hplain. simpl list_ascii_of_string in Hplain.
    apply Forall_cons in Hplain as [[Hsp Hnul] Hplain].
    pose proof (Htext 0%nat (ord c) eq_refl) as Hhead.
    rewrite Nat.add_0_r in Hhead.
    destruct k as [|k]; [apply lookup_lt_Some in Hhead; lia|].
    rewrite seqZ_cons by lia. simpl extract_text_loop.
    rewrite py_getitem_nonneg by lia. rewrite Hhead.
    change (PacketsContents_value FB_CONTENT_DATA_SPACE) with 0x20.
    change (PacketsContents_value FB_CONTENT_TERMINATOR) with 0x00.
    rewrite (proj2 (Z.eqb_neq _ _) Hsp), (proj2 (Z.eqb_neq _ _) Hnul).
    simpl orb. cbv iota. rewrite chr_ord.
    replace (Z.pred (Z.of_nat (S k))) with (Z.of_nat k) by lia.
    rewrite (IH (Z.succ start) k); [reflexivity|lia|lia|exact Hplain| |].
    + intros j c' Hj.
      replace (Z.to_nat (Z.succ start) + j)%nat
        with (Z.to_nat start + S j)%nat by lia.
      apply Htext. exact Hj.
    + intros b Hb. apply Hstop. simpl String.length.
      now replace (Z.to_nat start + S (String.length s))%nat
        with (Z.to_nat (Z.succ start) + String.length s)%nat by lia.
Qed.

(** A text field at the offset [start], behind the bytes [before]. *)
Lemma extract_text_field (before after : list Z) (s : string) (start : Z) :
  start = Z.of_nat (length before) ->
  plain_text s ->
  (forall b rest, after = b :: rest -> b = 0x20 \/ b = 0x00) ->
  extract_text_from_payload (before ++ ords s ++ after) start = Returns s.
Proof.
  intros -> Hplain Hafter. unfold extract_text_from_payload, py_range.
  assert (Hords : length (ords s) = String.length s).
  { unfold ords. rewrite length_fmap. clear. induction s; simpl; congruence. }
  set (payload := before ++ ords s ++ after).
  replace (Z.of_nat (length payload) - Z.of_nat (length before))
    with (Z.of_nat (length (ords s) + length after))
    by (unfold payload; rewrite !length_app; lia).
  apply extract_text_loop_round_trip; try lia; try exact Hplain.
  - unfold payload. rewrite !length_app. lia.
  - intros j c Hj. rewrite Nat2Z.id. unfold payload.
    rewrite lookup_app_r by lia.
    replace (length before + j - length before)%nat with j by lia.
    now apply lookup_app_l_Some.
  - intros b Hb. rewrite Nat2Z.id in Hb. unfold payload in Hb.
    rewrite lookup_app_r in Hb by lia.
    replace (length before + String.length s - length before)%nat
      with (length (ords s)) in Hb by lia.
    rewrite lookup_app_r in Hb by lia. rewrite Nat.sub_diag in Hb.
    destruct after as [|b' rest]; [discriminate|].
    injection Hb as <-. eapply Hafter. reflexivity.
Qed.

(** X2. A text field is read back as it was written: for a string without
    spaces and null characters whose code points stand in the payload after
    [before], followed by a space, a terminator or the end of the payload,
    [extract_text_from_payload] from that offset gives the string. *)
Theorem extract_text_round_trip (before after : list Z) (s : string) :
  plain_text s ->
  (forall b rest, after = b :: rest -> b = 0x20 \/ b = 0x00) ->
  extract_text_from_payload (before ++ ords s ++ after)
    (Z.of_nat (length before)) = Returns s.
Proof.
  intros Hplain Hafter.
  apply extract_text_field; [reflexivity | exact Hplain | exact Hafter].
Qed.

(** X3. The state a device reports: the byte 1 is RUNNING, the byte 2 is
    STOPPED, every other byte (PAIRING and ERROR too) is UNKNOWN. *)
Theorem transform_state_for_gateway_cases (received_state : Z) :
  (transform_state_for_gateway received_state = STATE_RUNNING
   <-> received_state = 0x01)
  /\ (transform_state_for_gateway received_state = STATE_STOPPED
      <-> received_state = 0x02)
  /\ (received_state <> 0x01 -> received_state <> 0x02 ->
      transform_state_for_gateway received_state = STATE_UNKNOWN).
Proof.
  unfold transform_state_for_gateway, DevicePayloadStates_of_value.
  destruct (Z.eqb_spec received_state 1) as [->|H1].
  { repeat split; intros; try reflexivity; try discriminate; lia. }
  destruct (Z.eqb_spec received_state 2) as [->|H2].
  { repeat split; intros; try reflexivity; try discriminate; lia. }
  destruct (received_state =? 3), (received_state =? 4);
    repeat split; intros; try reflexivity; try discriminate; lia.
Qed.

(** X4. The two data type tables are inverse to each other.  For the
    device: the data types CHAR, UCHAR, SHORT, USHORT, INT, UINT, FLOAT and
    BOOLEAN of the gateway have a device data type, and that device data
    type is turned back into them for the gateway; InvalidStateException is
    raised for exactly the others, which are STRING, ENUM, COLOR and a
    property without data type, and nothing else is raised.  For the
    gateway: a device data type that has a gateway data type is what that
    gateway data type is turned into for the device; exactly UNKNOWN, TIME,
    DATE and DATETIME have none. *)
Theorem data_type_tables_inverse :
  (forall g : option DataType,
     match transform_for_device g with
     | Returns t =>
         forall r : RegisterEntity.t,
           RegisterEntity.data_type r = t -> transform_for_gateway r = g
     | Raises e => e = InvalidStateException
     end)
  /\ (forall g : option DataType,
        transform_for_device g = Raises InvalidStateException
        <-> g = None \/ g = Some DATA_TYPE_STRING
            \/ g = Some DATA_TYPE_ENUM \/ g = Some DATA_TYPE_COLOR)
  /\ (forall r : RegisterEntity.t,
        match transform_for_gateway r with
        | Some g =>
            transform_for_device (Some g)
            = Returns (RegisterEntity.data_type r)
        | None => transform_for_device None = Raises InvalidStateException
        end)
  /\ (forall r : RegisterEntity.t,
        transform_for_gateway r = None
        <-> RegisterEntity.data_type r = FB_DATA_TYPE_UNKNOWN
            \/ RegisterEntity.data_type r = FB_DATA_TYPE_TIME
            \/ RegisterEntity.data_type r = FB_DATA_TYPE_DATE
            \/ RegisterEntity.data_type r = FB_DATA_TYPE_DATETIME).
Proof.
  split; [|split; [|split]].
  - intros [g|]; [|reflexivity].
    destruct g; simpl; try reflexivity; intros r Hr;
      unfold transform_for_gateway, get_data_type, RegisterEntity_HasDataType;
      now rewrite Hr.
  - intros [g|]; [destruct g|]; simpl; split;
      try discriminate; try (intros _; now auto);
      intros [H|[H|[H|H]]]; discriminate H.
  - intros r. unfold transform_for_gateway, get_data_type,
      RegisterEntity_HasDataType.
    destruct (RegisterEntity.data_type r); reflexivity.
  - intros r. unfold transform_for_gateway, get_data_type,
      RegisterEntity_HasDataType.
    destruct (RegisterEntity.data_type r); simpl; split;
      try discriminate; try (intros _; now auto 6);
      intros [H|[H|[H|H]]]; discriminate H.
Qed.

(** ** The registry *)

(** The entries of a dict after [d[key] = x]: the new one where it was
    put, the others as they were. *)
Lemma dict_set_entries {A} (key : A -> UUID) (x : A) (l : list A) :
  let i := fst (dict_set key x l) in
  let l' := snd (dict_set key x l) in
  l' !! i = Some x
  /\ (forall k y, k <> i -> l' !! k = Some y -> l !! k = Some y)
  /\ (forall k y, (k < i)%nat -> l' !! k = Some y -> key y <> key x).
Proof.
  unfold dict_set. destruct (list_find _ l) as [[j y0]|] eqn:Hf; simpl.
  - apply list_find_Some in Hf as (Hj & _ & Hbefore).
    assert (Hlt : (j < length l)%nat) by now apply lookup_lt_Some in Hj.
    split; [now apply list_lookup_insert_eq|]. split.
    + intros k y Hk Hy. now rewrite list_lookup_insert_ne in Hy.
    + intros k y Hk Hy. rewrite list_lookup_insert_ne in Hy by lia. eauto.
  - split; [rewrite lookup_app_r by lia; now rewrite Nat.sub_diag|]. split.
    + intros k y Hk Hy. apply lookup_app_Some in Hy as [Hy|[Hge Hy]];
        [exact Hy|].
      destruct (k - length l)%nat as [|n] eqn:E; [lia|discriminate].
    + intros k y Hk Hy. rewrite lookup_app_l in Hy by exact Hk.
      apply list_find_None in Hf. rewrite Forall_forall in Hf. apply Hf.
      eapply list_elem_of_lookup_2. exact Hy.
Qed.

(** What [create_device] returns is the device it describes. *)
Lemma create_device_Ok_inv (env : Env) (w w' : Connector) (i : nat)
    (serial_number : string) (max_packet_length : Z) :
  create_device env serial_number max_packet_length w = Ok i w' ->
  exists a d,
    d = DeviceEntity.with_state STATE_CONNECTED
          (DeviceEntity.init (uuid4 env (uuid_calls w)) a serial_number
             max_packet_length false false false)
    /\ (a ∉ DeviceEntity.address <$> devices w)
    /\ 1 <= a < MAX_ADDRESS
    /\ devices w' !! i = Some d
    /\ (forall k y, k <> i -> devices w' !! k = Some y ->
                    devices w !! k = Some y)
    /\ (forall k y, (k < i)%nat -> devices w' !! k = Some y ->
                    DeviceEntity.id y <> DeviceEntity.id d)
    /\ registers w' = registers w /\ upstream w' = upstream w
    /\ sent w' = sent w.
Proof.
  rewrite create_device_unfold.
  destruct (list_find _ _) as [[k a]|] eqn:Hf; [|discriminate].
  apply list_find_Some in Hf as (Hk & Hfree & _).
  apply lookup_seqZ in Hk as [-> Hk].
  cbv zeta. intros H. injection H as <- <-.
  eexists _, _. split; [reflexivity|]. split; [exact Hfree|].
  split; [unfold MAX_ADDRESS in *; lia|].
  match goal with |- context [dict_set ?f ?x ?l] =>
    destruct (dict_set_entries f x l) as (H1 & H2 & H3) end.
  simpl in *. repeat split; assumption.
Qed.

(** X5. [create_device] keeps the assigned addresses apart: when no two
    devices of the registry share an address other than the unassigned 255,
    the same holds after a device was created. *)
Theorem create_device_keeps_addresses_distinct (env : Env) (w w' : Connector)
    (i : nat) (serial_number : string) (max_packet_length : Z) :
  distinct_addresses w ->
  create_device env serial_number max_packet_length w = Ok i w' ->
  distinct_addresses w'.
Proof.
  intros Hdist Hrun.
  destruct (create_device_Ok_inv _ _ _ _ _ _ Hrun)
    as (a & d & -> & Hfree & Ha & Hi & Hold & _).
  assert (Hnew : forall k y, k <> i -> devices w' !! k = Some y ->
            DeviceEntity.address y <> a).
  { intros k y Hk Hy Heq. apply Hfree. rewrite <- Heq.
    apply list_elem_of_fmap. exists y. split; [reflexivity|].
    eapply list_elem_of_lookup_2. eapply Hold; eassumption. }
  intros k1 k2 d1 d2 H1 H2 Heq Hassigned.
  destruct (decide (k1 = i)) as [->|N1], (decide (k2 = i)) as [->|N2].
  - reflexivity.
  - exfalso. rewrite Hi in H1. injection H1 as <-.
    apply (Hnew k2 d2 N2 H2). now rewrite <- Heq.
  - exfalso. rewrite Hi in H2. injection H2 as <-.
    apply (Hnew k1 d1 N1 H1). now rewrite Heq.
  - eapply Hdist; eauto.
Qed.

(** X6. A device just created is the one found under its address and under
    its id; it is also the one found under its serial number when no device
    had that serial number before. *)
Theorem create_device_then_lookup (env : Env) (w w' : Connector) (i : nat)
    (serial_number : string) (max_packet_length : Z) :
  create_device env serial_number max_packet_length w = Ok i w' ->
  exists d,
    devices w' !! i = Some d
    /\ DeviceEntity.serial_number d = serial_number
    /\ DeviceEntity.state d = STATE_CONNECTED
    /\ get_device_by_address w' (Some (DeviceEntity.address d)) = Some i
    /\ get_device_by_id w' (DeviceEntity.id d) = Some i
    /\ (get_device_by_serial_number w serial_number = None ->
        get_device_by_serial_number w' serial_number = Some i).
Proof.
  intros Hrun.
  destruct (create_device_Ok_inv _ _ _ _ _ _ Hrun)
    as (a & d & Hd & Hfree & Ha & Hi & Hold & Hid & _).
  exists d. split; [exact Hi|]. split; [now subst d|]. split; [now subst d|].
  assert (Haddr : DeviceEntity.address d = a) by now subst d.
  split; [|split].
  - unfold get_device_by_address.
    assert (Hf : list_find (fun y => Some (DeviceEntity.address y)
                                     = Some (DeviceEntity.address d))
                   (devices w') = Some (i, d)).
    { apply list_find_Some. split; [exact Hi|]. split; [reflexivity|].
      intros k y Hy Hk Heq. injection Heq as Heq. apply Hfree.
      rewrite <- Haddr, <- Heq. apply list_elem_of_fmap. exists y.
      split; [reflexivity|]. eapply list_elem_of_lookup_2.
      eapply Hold; [|exact Hy]. lia. }
    now rewrite Hf.
  - unfold get_device_by_id.
    assert (Hf : list_find (fun y => DeviceEntity.id y = DeviceEntity.id d)
                   (devices w') = Some (i, d)).
    { apply list_find_Some. split; [exact Hi|]. split; [reflexivity|].
      intros k y Hy Hk. now apply (Hid k y). }
    now rewrite Hf.
  - unfold get_device_by_serial_number. intros Hnone.
    destruct (list_find _ (devices w)) as [[? ?]|] eqn:Hf0; [discriminate|].
    apply list_find_None in Hf0. rewrite Forall_forall in Hf0.
    assert (Hf : list_find (fun y => DeviceEntity.serial_number y = serial_number)
                   (devices w') = Some (i, d)).
    { apply list_find_Some. split; [exact Hi|]. split; [now subst d|].
      intros k y Hy Hk. apply Hf0. eapply list_elem_of_lookup_2.
      eapply Hold; [|exact Hy]. lia. }
    now rewrite Hf.
Qed.

Lemma filter_all {A} (P : A -> Prop) `{forall x, Decision (P x)} (l : list A) :
  Forall P l -> filter P l = l.
Proof.
  induction 1 as [|y l Hy _ IH]; [reflexivity|].
  rewrite filter_cons. destruct (decide (P y)); [|contradiction].
  now rewrite IH.
Qed.

Lemma delete_by_id_filter (l : list RegisterEntity.t) (index : UUID) :
  NoDup (RegisterEntity.id <$> l) ->
  match list_find (fun y => RegisterEntity.id y = index) l with
  | Some (j, _) => delete j l
  | None => l
  end = filter (fun y => RegisterEntity.id y <> index) l.
Proof.
  induction l as [|y l IH]; intros Hnd; [reflexivity|].
  rewrite fmap_cons in Hnd. apply NoDup_cons in Hnd as [Hy Hnd].
  cbn [list_find]. rewrite filter_cons.
  destruct (decide (RegisterEntity.id y = index)) as [E|N].
  - destruct (decide (RegisterEntity.id y <> index)); [contradiction|].
    simpl. symmetry. apply filter_all. apply Forall_forall. intros z Hz Hzi.
    apply Hy. rewrite E, <- Hzi. apply list_elem_of_fmap. now exists z.
  - destruct (decide (RegisterEntity.id y <> index)); [|contradiction].
    specialize (IH Hnd).
    destruct (list_find _ l) as [[j z]|]; simpl; now rewrite <- IH.
Qed.

(** X7. [delete_register] on a store filed by id: no register of that id is
    left, the other registers stay in their order, and the gateway is told
    of the deletion, also when no such register was filed. *)
Theorem delete_register_removes_and_notifies (w : Connector)
    (deleted_register : RegisterEntity.t) :
  NoDup (RegisterEntity.id <$> registers w) ->
  exists w',
    delete_register deleted_register w = Ok tt w'
    /\ registers w'
       = filter (fun y => RegisterEntity.id y <> RegisterEntity.id deleted_register)
           (registers w)
    /\ upstream w'
       = upstream w
           ++ [delete_channel_property (RegisterEntity.id deleted_register)]
    /\ devices w' = devices w.
Proof.
  intros Hnd. eexists. split; [reflexivity|].
  pose proof (delete_by_id_filter (registers w)
                (RegisterEntity.id deleted_register) Hnd) as H.
  simpl. destruct (list_find _ (registers w)) as [[j z]|];
    simpl; rewrite <- H; repeat split; reflexivity.
Qed.

(** ** The checking handler *)

Section CheckingProperties.

Context (env : Env) (budget : nat).

Lemma set_state_plain (s : DeviceStates) (d : DeviceEntity.t) (w : Connector) :
  s <> STATE_LOST -> s <> STATE_READY ->
  DeviceEntity_set_state env s d w = Ok (DeviceEntity.with_state s d) w.
Proof.
  intros H1 H2. unfold DeviceEntity_set_state.
  rewrite (bool_decide_eq_false_2 (s = STATE_LOST)) by exact H1.
  now rewrite (bool_decide_eq_false_2 (s = STATE_READY)) by exact H2.
Qed.

Lemma transform_state_plain (b : Z) :
  transform_state_for_gateway b <> STATE_LOST
  /\ transform_state_for_gateway b <> STATE_READY.
Proof.
  unfold transform_state_for_gateway.
  destruct (DevicePayloadStates_of_value b) as [[]|]; split; discriminate.
Qed.

(** X8. A GET_STATE or REPORT_STATE packet of the length 3 from a known
    device sets the state the device reports and sends it upstream; the
    attempt counter and the expected reply stay as they were.  With another
    length the packet changes nothing. *)
Theorem state_reply_sets_state_only (w : Connector) (packet : Packets)
    (a : Z) (i : nat) (payload : list Z) (payload_length b : Z) :
  packet = FB_PACKET_GET_STATE \/ packet = FB_PACKET_REPORT_STATE ->
  get_device_by_address w (Some a) = Some i ->
  payload !! 1%nat = Some b ->
  (payload_length <> 3 ->
   CheckingHandler_receive env packet (Some a) payload payload_length w = Ok tt w)
  /\ exists w' d d',
       devices w !! i = Some d
       /\ CheckingHandler_receive env packet (Some a) payload 3 w = Ok tt w'
       /\ devices w' !! i = Some d'
       /\ d' = DeviceEntity.with_state (transform_state_for_gateway b) d
       /\ DeviceEntity.attempts d' = DeviceEntity.attempts d
       /\ DeviceEntity.waiting_for_packet d' = DeviceEntity.waiting_for_packet d
       /\ upstream w'
          = upstream w ++ [add_or_edit_device (DeviceEntity.id d)
                             (DeviceEntity.serial_number d)
                             (transform_state_for_gateway b)]
       /\ sent w' = sent w /\ registers w' = registers w.
Proof.
  intros Hpacket Hi Hb.
  destruct (get_device_by_address_Some _ _ _ Hi) as (d & Hd & _).
  assert (Hrecv : CheckingHandler_receive env packet (Some a) payload
                  = get_state_receiver env (Some a) payload).
  { destruct Hpacket as [-> | ->]; reflexivity. }
  rewrite Hrecv. split.
  - intros Hlen. unfold get_state_receiver, mbind at 1, M_bind at 1, get.
    rewrite Hi. now rewrite (proj2 (Z.eqb_neq _ _) Hlen).
  - set (s := transform_state_for_gateway b).
    set (d' := DeviceEntity.with_state s d).
    assert (Hlt : (i < length (devices w))%nat) by now apply lookup_lt_Some in Hd.
    set (w1 := with_devices (<[i := d']> (devices w)) w).
    assert (H1 : devices w1 !! i = Some d') by now apply list_lookup_insert_eq.
    destruct (update_device_Ok i w1 d' H1) as (ds & Hup & Hds & _).
    set (w2 := with_devices ds w1) in *.
    eexists _, d, d'. split; [exact Hd|]. split.
    { unfold get_state_receiver, mbind at 1, M_bind at 1, get. rewrite Hi.
      change (negb (3 =? 3)) with false. cbv iota.
      rewrite (bind_Ok _ _ _ _ _ (payload_at_Ok payload 1 b w ltac:(lia) Hb)).
      destruct (transform_state_plain b) as [N1 N2].
      rewrite (bind_Ok _ _ _ _ _
                 (on_device_Ok i _ w d d' w Hd (set_state_plain _ d w N1 N2))).
      fold w1. rewrite (bind_Ok _ _ _ _ _ Hup).
      apply (propagate_device_state_Ok i w2 d' Hds). }
    repeat split; try reflexivity. exact Hds.
Qed.

(** A frame handed to the link without waiting. *)
Lemma send_packet_no_wait (w : Connector) (address : Z) (p : Packets)
    (rest : list Z) :
  bytes_ok (Packets_value p :: rest) = true ->
  send_packet env budget address (Packets_value p :: rest) 0 w
  = Ok true (with_sent (sent w ++ [(address, Packets_value p :: rest)]) w).
Proof. intros Hb. now rewrite (send_packet_unfold env budget _ _ _ _ _ Hb). Qed.

(** X9. A lost device with attempts to spare is left alone while the ping
    delay has not passed, since it was lost or since the last packet: the
    checking handler reads the clock and nothing else changes, no frame is
    sent. *)
Theorem lost_device_not_pinged_early (w : Connector) (i : nat)
    (d : DeviceEntity.t) :
  devices w !! i = Some d ->
  DeviceEntity.attempts d < MAX_TRANSMIT_ATTEMPTS ->
  DeviceEntity.state d = STATE_LOST ->
  ((clock env (time_calls w) - DeviceEntity.lost_timestamp d < PING_DELAY)%Q
   \/ (clock env (S (time_calls w)) - DeviceEntity.last_packet_sent_timestamp d
       < PING_DELAY)%Q) ->
  exists n,
    CheckingHandler_handle env budget i w
    = Ok tt (with_time_calls (time_calls w + n) w).
Proof.
  intros Hd Hatt Hst Hearly. unfold CheckingHandler_handle.
  rewrite (bind_Ok _ _ _ _ _ (deref_Ok _ _ _ Hd)).
  rewrite (proj2 (Z.leb_gt _ _) Hatt), bind_ret.
  rewrite (bind_Ok _ _ _ _ _ (deref_Ok _ _ _ Hd)).
  unfold DeviceEntity.is_lost. rewrite Hst.
  rewrite (bool_decide_eq_true_2 (STATE_LOST = STATE_LOST)) by reflexivity.
  rewrite (bool_decide_eq_false_2 (STATE_LOST = STATE_UNKNOWN)) by discriminate.
  unfold mbind at 1, M_bind at 1. unfold mbind at 1, M_bind at 1, time_time.
  destruct (Qle_bool PING_DELAY (clock env (time_calls w) - _)) eqn:Q1.
  - unfold mbind at 1, M_bind at 1. simpl time_calls.
    destruct (Qle_bool PING_DELAY (clock env (S (time_calls w)) - _)) eqn:Q2.
    + exfalso. apply Qle_bool_iff in Q1, Q2.
      destruct Hearly as [H|H]; revert H; now apply Qle_not_lt.
    + exists 2%nat. unfold mret, M_ret.
      now replace (time_calls w + 2)%nat with (S (S (time_calls w))) by lia.
  - exists 1%nat. unfold mret, M_ret.
    now replace (time_calls w + 1)%nat with (S (time_calls w)) by lia.
Qed.

(** X10. A lost device with attempts to spare is pinged once the ping delay
    has passed both since it was lost and since the last packet: the frame
    13 00 goes to its address, PONG becomes the expected reply, the attempt
    counter goes up by one and the clock reading is kept as the time of the
    last packet; the device stays lost. *)
Theorem lost_device_pinged_after_delay (w : Connector) (i : nat)
    (d : DeviceEntity.t) :
  devices w !! i = Some d ->
  DeviceEntity.attempts d < MAX_TRANSMIT_ATTEMPTS ->
  DeviceEntity.state d = STATE_LOST ->
  (PING_DELAY <= clock env (time_calls w) - DeviceEntity.lost_timestamp d)%Q ->
  (PING_DELAY <= clock env (S (time_calls w))
                 - DeviceEntity.last_packet_sent_timestamp d)%Q ->
  exists w' d',
    CheckingHandler_handle env budget i w = Ok tt w'
    /\ devices w' !! i = Some d'
    /\ d' = DeviceEntity.increment_attempts
              (DeviceEntity.set_last_packet_timestamp
                 (clock env (S (S (time_calls w))))
                 (DeviceEntity.set_waiting_for_packet FB_PACKET_PONG d))
    /\ sent w' = sent w ++ [(DeviceEntity.address d, [0x13; 0x00])]
    /\ upstream w' = upstream w.
Proof.
  intros Hd Hatt Hst H1 H2. unfold CheckingHandler_handle.
  rewrite (bind_Ok _ _ _ _ _ (deref_Ok _ _ _ Hd)).
  rewrite (proj2 (Z.leb_gt _ _) Hatt), bind_ret.
  rewrite (bind_Ok _ _ _ _ _ (deref_Ok _ _ _ Hd)).
  unfold DeviceEntity.is_lost. rewrite Hst.
  rewrite (bool_decide_eq_true_2 (STATE_LOST = STATE_LOST)) by reflexivity.
  apply Qle_bool_iff in H1, H2.
  unfold mbind at 1, M_bind at 1. unfold mbind at 1, M_bind at 1, time_time.
  rewrite H1. unfold mbind at 1, M_bind at 1. simpl time_calls. rewrite H2.
  unfold mret at 1, M_ret at 1.
  set (w0 := with_time_calls (S (S (time_calls w))) _).
  assert (Hd0 : devices w0 !! i = Some d) by exact Hd.
  unfold send_ping_handler.
  rewrite (bind_Ok _ _ _ _ _ (deref_Ok _ _ _ Hd0)).
  rewrite (bind_Ok _ _ _ _ _
             (send_packet_no_wait w0 (DeviceEntity.address d) FB_PACKET_PING
                [0x00] eq_refl)).
  set (w1 := with_sent _ w0).
  assert (Hlt : (i < length (devices w))%nat) by now apply lookup_lt_Some in Hd.
  assert (Hd1 : devices w1 !! i = Some d) by exact Hd.
  set (dA := DeviceEntity.set_waiting_for_packet FB_PACKET_PONG d).
  set (dB := DeviceEntity.set_last_packet_timestamp
               (clock env (S (S (time_calls w)))) dA).
  set (dC := DeviceEntity.increment_attempts dB).
  assert (Hsteps :
    (call i (DeviceEntity.set_waiting_for_packet FB_PACKET_PONG) ≫= fun _ =>
       time_time env ≫= fun now =>
         call i (DeviceEntity.set_last_packet_timestamp now) ≫= fun _ =>
           call i DeviceEntity.increment_attempts) w1
    = Ok tt (with_devices (<[i := dC]> (devices w))
               (with_time_calls (S (S (S (time_calls w)))) w1))).
  { rewrite (bind_Ok _ _ _ _ _ (call_Ok _ _ _ _ Hd1)). fold dA.
    unfold mbind at 1, M_bind at 1, time_time. simpl time_calls.
    erewrite bind_Ok; cycle 1.
    { apply (call_Ok i _ _ dA). simpl devices.
      now apply list_lookup_insert_eq. }
    fold dB. erewrite call_Ok; cycle 1.
    { simpl devices. apply list_lookup_insert_eq. now rewrite length_insert. }
    fold dC. simpl devices. now rewrite !list_insert_insert_eq. }
  rewrite (bind_Ok _ _ _ _ _ Hsteps).
  set (w2 := with_devices _ _).
  assert (Hd2 : devices w2 !! i = Some dC) by now apply list_lookup_insert_eq.
  destruct (update_device_Ok i w2 dC Hd2) as (ds & Hup & Hds & _).
  exists (with_devices ds w2), dC. split; [exact Hup|].
  repeat split; try reflexivity. exact Hds.
Qed.



End CheckingProperties.

(** ** The writing handler *)

Section WritingProperties.

Context (env : Env) (budget : nat).

(** X12. A write dropped for the state of the device: when the register's
    device is not in the registry or is not RUNNING, [write_value_to_register]
    changes nothing and sends nothing, whatever the register and the
    value. *)
Theorem write_needs_running_device (w : Connector)
    (register : RegisterEntity.t) (write_value : Value) :
  (forall i d, get_device_by_id w (RegisterEntity.device_id register) = Some i ->
               devices w !! i = Some d ->
               DeviceEntity.state d <> STATE_RUNNING) ->
  write_value_to_register env budget register write_value w = Ok tt w.
Proof.
  intros Hstate. unfold write_value_to_register.
  unfold mbind at 1, M_bind at 1, get.
  destruct (get_device_by_id w _) as [i|] eqn:Hi; [|reflexivity].
  destruct (get_device_by_id_Some _ _ _ Hi) as (d & Hd & _).
  rewrite (bind_Ok _ _ _ _ _ (deref_Ok _ _ _ Hd)).
  unfold DeviceEntity.is_ready.
  rewrite bool_decide_eq_false_2 by exact (Hstate i d eq_refl Hd).
  reflexivity.
Qed.

Lemma high_low_bytes (a : Z) :
  Z.lor (Z.shiftl (Z.shiftr a 8) 8) (Z.land a 0xFF) = a.
Proof.
  apply Z.bits_inj'. intros n Hn.
  rewrite Z.lor_spec, Z.shiftl_spec by exact Hn.
  change 0xFF with (Z.ones 8).
  destruct (Z.ltb_spec n 8) as [Hlt|Hge].
  - rewrite Z.testbit_neg_r by lia.
    rewrite Z.land_spec, Z.ones_spec_low by lia.
    now rewrite andb_true_r.
  - rewrite Z.shiftr_spec by lia.
    rewrite Z.land_spec, Z.ones_spec_high by lia.
    rewrite andb_false_r, orb_false_r. f_equal. lia.
Qed.



(** X14. The echo of a digital write: when the device sends the write frame
    back, the register found at the frame's address takes the value
    written, the change goes upstream with the previous value, and the
    device is no longer waited for. *)
Theorem digital_write_echo_sets_register (w : Connector) (a : Z) (i : nat)
    (d : DeviceEntity.t) (register stored : RegisterEntity.t) (ri : nat)
    (on : bool) (payload_length : Z) :
  NoDup (RegisterEntity.id <$> registers w) ->
  get_device_by_address w (Some a) = Some i ->
  devices w !! i = Some d ->
  get_register_by_address w d FB_REGISTER_DO (RegisterEntity.address register)
  = Some ri ->
  registers w !! ri = Some stored ->
  exists w' d',
    WritingHandler_receive env FB_PACKET_WRITE_SINGLE_REGISTER (Some a)
      (digital_write_frame register on) payload_length w = Ok tt w'
    /\ registers w' = <[ri := RegisterEntity.set_value (VBool on) stored]> (registers w)
    /\ upstream w'
       = upstream w ++ [send_channel_property_to_storage
                          (RegisterEntity.id stored) (VBool on)
                          (RegisterEntity.value stored)]
    /\ devices w' !! i = Some d'
    /\ d' = DeviceEntity.reset_communication d
    /\ sent w' = sent w.
Proof.
  intros Hnd Hi Hd Hri Hstored.
  unfold WritingHandler_receive, write_single_registers_receiver.
  unfold mbind at 1, M_bind at 1, get. rewrite Hi.
  rewrite (bind_Ok _ _ _ _ _ (deref_Ok _ _ _ Hd)).
  unfold digital_write_frame.
  erewrite bind_Ok by (apply payload_at_Ok; [lia | reflexivity]).
  change (RegistersTypes_of_value 2) with (Some FB_REGISTER_DO). cbv iota.
  erewrite bind_Ok by (apply payload_at_Ok; [lia | reflexivity]).
  erewrite bind_Ok by (apply payload_at_Ok; [lia | reflexivity]).
  cbv zeta. rewrite high_low_bytes.
  unfold mbind at 1, M_bind at 1. unfold mbind at 1, M_bind at 1, get.
  rewrite Hri.
  erewrite bind_Ok by (apply payload_at_Ok; [lia | reflexivity]).
  erewrite bind_Ok by (apply payload_at_Ok; [lia | reflexivity]).
  replace (Z.lor (Z.shiftl (if on then 255 else 0) 8) 0 =? 65280) with on
    by now destruct on.
  rewrite (update_register_value_Ok ri (VBool on) w stored Hnd Hstored).
  set (w1 := with_upstream _ _).
  assert (Hd1 : devices w1 !! i = Some d) by exact Hd.
  rewrite (bind_Ok _ _ _ _ _ (call_Ok _ _ _ _ Hd1)).
  set (d' := DeviceEntity.reset_communication d).
  set (w2 := with_devices _ w1).
  assert (Hd2 : devices w2 !! i = Some d').
  { apply list_lookup_insert_eq. now apply lookup_lt_Some in Hd1. }
  destruct (update_device_Ok i w2 d' Hd2) as (ds & Hup & Hds & _).
  exists (with_devices ds w2), d'. split; [exact Hup|].
  repeat split; try reflexivity. exact Hds.
Qed.

End WritingProperties.

(** ** The reporting handler *)

Section ReportingProperties.

Context (env : Env).

(** X15. A device reports a digital input: the register found at the
    reported address takes the boolean [value == 0xFF00] and the change goes
    upstream with the previous value.  Unlike the echo of a write, the
    report leaves the device as it is: the expected reply and the attempt
    counter are not cleared. *)
Theorem input_report_sets_register (w : Connector) (a : Z) (i : nat)
    (d : DeviceEntity.t) (stored : RegisterEntity.t) (ri : nat)
    (p0 hi lo b4 b5 : Z) (rest : list Z) (length : Z) :
  NoDup (RegisterEntity.id <$> registers w) ->
  get_device_by_address w (Some a) = Some i ->
  devices w !! i = Some d ->
  get_register_by_address w d FB_REGISTER_DI (Z.lor (Z.shiftl hi 8) lo)
  = Some ri ->
  registers w !! ri = Some stored ->
  let value := VBool (Z.lor (Z.shiftl b4 8) b5 =? 0xFF00) in
  exists w',
    ReportingHandler_receive env FB_PACKET_REPORT_SINGLE_REGISTER (Some a)
      (p0 :: 0x01 :: hi :: lo :: b4 :: b5 :: rest) length w = Ok tt w'
    /\ registers w' = <[ri := RegisterEntity.set_value value stored]> (registers w)
    /\ upstream w'
       = upstream w ++ [send_channel_property_to_storage
                          (RegisterEntity.id stored) value
                          (RegisterEntity.value stored)]
    /\ devices w' = devices w
    /\ sent w' = sent w.
Proof.
  intros Hnd Hi Hd Hri Hstored value.
  unfold ReportingHandler_receive.
  unfold mbind at 1, M_bind at 1, get. rewrite Hi.
  rewrite bool_decide_eq_true_2 by reflexivity.
  unfold reported_single_registers_receiver.
  rewrite (bind_Ok _ _ _ _ _ (deref_Ok _ _ _ Hd)).
  erewrite bind_Ok by (apply payload_at_Ok; [lia | reflexivity]).
  change (RegistersTypes_of_value 1) with (Some FB_REGISTER_DI). cbv iota.
  erewrite bind_Ok by (apply payload_at_Ok; [lia | reflexivity]).
  erewrite bind_Ok by (apply payload_at_Ok; [lia | reflexivity]).
  cbv zeta. unfold mbind at 1, M_bind at 1, get. rewrite Hri.
  erewrite bind_Ok by (apply payload_at_Ok; [lia | reflexivity]).
  erewrite bind_Ok by (apply payload_at_Ok; [lia | reflexivity]).
  rewrite (update_register_value_Ok ri _ w stored Hnd Hstored).
  eexists. split; [reflexivity|]. repeat split; reflexivity.
Qed.

(** X16. Reports about outputs are not taken: a report for a digital or an
    analog output changes nothing, whoever sends it and whatever value it
    carries, and so does any other packet given to the reporting
    handler. *)
Theorem output_report_changes_nothing (w : Connector) (packet : Packets)
    (sender_address : option Z) (register_type : RegistersTypes)
    (p0 hi lo : Z) (rest : list Z) (length : Z) :
  register_type = FB_REGISTER_DO \/ register_type = FB_REGISTER_AO ->
  ReportingHandler_receive env packet sender_address
    (p0 :: RegistersTypes_value register_type :: hi :: lo :: rest) length w
  = Ok tt w.
Proof.
  intros Hty. unfold ReportingHandler_receive.
  unfold mbind at 1, M_bind at 1, get.
  destruct (get_device_by_address w sender_address) as [i|] eqn:Hi;
    [|reflexivity].
  destruct (bool_decide _); [|reflexivity].
  destruct (get_device_by_address_Some _ _ _ Hi) as (d & Hd & _).
  unfold reported_single_registers_receiver.
  rewrite (bind_Ok _ _ _ _ _ (deref_Ok _ _ _ Hd)).
  erewrite bind_Ok by (apply payload_at_Ok; [lia | reflexivity]).
  assert (Hv : RegistersTypes_of_value (RegistersTypes_value register_type)
               = Some register_type) by now destruct register_type.
  rewrite Hv. cbv iota.
  erewrite bind_Ok by (apply payload_at_Ok; [lia | reflexivity]).
  erewrite bind_Ok by (apply payload_at_Ok; [lia | reflexivity]).
  cbv zeta. unfold mbind at 1, M_bind at 1, get.
  destruct (get_register_by_address _ _ _ _); [|reflexivity].
  now destruct Hty as [-> | ->].
Qed.

End ReportingProperties.

(** ** The reading handler, the requests *)

Section ReadingProperties.

Context (env : Env) (budget : nat).

Lemma populated_spec (l : list RegisterEntity.t) :
  (0 <? Z.of_nat (length l)) = true <-> (0 < length l)%nat.
Proof. rewrite Z.ltb_lt. lia. Qed.

(** The length asked for: what is left of the registers, one packet's worth
    at most. *)
Lemma read_length_min (register_size start_address count : Z) :
  (if register_size <=? start_address + count - 1 + 1 then
     if start_address =? 0 then register_size
     else register_size - start_address
   else count)
  = Z.min (register_size - start_address) count.
Proof.
  destruct (Z.leb_spec register_size (start_address + count - 1 + 1)).
  - destruct (Z.eqb_spec start_address 0); lia.
  - lia.
Qed.

(** X17. No request without something to ask for: when nothing is left of
    the registers of the type from the start address, or one packet of the
    device carries no register (a packet length of 7 or less), the request
    is not sent and the device is not touched. *)
Theorem read_request_skipped (w : Connector) (i : nat) (d : DeviceEntity.t)
    (register_type : RegistersTypes) (start_address : option Z) :
  devices w !! i = Some d ->
  Z.min (Z.of_nat (length (get_registers_by_type w d register_type))
         - default 0 start_address)
        (max_readable_registers_count d register_type) <= 0 ->
  read_multiple_registers env budget i register_type start_address w = Ok tt w.
Proof.
  intros Hd Hn. unfold read_multiple_registers.
  rewrite (bind_Ok _ _ _ _ _ (deref_Ok _ _ _ Hd)).
  unfold mbind at 1, M_bind at 1, get. cbv zeta.
  rewrite read_length_min. now rewrite (proj2 (Z.leb_le _ _) Hn).
Qed.

Lemma two_bytes (n : Z) :
  0 <= n < 65536 ->
  (0 <=? Z.shiftr n 8) && (Z.shiftr n 8 <? 256) = true
  /\ (0 <=? Z.land n 0xFF) && (Z.land n 0xFF <? 256) = true.
Proof.
  intros Hn.
  assert (H1 : 0 <= Z.shiftr n 8 < 256).
  { rewrite Z.shiftr_div_pow2 by lia. change (2 ^ 8) with 256.
    split; [apply Z.div_pos; lia | apply Z.div_lt_upper_bound; lia]. }
  assert (H2 : 0 <= Z.land n 0xFF < 256).
  { change 0xFF with (Z.ones 8). rewrite Z.land_ones by lia.
    change (2 ^ 8) with 256. apply Z.mod_pos_bound. lia. }
  rewrite (proj2 (Z.leb_le _ _) (proj1 H1)), (proj2 (Z.ltb_lt _ _) (proj2 H1)).
  rewrite (proj2 (Z.leb_le _ _) (proj1 H2)), (proj2 (Z.ltb_lt _ _) (proj2 H2)).
  split; reflexivity.
Qed.

(** The pointer after the last chunk of a type: the next type in the order
    DI, DO, AI, AO that has registers, from its address 0; when there is
    none, the pointer is cleared and the clock read. *)
Lemma update_reading_pointer_outcome (w : Connector) (i : nat)
    (d : DeviceEntity.t) (ty : RegistersTypes) :
  devices w !! i = Some d ->
  DeviceEntity.reading_register_type d = Some ty ->
  let populated t := (0 < length (get_registers_by_type w d t))%nat in
  (exists ty',
     update_reading_pointer env i w
     = Ok tt (with_devices
                (<[i := DeviceEntity.set_reading_register 0 ty' d]> (devices w)) w)
     /\ RegistersTypes_value ty < RegistersTypes_value ty'
     /\ populated ty'
     /\ forall t, RegistersTypes_value ty < RegistersTypes_value t
                  < RegistersTypes_value ty' -> ~ populated t)
  \/ (update_reading_pointer env i w
      = Ok tt (with_devices
                 (<[i := DeviceEntity.reset_reading_register_at
                           (clock env (time_calls w)) d]> (devices w))
                 (with_time_calls (S (time_calls w)) w))
      /\ forall t, RegistersTypes_value ty < RegistersTypes_value t ->
                   ~ populated t).
Proof.
  intros Hd Hty populated.
  set (full t := 0 <? Z.of_nat (length (get_registers_by_type w d t))).
  assert (Hun : update_reading_pointer env i w
    = match
        match ty with
        | FB_REGISTER_DI =>
            if full FB_REGISTER_DO then Some FB_REGISTER_DO
            else if full FB_REGISTER_AI then Some FB_REGISTER_AI
            else if full FB_REGISTER_AO then Some FB_REGISTER_AO
            else None
        | FB_REGISTER_DO =>
            if full FB_REGISTER_AI then Some FB_REGISTER_AI
            else if full FB_REGISTER_AO then Some FB_REGISTER_AO
            else None
        | FB_REGISTER_AI =>
            if full FB_REGISTER_AO then Some FB_REGISTER_AO else None
        | FB_REGISTER_AO => None
        end
      with
      | Some ty' => call i (DeviceEntity.set_reading_register 0 ty') w
      | None => on_device i (DeviceEntity_reset_reading_register env) w
      end).
  { unfold update_reading_pointer.
    rewrite (bind_Ok _ _ _ _ _ (deref_Ok _ _ _ Hd)).
    unfold mbind at 1, M_bind at 1, get. cbv zeta. rewrite Hty.
    fold (full FB_REGISTER_DO). fold (full FB_REGISTER_AI).
    fold (full FB_REGISTER_AO).
    destruct ty, (full FB_REGISTER_DO), (full FB_REGISTER_AI),
      (full FB_REGISTER_AO); reflexivity. }
  rewrite Hun. clear Hun. unfold full.
  assert (Hreset :
    on_device i (DeviceEntity_reset_reading_register env) w
    = Ok tt (with_devices
               (<[i := DeviceEntity.reset_reading_register_at
                         (clock env (time_calls w)) d]> (devices w))
               (with_time_calls (S (time_calls w)) w))).
  { exact (on_device_Ok i (DeviceEntity_reset_reading_register env) w d
             (DeviceEntity.reset_reading_register_at (clock env (time_calls w)) d)
             (with_time_calls (S (time_calls w)) w) Hd eq_refl). }
  assert (Hp : forall t,
    (0 <? Z.of_nat (length (get_registers_by_type w d t))) = false ->
    ~ populated t).
  { intros t H. unfold populated. apply Z.ltb_ge in H. lia. }
  assert (Hq : forall t,
    (0 <? Z.of_nat (length (get_registers_by_type w d t))) = true ->
    populated t).
  { intros t H. now apply populated_spec. }
  destruct ty; cbv iota.
  - destruct (0 <? _) eqn:E2.
    { left. exists FB_REGISTER_DO. rewrite (call_Ok _ _ _ _ Hd).
      split; [reflexivity|]. split; [reflexivity|]. split; [now apply Hq|].
      intros []; simpl; lia. }
    destruct (0 <? Z.of_nat (length (get_registers_by_type w d FB_REGISTER_AI)))
      eqn:E3.
    { left. exists FB_REGISTER_AI. rewrite (call_Ok _ _ _ _ Hd).
      split; [reflexivity|]. split; [reflexivity|]. split; [now apply Hq|].
      intros []; simpl; try lia. intros _. now apply Hp. }
    destruct (0 <? Z.of_nat (length (get_registers_by_type w d FB_REGISTER_AO)))
      eqn:E4.
    { left. exists FB_REGISTER_AO. rewrite (call_Ok _ _ _ _ Hd).
      split; [reflexivity|]. split; [reflexivity|]. split; [now apply Hq|].
      intros []; simpl; try lia; intros _; now apply Hp. }
    right. split; [exact Hreset|].
    intros []; simpl; try lia; intros _; now apply Hp.
  - destruct (0 <? _) eqn:E3.
    { left. exists FB_REGISTER_AI. rewrite (call_Ok _ _ _ _ Hd).
      split; [reflexivity|]. split; [reflexivity|]. split; [now apply Hq|].
      intros []; simpl; lia. }
    destruct (0 <? Z.of_nat (length (get_registers_by_type w d FB_REGISTER_AO)))
      eqn:E4.
    { left. exists FB_REGISTER_AO. rewrite (call_Ok _ _ _ _ Hd).
      split; [reflexivity|]. split; [reflexivity|]. split; [now apply Hq|].
      intros []; simpl; try lia; intros _; now apply Hp. }
    right. split; [exact Hreset|].
    intros []; simpl; try lia; intros _; now apply Hp.
  - destruct (0 <? _) eqn:E4.
    { left. exists FB_REGISTER_AO. rewrite (call_Ok _ _ _ _ Hd).
      split; [reflexivity|]. split; [reflexivity|]. split; [now apply Hq|].
      intros []; simpl; lia. }
    right. split; [exact Hreset|].
    intros []; simpl; try lia; intros _; now apply Hp.
  - right. split; [exact Hreset|]. intros []; simpl; lia.
Qed.

(** A request that is sent: the frame, and what is noted on the device
    before the pointer is looked at. *)
Lemma read_multiple_registers_sends (w : Connector) (i : nat)
    (d : DeviceEntity.t) (register_type : RegistersTypes)
    (start_address : option Z) :
  devices w !! i = Some d ->
  let register_size :=
    Z.of_nat (length (get_registers_by_type w d register_type)) in
  let start := default 0 start_address in
  let read_length :=
    Z.min (register_size - start)
          (max_readable_registers_count d register_type) in
  0 <= start -> register_size <= 65535 -> 0 < read_length ->
  let frame :=
    [ 0x05; RegistersTypes_value register_type;
      Z.shiftr start 8; Z.land start 0xFF;
      Z.shiftr read_length 8; Z.land read_length 0xFF; 0x00 ] in
  let noted :=
    DeviceEntity.set_reading_register (start + read_length) register_type
      (DeviceEntity.increment_attempts
         (DeviceEntity.set_last_packet_timestamp (clock env (time_calls w))
            (DeviceEntity.set_waiting_for_packet
               FB_PACKET_READ_MULTIPLE_REGISTERS d))) in
  read_multiple_registers env budget i register_type start_address w
  = ((if register_size <? start + read_length + 1
      then update_reading_pointer env i else mret tt)
     ≫= fun _ => update_device i)
      (with_devices (<[i := noted]> (devices w))
         (with_time_calls (S (time_calls w))
            (with_sent (sent w ++ [(DeviceEntity.address d, frame)]) w))).
Proof.
  intros Hd register_size start read_length Hs Hsize Hn frame noted.
  assert (Hlt : (i < length (devices w))%nat) by now apply lookup_lt_Some in Hd.
  unfold read_multiple_registers.
  rewrite (bind_Ok _ _ _ _ _ (deref_Ok _ _ _ Hd)).
  unfold mbind at 1, M_bind at 1, get. cbv zeta.
  rewrite read_length_min. fold register_size start read_length.
  rewrite (proj2 (Z.leb_gt _ _) Hn).
  assert (Hbytes : bytes_ok frame = true).
  { unfold frame, bytes_ok. cbn [forallb].
    destruct (two_bytes start ltac:(lia)) as [-> ->].
    destruct (two_bytes read_length ltac:(lia)) as [-> ->].
    now destruct register_type. }
  change ([Packets_value FB_PACKET_READ_MULTIPLE_REGISTERS;
           RegistersTypes_value register_type; Z.shiftr start 8;
           Z.land start 255]
          ++ [Z.shiftr read_length 8; Z.land read_length 255]
          ++ [PacketsContents_value FB_CONTENT_TERMINATOR]) with frame.
  rewrite (bind_Ok _ _ _ _ _
             (send_packet_no_wait env budget w (DeviceEntity.address d)
                FB_PACKET_READ_MULTIPLE_REGISTERS _ Hbytes)).
  set (w1 := with_sent _ w).
  assert (Hd1 : devices w1 !! i = Some d) by exact Hd.
  set (dA := DeviceEntity.set_waiting_for_packet
               FB_PACKET_READ_MULTIPLE_REGISTERS d).
  set (dB := DeviceEntity.set_last_packet_timestamp (clock env (time_calls w)) dA).
  set (dC := DeviceEntity.increment_attempts dB).
  assert (Hsteps : forall (B : Type) (f : unit -> M B),
    (call i (DeviceEntity.set_waiting_for_packet
               FB_PACKET_READ_MULTIPLE_REGISTERS) ≫= fun _ =>
       time_time env ≫= fun now =>
         call i (DeviceEntity.set_last_packet_timestamp now) ≫= fun _ =>
           call i DeviceEntity.increment_attempts ≫= fun _ =>
             call i (DeviceEntity.set_reading_register
                       (start + read_length) register_type) ≫= f) w1
    = f tt (with_devices (<[i := noted]> (devices w))
              (with_time_calls (S (time_calls w)) w1))).
  { intros B f. rewrite (bind_Ok _ _ _ _ _ (call_Ok _ _ _ _ Hd1)). fold dA.
    unfold mbind at 1, M_bind at 1, time_time. simpl time_calls.
    erewrite bind_Ok; cycle 1.
    { apply (call_Ok i _ _ dA). simpl devices.
      now apply list_lookup_insert_eq. }
    fold dB. erewrite bind_Ok; cycle 1.
    { apply (call_Ok i _ _ dB). simpl devices.
      apply list_lookup_insert_eq. now rewrite length_insert. }
    fold dC. erewrite bind_Ok; cycle 1.
    { apply (call_Ok i _ _ dC). simpl devices.
      apply list_lookup_insert_eq. now rewrite !length_insert. }
    simpl devices. now rewrite !list_insert_insert_eq. }
  unfold mbind at 1, M_bind at 1. rewrite Hsteps. reflexivity.
Qed.

(** X18. A read request asks for what is left of the registers of the type
    from the start address, one packet's worth at most, so never past the
    last register: the frame 05 <type> <start, two bytes> <length, two
    bytes> 00 goes to the device without a wait, the reply is awaited, the
    attempt counter goes up by one, and while registers of the type are
    left the pointer stands behind the chunk asked for.  The registers
    themselves are not changed by the request. *)
Theorem read_request_chunk (w : Connector) (i : nat) (d : DeviceEntity.t)
    (register_type : RegistersTypes) (start_address : option Z) :
  devices w !! i = Some d ->
  let register_size :=
    Z.of_nat (length (get_registers_by_type w d register_type)) in
  let start := default 0 start_address in
  let read_length :=
    Z.min (register_size - start)
          (max_readable_registers_count d register_type) in
  0 <= start -> register_size <= 65535 -> 0 < read_length ->
  exists w' d',
    read_multiple_registers env budget i register_type start_address w
    = Ok tt w'
    /\ devices w' !! i = Some d'
    /\ sent w'
       = sent w ++ [(DeviceEntity.address d,
                     [ 0x05; RegistersTypes_value register_type;
                       Z.shiftr start 8; Z.land start 0xFF;
                       Z.shiftr read_length 8; Z.land read_length 0xFF;
                       0x00 ])]
    /\ start + read_length <= register_size
    /\ DeviceEntity.waiting_for_packet d'
       = Some FB_PACKET_READ_MULTIPLE_REGISTERS
    /\ DeviceEntity.attempts d' = DeviceEntity.attempts d + 1
    /\ DeviceEntity.last_packet_sent_timestamp d' = clock env (time_calls w)
    /\ registers w' = registers w
    /\ upstream w' = upstream w
    /\ (start + read_length < register_size ->
        DeviceEntity.get_reading_register d'
        = (Some (start + read_length), Some register_type)).
Proof.
  intros Hd register_size start read_length Hs Hsize Hn.
  rewrite (read_multiple_registers_sends w i d register_type start_address
             Hd Hs Hsize Hn).
  fold register_size start read_length.
  set (noted := DeviceEntity.set_reading_register _ _ _).
  set (w3 := with_devices _ _).
  assert (Hlt : (i < length (devices w))%nat) by now apply lookup_lt_Some in Hd.
  assert (Hd3 : devices w3 !! i = Some noted) by now apply list_lookup_insert_eq.
  assert (Hle : start + read_length <= register_size) by lia.
  destruct (Z.ltb_spec register_size (start + read_length + 1)) as [Hlast|Hmore].
  - destruct (update_reading_pointer_outcome w3 i noted register_type Hd3 eq_refl)
      as [(ty' & Hp & _) | (Hp & _)];
      rewrite (bind_Ok _ _ _ _ _ Hp);
      match goal with
      | |- context [update_device i (with_devices (<[i := ?x]> ?l) ?v)] =>
          set (d' := x); set (w4 := with_devices (<[i := x]> l) v)
      end;
      (assert (Hd4 : devices w4 !! i = Some d');
       [ apply list_lookup_insert_eq; now apply lookup_lt_Some in Hd3 |]);
      destruct (update_device_Ok i w4 d' Hd4) as (ds & Hup & Hds & _);
      exists (with_devices ds w4), d'; (split; [exact Hup|]);
      (split; [exact Hds|]); repeat split; try reflexivity; try exact Hle;
      intros; lia.
  - rewrite bind_ret.
    destruct (update_device_Ok i w3 noted Hd3) as (ds & Hup & Hds & _).
    exists (with_devices ds w3), noted. split; [exact Hup|].
    split; [exact Hds|]. repeat split; try reflexivity. exact Hle.
Qed.

(** X19. After the last chunk of a type the reading moves on in the order
    DI, DO, AI, AO: the pointer goes to address 0 of the next type that has
    registers, types without registers being skipped; when no later type
    has registers the pointer is cleared and the clock reading is kept as
    the time of the reading, which ends the cycle. *)
Theorem read_cycle_moves_in_order (w : Connector) (i : nat)
    (d : DeviceEntity.t) (register_type : RegistersTypes)
    (start_address : option Z) :
  devices w !! i = Some d ->
  let register_size :=
    Z.of_nat (length (get_registers_by_type w d register_type)) in
  let start := default 0 start_address in
  let populated t := (0 < length (get_registers_by_type w d t))%nat in
  0 <= start -> register_size <= 65535 -> start < register_size ->
  register_size - start <= max_readable_registers_count d register_type ->
  exists w' d',
    read_multiple_registers env budget i register_type start_address w
    = Ok tt w'
    /\ devices w' !! i = Some d'
    /\ match DeviceEntity.reading_register_type d' with
       | Some next =>
           RegistersTypes_value register_type < RegistersTypes_value next
           /\ populated next
           /\ (forall t, RegistersTypes_value register_type
                         < RegistersTypes_value t
                         < RegistersTypes_value next -> ~ populated t)
           /\ DeviceEntity.reading_register_address d' = Some 0
           /\ DeviceEntity.reading_registers_timestamp d'
              = DeviceEntity.reading_registers_timestamp d
       | None =>
           (forall t, RegistersTypes_value register_type
                      < RegistersTypes_value t -> ~ populated t)
           /\ DeviceEntity.reading_register_address d' = None
           /\ DeviceEntity.reading_registers_timestamp d'
              = clock env (S (time_calls w))
       end.
Proof.
  intros Hd register_size start populated Hs Hsize Hleft Hfits.
  assert (Hmin : Z.min (register_size - start)
                   (max_readable_registers_count d register_type)
                 = register_size - start) by lia.
  assert (Hn : 0 < Z.min (register_size - start)
                 (max_readable_registers_count d register_type)) by lia.
  rewrite (read_multiple_registers_sends w i d register_type start_address
             Hd Hs Hsize Hn).
  fold register_size start. rewrite Hmin.
  set (noted := DeviceEntity.set_reading_register _ _ _).
  set (w3 := with_devices _ _).
  assert (Hlt : (i < length (devices w))%nat) by now apply lookup_lt_Some in Hd.
  assert (Hd3 : devices w3 !! i = Some noted) by now apply list_lookup_insert_eq.
  rewrite (proj2 (Z.ltb_lt _ _)) by lia.
  destruct (update_reading_pointer_outcome w3 i noted register_type Hd3 eq_refl)
    as [(ty' & Hp & Hord & Hpop & Hskip) | (Hp & Hnone)];
    rewrite (bind_Ok _ _ _ _ _ Hp);
    match goal with
    | |- context [update_device i (with_devices (<[i := ?x]> ?l) ?v)] =>
        set (d' := x); set (w4 := with_devices (<[i := x]> l) v)
    end;
    (assert (Hd4 : devices w4 !! i = Some d');
     [ apply list_lookup_insert_eq; now apply lookup_lt_Some in Hd3 |]);
    destruct (update_device_Ok i w4 d' Hd4) as (ds & Hup & Hds & _);
    exists (with_devices ds w4), d'; (split; [exact Hup|]);
    (split; [exact Hds|]).
  - simpl. repeat split; [exact Hord | exact Hpop | exact Hskip].
  - simpl. repeat split. exact Hnone.
Qed.

(** X20. A device is not read out of turn: when it is not RUNNING, or a
    reply is awaited and half a second has not passed since the last
    packet, or its sampling time has not passed since the last reading, the
    reading handler reads the clock at most twice and does nothing else:
    no frame is sent and no device is changed. *)
Theorem reading_waits_for_its_turn (w : Connector) (i : nat)
    (d : DeviceEntity.t) :
  devices w !! i = Some d ->
  DeviceEntity.state d <> STATE_RUNNING
  \/ (DeviceEntity.waiting_for_packet d <> None
      /\ (clock env (time_calls w) - DeviceEntity.last_packet_sent_timestamp d
          < READING_DELAY)%Q)
  \/ (clock env (match DeviceEntity.waiting_for_packet d with
                 | Some _ => S (time_calls w)
                 | None => time_calls w
                 end)
      - DeviceEntity.reading_registers_timestamp d
      < DeviceEntity.sampling_time d)%Q ->
  exists n,
    (n <= 2)%nat
    /\ ReadingHandler_handle env budget i w
       = Ok tt (with_time_calls (time_calls w + n) w).
Proof.
  intros Hd Hcase. unfold ReadingHandler_handle.
  rewrite (bind_Ok _ _ _ _ _ (deref_Ok _ _ _ Hd)).
  unfold DeviceEntity.is_ready.
  assert (Hnot : forall (a b : Q), (a < b)%Q -> Qle_bool b a = false).
  { intros a b Hab. destruct (Qle_bool b a) eqn:E; [|reflexivity].
    apply Qle_bool_iff in E. exfalso. revert E. now apply Qlt_not_le. }
  assert (H0 : with_time_calls (time_calls w + 0) w = w).
  { rewrite Nat.add_0_r. now destruct w. }
  destruct (decide (DeviceEntity.state d = STATE_RUNNING)) as [Hrun|Hrun].
  2:{ rewrite (bool_decide_eq_false_2 _ Hrun). exists 0%nat.
      split; [lia|]. now rewrite H0. }
  rewrite (bool_decide_eq_true_2 _ Hrun). cbv [negb].
  destruct Hcase as [Hc | [[Hw Hc] | Hc]]; [contradiction | |].
  - destruct (DeviceEntity.waiting_for_packet d) as [p|]; [|contradiction].
    unfold mbind at 1, M_bind at 1. unfold mbind at 1, M_bind at 1, time_time.
    unfold mret at 1, M_ret at 1. rewrite (Hnot _ _ Hc).
    exists 1%nat. split; [lia|]. unfold mret, M_ret.
    now replace (time_calls w + 1)%nat with (S (time_calls w)) by lia.
  - destruct (DeviceEntity.waiting_for_packet d) as [p|].
    + unfold mbind at 1, M_bind at 1. unfold mbind at 1, M_bind at 1, time_time.
      unfold mret at 1, M_ret at 1.
      destruct (Qle_bool READING_DELAY _).
      * unfold mbind at 1, M_bind at 1, time_time.
        change (time_calls (with_time_calls (S (time_calls w)) w))
          with (S (time_calls w)).
        rewrite (Hnot _ _ Hc). exists 2%nat. split; [lia|]. unfold mret, M_ret.
        now replace (time_calls w + 2)%nat with (S (S (time_calls w))) by lia.
      * exists 1%nat. split; [lia|]. unfold mret, M_ret.
        now replace (time_calls w + 1)%nat with (S (time_calls w)) by lia.
    + rewrite bind_ret. unfold mbind at 1, M_bind at 1, time_time.
      rewrite (Hnot _ _ Hc). exists 1%nat. split; [lia|]. unfold mret, M_ret.
      now replace (time_calls w + 1)%nat with (S (time_calls w)) by lia.
Qed.

(** X21. Where a reading starts: a running device that is due and has no
    reading pointer is asked for the first type in the order DI, DO, AI, AO
    of which it has registers, from the default start address; a device
    without registers is asked nothing. *)
Theorem reading_starts_with_first_populated_type (w : Connector) (i : nat)
    (d : DeviceEntity.t) :
  devices w !! i = Some d ->
  DeviceEntity.state d = STATE_RUNNING ->
  DeviceEntity.waiting_for_packet d = None ->
  (DeviceEntity.sampling_time d
   <= clock env (time_calls w) - DeviceEntity.reading_registers_timestamp d)%Q ->
  DeviceEntity.get_reading_register d = (None, None) ->
  let populated t := (0 < length (get_registers_by_type w d t))%nat in
  let due := with_time_calls (S (time_calls w)) w in
  (forall ty,
     populated ty ->
     (forall t, RegistersTypes_value t < RegistersTypes_value ty ->
                ~ populated t) ->
     ReadingHandler_handle env budget i w
     = read_multiple_registers env budget i ty None due)
  /\ ((forall t, ~ populated t) ->
      ReadingHandler_handle env budget i w = Ok tt due).
Proof.
  intros Hd Hrun Hwait Hdue Hptr populated due.
  assert (Hun : ReadingHandler_handle env budget i w
                = read_handler env budget i due).
  { unfold ReadingHandler_handle.
    rewrite (bind_Ok _ _ _ _ _ (deref_Ok _ _ _ Hd)).
    unfold DeviceEntity.is_ready. rewrite (bool_decide_eq_true_2 _ Hrun).
    cbv [negb]. rewrite Hwait, bind_ret.
    unfold mbind at 1, M_bind at 1, time_time.
    apply Qle_bool_iff in Hdue. now rewrite Hdue. }
  rewrite Hun. clear Hun.
  assert (Hdd : devices due !! i = Some d) by exact Hd.
  set (full t := 0 <? Z.of_nat (length (get_registers_by_type due d t))).
  assert (Hun : read_handler env budget i due
    = (if full FB_REGISTER_DI
       then read_multiple_registers env budget i FB_REGISTER_DI None
       else if full FB_REGISTER_DO
       then read_multiple_registers env budget i FB_REGISTER_DO None
       else if full FB_REGISTER_AI
       then read_multiple_registers env budget i FB_REGISTER_AI None
       else if full FB_REGISTER_AO
       then read_multiple_registers env budget i FB_REGISTER_AO None
       else mret tt) due).
  { unfold read_handler.
    rewrite (bind_Ok _ _ _ _ _ (deref_Ok _ _ _ Hdd)). rewrite Hptr.
    unfold mbind at 1, M_bind at 1, get. cbv zeta.
    rewrite !(bool_decide_eq_true_2 (None = None)) by reflexivity.
    rewrite !orb_true_r, !andb_true_r. reflexivity. }
  rewrite Hun. clear Hun. unfold full. clear full.
  assert (Hfull : forall t,
    (0 <? Z.of_nat (length (get_registers_by_type due d t))) = true
    <-> populated t) by (intros t; apply populated_spec).
  assert (Hempty : forall t, ~ populated t ->
    (0 <? Z.of_nat (length (get_registers_by_type due d t))) = false).
  { intros t Ht. destruct (0 <? _) eqn:E; [|reflexivity].
    apply Hfull in E. contradiction. }
  split.
  - intros ty Hty Hfirst.
    destruct ty.
    + now rewrite (proj2 (Hfull _) Hty).
    + rewrite (Hempty FB_REGISTER_DI) by (apply Hfirst; simpl; lia).
      now rewrite (proj2 (Hfull _) Hty).
    + rewrite (Hempty FB_REGISTER_DI) by (apply Hfirst; simpl; lia).
      rewrite (Hempty FB_REGISTER_DO) by (apply Hfirst; simpl; lia).
      now rewrite (proj2 (Hfull _) Hty).
    + rewrite (Hempty FB_REGISTER_DI) by (apply Hfirst; simpl; lia).
      rewrite (Hempty FB_REGISTER_DO) by (apply Hfirst; simpl; lia).
      rewrite (Hempty FB_REGISTER_AI) by (apply Hfirst; simpl; lia).
      now rewrite (proj2 (Hfull _) Hty).
  - intros Hnone. now rewrite !Hempty by apply Hnone.
Qed.

End ReadingProperties.

(** ** The properties at work *)

(** The first space of "A B " is at index 1. *)
Lemma find_space_in_payload_first_witness :
  exists r, find_space_in_payload [0x41; 0x20; 0x42; 0x20] 0 = Returns r /\ r = 1.
Proof.
  destruct (find_space_in_payload_first [0x41; 0x20; 0x42; 0x20] 0)
    as (r & Hr & _); [lia|].
  exists r. split; [exact Hr|]. vm_compute in Hr. now injection Hr.
Defined.

(** The text "AB" after two bytes, closed by a null byte. *)
Lemma extract_text_round_trip_witness :
  extract_text_from_payload ([0x01; 0x02] ++ ords "AB" ++ [0x00; 0x43]) 2
  = Returns "AB"%string.
Proof.
  apply (extract_text_round_trip [0x01; 0x02] [0x00; 0x43] "AB").
  - unfold plain_text. simpl. repeat constructor; vm_compute; intros H;
      discriminate H.
  - intros b rest H. injection H as <- _. right. reflexivity.
Defined.

(** A second device beside the one at address 7. *)
Lemma create_device_keeps_addresses_distinct_witness :
  exists i w',
    create_device (silent_env 0) "DDEEFF" 24
      (single_device_connector STATE_RUNNING 24 0) = Ok i w'
    /\ distinct_addresses w'.
Proof.
  destruct (create_device (silent_env 0) "DDEEFF" 24
              (single_device_connector STATE_RUNNING 24 0))
    as [i w'| |] eqn:H; [|vm_compute in H; discriminate H ..].
  exists i, w'. split; [reflexivity|].
  apply (create_device_keeps_addresses_distinct (silent_env 0)
           (single_device_connector STATE_RUNNING 24 0) w' i "DDEEFF" 24);
    [|exact H].
  intros j k d1 d2 H1 H2 _ _.
  apply lookup_lt_Some in H1, H2. simpl in H1, H2. lia.
Defined.

(** The first device of an empty registry. *)
Lemma create_device_then_lookup_witness :
  exists i w' d,
    create_device (silent_env 0) "DDEEFF" 24 empty_connector = Ok i w'
    /\ devices w' !! i = Some d
    /\ DeviceEntity.state d = STATE_CONNECTED
    /\ get_device_by_serial_number w' "DDEEFF" = Some i.
Proof.
  destruct (create_device (silent_env 0) "DDEEFF" 24 empty_connector)
    as [i w'| |] eqn:H; [|vm_compute in H; discriminate H ..].
  destruct (create_device_then_lookup (silent_env 0) empty_connector w' i
              "DDEEFF" 24 H) as (d & Hd & _ & Hst & _ & _ & Hsn).
  exists i, w', d. repeat split; [exact Hd | exact Hst |].
  apply Hsn. reflexivity.
Defined.

(** The digital output is deleted. *)
Lemma delete_register_removes_and_notifies_witness :
  exists w',
    delete_register toggle_register toggle_connector = Ok tt w'
    /\ registers w' = []
    /\ upstream w' = [delete_channel_property 300%N].
Proof.
  destruct (delete_register_removes_and_notifies toggle_connector
              toggle_register) as (w' & Hrun & Hr & Hu & _).
  - apply NoDup_singleton.
  - exists w'. split; [exact Hrun|]. split; [rewrite Hr | rewrite Hu];
      reflexivity.
Defined.

(** The device at address 7 answers that it is running. *)
Lemma state_reply_sets_state_only_witness :
  exists w' d',
    CheckingHandler_receive (silent_env 0) FB_PACKET_GET_STATE (Some 7)
      [0x19; 0x01; 0x00] 3 (single_device_connector STATE_UNKNOWN 24 0)
    = Ok tt w'
    /\ devices w' !! 0%nat = Some d'
    /\ DeviceEntity.state d' = STATE_RUNNING.
Proof.
  destruct (state_reply_sets_state_only (silent_env 0)
              (single_device_connector STATE_UNKNOWN 24 0) FB_PACKET_GET_STATE
              7 0 [0x19; 0x01; 0x00] 3 1)
    as (_ & w' & d & d' & _ & Hrun & Hd & -> & _).
  - left. reflexivity.
  - reflexivity.
  - reflexivity.
  - exists w', (DeviceEntity.with_state (transform_state_for_gateway 1) d).
    split; [exact Hrun|]. split; [exact Hd | reflexivity].
Defined.

(** A device lost at the clock reading 0 is left alone at the reading 0. *)
Lemma lost_device_not_pinged_early_witness :
  exists n,
    CheckingHandler_handle (silent_env 0) 5 0
      (single_device_connector STATE_LOST 24 0)
    = Ok tt (with_time_calls (0 + n) (single_device_connector STATE_LOST 24 0)).
Proof.
  apply (lost_device_not_pinged_early (silent_env 0) 5
           (single_device_connector STATE_LOST 24 0) 0
           (single_device STATE_LOST 24)).
  - reflexivity.
  - reflexivity.
  - reflexivity.
  - left. reflexivity.
Defined.

(** The same device a thousand seconds later. *)
Lemma lost_device_pinged_after_delay_witness :
  exists w' d',
    CheckingHandler_handle (silent_env 1000) 5 0
      (single_device_connector STATE_LOST 24 0) = Ok tt w'
    /\ devices w' !! 0%nat = Some d'
    /\ DeviceEntity.waiting_for_packet d' = Some FB_PACKET_PONG
    /\ sent w' = [(7, [0x13; 0x00])].
Proof.
  destruct (lost_device_pinged_after_delay (silent_env 1000) 5
              (single_device_connector STATE_LOST 24 0) 0
              (single_device STATE_LOST 24))
    as (w' & d' & Hrun & Hd & -> & Hsent & _).
  - reflexivity.
  - reflexivity.
  - reflexivity.
  - vm_compute. discriminate.
  - vm_compute. discriminate.
  - eexists w', _. split; [exact Hrun|]. split; [exact Hd|].
    split; [reflexivity | exact Hsent].
Defined.


(** A write to the output of a stopped device. *)
Lemma write_needs_running_device_witness :
  write_value_to_register (silent_env 0) 5 toggle_register (VBool true)
    (with_registers [toggle_register] (single_device_connector STATE_STOPPED 24 0))
  = Ok tt
      (with_registers [toggle_register] (single_device_connector STATE_STOPPED 24 0)).
Proof.
  apply write_needs_running_device.
  intros i d Hi Hd. vm_compute in Hi. injection Hi as <-.
  vm_compute in Hd. injection Hd as <-. discriminate.
Defined.


(** The device at address 7 echoes the write that switches its output on. *)
Lemma digital_write_echo_sets_register_witness :
  exists w' d',
    WritingHandler_receive (silent_env 0) FB_PACKET_WRITE_SINGLE_REGISTER
      (Some 7) [0x07; 0x02; 0x00; 0x00; 0xFF; 0x00; 0x00] 7 toggle_connector
    = Ok tt w'
    /\ registers w' = [RegisterEntity.set_value (VBool true) toggle_register]
    /\ upstream w' = [send_channel_property_to_storage 300%N (VBool true) VNone]
    /\ devices w' !! 0%nat = Some d'
    /\ DeviceEntity.waiting_for_packet d' = None.
Proof.
  destruct (digital_write_echo_sets_register (silent_env 0) toggle_connector 7 0
              (single_device STATE_RUNNING 24) toggle_register toggle_register
              0 true 7) as (w' & d' & Hrun & Hr & Hu & Hd & -> & _).
  - apply NoDup_singleton.
  - reflexivity.
  - reflexivity.
  - reflexivity.
  - reflexivity.
  - eexists w', _. split; [exact Hrun|]. split; [exact Hr|].
    split; [exact Hu|]. split; [exact Hd | reflexivity].
Defined.

(** The device at address 7 reports its digital input 2 as on. *)
Lemma input_report_sets_register_witness :
  exists w' r,
    ReportingHandler_receive (silent_env 0) FB_PACKET_REPORT_SINGLE_REGISTER
      (Some 7) [0x0B; 0x01; 0x00; 0x02; 0xFF; 0x00; 0x00] 7
      (single_device_connector STATE_RUNNING 24 3) = Ok tt w'
    /\ registers w' !! 2%nat = Some r
    /\ RegisterEntity.value r = VBool true
    /\ devices w' = devices (single_device_connector STATE_RUNNING 24 3).
Proof.
  destruct (input_report_sets_register (silent_env 0)
              (single_device_connector STATE_RUNNING 24 3) 7 0
              (single_device STATE_RUNNING 24)
              (RegisterEntity.init 102%N "key" 50%N 1%N 2 FB_REGISTER_DI
                 FB_DATA_TYPE_BOOL)
              2 0x0B 0x00 0x02 0xFF 0x00 [0x00] 7)
    as (w' & Hrun & Hr & _ & Hd & _).
  - apply (bool_decide_unpack _). vm_compute. reflexivity.
  - reflexivity.
  - reflexivity.
  - reflexivity.
  - reflexivity.
  - eexists w', _. split; [exact Hrun|]. rewrite Hr. split; [reflexivity|].
    split; [reflexivity | exact Hd].
Defined.

(** A report about the digital output is not taken. *)
Lemma output_report_changes_nothing_witness :
  ReportingHandler_receive (silent_env 0) FB_PACKET_REPORT_SINGLE_REGISTER
    (Some 7) [0x0B; 0x02; 0x00; 0x00; 0xFF; 0x00; 0x00] 7 toggle_connector
  = Ok tt toggle_connector.
Proof.
  apply (output_report_changes_nothing (silent_env 0) toggle_connector
           FB_PACKET_REPORT_SINGLE_REGISTER (Some 7) FB_REGISTER_DO
           0x0B 0x00 0x00 [0xFF; 0x00; 0x00] 7).
  left. reflexivity.
Defined.

(** A device whose packets hold seven bytes is never asked for its three
    inputs. *)
Lemma read_request_skipped_witness :
  read_multiple_registers (silent_env 0) 5 0 FB_REGISTER_DI None
    (single_device_connector STATE_RUNNING 7 3)
  = Ok tt (single_device_connector STATE_RUNNING 7 3).
Proof.
  apply (read_request_skipped (silent_env 0) 5
           (single_device_connector STATE_RUNNING 7 3) 0
           (single_device STATE_RUNNING 7) FB_REGISTER_DI None).
  - reflexivity.
  - vm_compute. discriminate.
Defined.

(** Twenty inputs behind packets of eight bytes: the first request asks for
    eight of them. *)
Lemma read_request_chunk_witness :
  exists w' d',
    read_multiple_registers (silent_env 0) 5 0 FB_REGISTER_DI None
      (single_device_connector STATE_RUNNING 8 20) = Ok tt w'
    /\ devices w' !! 0%nat = Some d'
    /\ sent w' = [(7, [0x05; 0x01; 0x00; 0x00; 0x00; 0x08; 0x00])]
    /\ DeviceEntity.get_reading_register d' = (Some 8, Some FB_REGISTER_DI).
Proof.
  destruct (read_request_chunk (silent_env 0) 5
              (single_device_connector STATE_RUNNING 8 20) 0
              (single_device STATE_RUNNING 8) FB_REGISTER_DI None)
    as (w' & d' & Hrun & Hd & Hsent & _ & _ & _ & _ & _ & _ & Hptr).
  - reflexivity.
  - vm_compute. discriminate.
  - vm_compute. discriminate.
  - reflexivity.
  - exists w', d'. split; [exact Hrun|]. split; [exact Hd|].
    split; [exact Hsent|]. apply Hptr. reflexivity.
Defined.

(** After the two inputs the reading moves on to the analog output, the
    device having neither digital outputs nor analog inputs. *)
Lemma read_cycle_moves_in_order_witness :
  exists w' d',
    read_multiple_registers (silent_env 0) 5 0 FB_REGISTER_DI None
      mixed_connector = Ok tt w'
    /\ devices w' !! 0%nat = Some d'
    /\ DeviceEntity.get_reading_register d' = (Some 0, Some FB_REGISTER_AO).
Proof.
  destruct (read_cycle_moves_in_order (silent_env 0) 5 mixed_connector 0
              (single_device STATE_RUNNING 24) FB_REGISTER_DI None)
    as (w' & d' & Hrun & Hd & Hnext).
  - reflexivity.
  - vm_compute. discriminate.
  - vm_compute. discriminate.
  - reflexivity.
  - vm_compute. discriminate.
  - exists w', d'. split; [exact Hrun|]. split; [exact Hd|].
    unfold DeviceEntity.get_reading_register.
    destruct (DeviceEntity.reading_register_type d') as [next|].
    + destruct Hnext as (Hord & Hpop & _ & -> & _).
      destruct next; [simpl in Hord; lia | | | reflexivity];
        vm_compute in Hpop; lia.
    + destruct Hnext as (Hnone & _). exfalso.
      apply (Hnone FB_REGISTER_AO); [reflexivity|]. vm_compute. lia.
Defined.

(** A stopped device is not read. *)
Lemma reading_waits_for_its_turn_witness :
  exists n,
    (n <= 2)%nat
    /\ ReadingHandler_handle (silent_env 1000) 5 0
         (single_device_connector STATE_STOPPED 24 3)
       = Ok tt (with_time_calls (0 + n)
                  (single_device_connector STATE_STOPPED 24 3)).
Proof.
  apply (reading_waits_for_its_turn (silent_env 1000) 5
           (single_device_connector STATE_STOPPED 24 3) 0
           (single_device STATE_STOPPED 24)).
  - reflexivity.
  - left. discriminate.
Defined.

(** The device with inputs only is asked for its inputs. *)
Lemma reading_starts_with_first_populated_type_witness :
  ReadingHandler_handle (silent_env 1000) 5 0
    (single_device_connector STATE_RUNNING 24 3)
  = read_multiple_registers (silent_env 1000) 5 0 FB_REGISTER_DI None
      (with_time_calls 1 (single_device_connector STATE_RUNNING 24 3)).
Proof.
  destruct (reading_starts_with_first_populated_type (silent_env 1000) 5
              (single_device_connector STATE_RUNNING 24 3) 0
              (single_device STATE_RUNNING 24)) as [Hfirst _].
  - reflexivity.
  - reflexivity.
  - reflexivity.
  - vm_compute. discriminate.
  - reflexivity.
  - apply (Hfirst FB_REGISTER_DI).
    + vm_compute. lia.
    + intros [] H; simpl in H; lia.
Defined.

(** ** Closing the connector *)

Section ClosingProperties.

Context (env : Env).

Lemma disconnect_all (n : nat) :
  forall (k : nat) (w : Connector),
    (k + n = length (devices w))%nat ->
    for_each_device
      (fun i => on_device i (DeviceEntity_set_state env STATE_DISCONNECTED))
      (seq k n) w
    = Ok tt (with_devices
               (take k (devices w)
                ++ (DeviceEntity.with_state STATE_DISCONNECTED
                      <$> drop k (devices w))) w).
Proof.
  induction n as [|n IH]; intros k w Hlen.
  - simpl. rewrite take_ge, drop_ge by lia. simpl.
    now rewrite app_nil_r, with_devices_id.
  - destruct (lookup_lt_is_Some_2 (devices w) k ltac:(lia)) as [d Hd].
    cbn [seq for_each_device].
    rewrite (bind_Ok _ _ _ _ _
               (on_device_Ok k _ w d
                  (DeviceEntity.with_state STATE_DISCONNECTED d) w Hd eq_refl)).
    rewrite IH by (simpl; rewrite length_insert; lia).
    simpl devices.
    assert (Hlt : (k < length (devices w))%nat) by lia.
    rewrite (take_S_r _ _ _
               (list_lookup_insert_eq (devices w) k
                  (DeviceEntity.with_state STATE_DISCONNECTED d) Hlt)).
    rewrite take_insert_ge, drop_insert_lt by lia.
    rewrite (drop_S _ _ _ Hd), fmap_cons, <- app_assoc. reflexivity.
Qed.

Lemma propagate_all (n : nat) :
  forall (k : nat) (w : Connector),
    (k + n = length (devices w))%nat ->
    for_each_device propagate_device_state (seq k n) w
    = Ok tt (with_upstream
               (upstream w
                ++ ((fun d => add_or_edit_device (DeviceEntity.id d)
                                (DeviceEntity.serial_number d)
                                (DeviceEntity.state d))
                      <$> drop k (devices w))) w).
Proof.
  induction n as [|n IH]; intros k w Hlen.
  - simpl. rewrite drop_ge by lia. simpl. rewrite app_nil_r. now destruct w.
  - destruct (lookup_lt_is_Some_2 (devices w) k ltac:(lia)) as [d Hd].
    cbn [seq for_each_device].
    rewrite (bind_Ok _ _ _ _ _ (propagate_device_state_Ok k w d Hd)).
    rewrite IH by (simpl; lia).
    simpl. rewrite (drop_S _ _ _ Hd), fmap_cons, <- app_assoc. reflexivity.
Qed.

(** X22. Closing the connector disconnects every device: [close] always
    returns, every device of the registry is then in the state
    DISCONNECTED and otherwise as it was, and one state update per device
    has gone upstream, in the order of the registry; no frame is sent and
    the registers are not touched. *)
Theorem close_disconnects_every_device (w : Connector) :
  exists w',
    close env w = Ok true w'
    /\ devices w'
       = DeviceEntity.with_state STATE_DISCONNECTED <$> devices w
    /\ upstream w'
       = upstream w
         ++ ((fun d => add_or_edit_device (DeviceEntity.id d)
                         (DeviceEntity.serial_number d) STATE_DISCONNECTED)
               <$> devices w)
    /\ sent w' = sent w
    /\ registers w' = registers w.
Proof.
  unfold close. unfold mbind at 1, M_bind at 1, get.
  rewrite (bind_Ok _ _ _ _ _ (disconnect_all _ 0 w eq_refl)).
  rewrite take_0, drop_0, app_nil_l.
  set (w1 := with_devices _ w).
  unfold mbind at 1, M_bind at 1, get.
  rewrite (bind_Ok _ _ _ _ _ (propagate_all _ 0 w1 eq_refl)).
  eexists. split; [reflexivity|]. simpl. rewrite drop_0.
  rewrite <- list_fmap_compose. repeat split; reflexivity.
Qed.

End ClosingProperties.

(** ** Pairing *)

Section PairingProperties.

Context (env : Env) (budget : nat).

(** X23. What a device tells about itself is kept: from an about-info reply
    of a known device the packet length is the big-endian word of the bytes
    2 and 3, and description, settings and pub/sub support are each on
    exactly when their word is 0xFF00; the settings support is stored too,
    through the setter named [get_settings_support].  The next pairing
    command is the device model with description support and the registers
    size without; the expected reply and the attempt counter are cleared
    and nothing else changes. *)
Theorem about_info_is_stored (w : Connector) (a : Z) (i : nat)
    (d : DeviceEntity.t) (p0 p1 b2 b3 b4 b5 b6 b7 b8 b9 : Z) (rest : list Z) :
  get_device_by_address w (Some a) = Some i ->
  devices w !! i = Some d ->
  exists w' d',
    device_about_info_receiver (Some a)
      (p0 :: p1 :: b2 :: b3 :: b4 :: b5 :: b6 :: b7 :: b8 :: b9 :: rest) w
    = Ok tt w'
    /\ devices w' !! i = Some d'
    /\ DeviceEntity.max_packet_length d' = Z.lor (Z.shiftl b2 8) b3
    /\ DeviceEntity.description_support d'
       = (Z.lor (Z.shiftl b4 8) b5 =? 0xFF00)
    /\ DeviceEntity.settings_support d'
       = (Z.lor (Z.shiftl b6 8) b7 =? 0xFF00)
    /\ DeviceEntity.pub_sub_support d'
       = (Z.lor (Z.shiftl b8 8) b9 =? 0xFF00)
    /\ DeviceEntity.pairing_cmd d'
       = Some (if Z.lor (Z.shiftl b4 8) b5 =? 0xFF00
               then FB_PAIRING_CMD_PROVIDE_DEVICE_MODEL
               else FB_PAIRING_CMD_PROVIDE_REGISTERS_SIZE)
    /\ DeviceEntity.waiting_for_packet d' = None
    /\ DeviceEntity.attempts d' = 0
    /\ DeviceEntity.state d' = DeviceEntity.state d
    /\ DeviceEntity.address d' = DeviceEntity.address d
    /\ sent w' = sent w /\ upstream w' = upstream w
    /\ registers w' = registers w.
Proof.
  intros Hi Hd.
  assert (Hlt : (i < length (devices w))%nat) by now apply lookup_lt_Some in Hd.
  unfold device_about_info_receiver.
  unfold mbind at 1, M_bind at 1, get. rewrite Hi.
  do 8 (erewrite bind_Ok by (apply payload_at_Ok; [lia | reflexivity])).
  cbv zeta.
  set (mpl := Z.lor (Z.shiftl b2 8) b3).
  set (ds := Z.lor (Z.shiftl b4 8) b5 =? 65280).
  set (ss := Z.lor (Z.shiftl b6 8) b7 =? 65280).
  set (ps := Z.lor (Z.shiftl b8 8) b9 =? 65280).
  set (dA := DeviceEntity.set_max_packet_length mpl d).
  set (dB := DeviceEntity.set_description_support ds dA).
  set (dC := DeviceEntity.get_settings_support ss dB).
  set (dD := DeviceEntity.set_pub_sub_support ps dC).
  set (cmd := if ds then FB_PAIRING_CMD_PROVIDE_DEVICE_MODEL
              else FB_PAIRING_CMD_PROVIDE_REGISTERS_SIZE).
  set (dE := DeviceEntity.set_pairing_cmd (Some cmd) dD).
  set (dF := DeviceEntity.reset_communication dE).
  rewrite (bind_Ok _ _ _ _ _ (call_Ok _ _ _ _ Hd)). fold dA.
  erewrite bind_Ok; cycle 1.
  { apply (call_Ok i _ _ dA). simpl devices. now apply list_lookup_insert_eq. }
  fold dB. simpl devices. rewrite list_insert_insert_eq.
  erewrite bind_Ok; cycle 1.
  { apply (call_Ok i _ _ dB). simpl devices. now apply list_lookup_insert_eq. }
  fold dC. simpl devices. rewrite list_insert_insert_eq.
  erewrite bind_Ok; cycle 1.
  { apply (call_Ok i _ _ dC). simpl devices. now apply list_lookup_insert_eq. }
  fold dD. simpl devices. rewrite list_insert_insert_eq.
  erewrite bind_Ok; cycle 1.
  { apply (deref_Ok i _ dD). simpl devices. now apply list_lookup_insert_eq. }
  assert (Hcmd :
    (if DeviceEntity.description_support dD
     then call i (DeviceEntity.set_pairing_cmd
                    (Some FB_PAIRING_CMD_PROVIDE_DEVICE_MODEL))
     else call i (DeviceEntity.set_pairing_cmd
                    (Some FB_PAIRING_CMD_PROVIDE_REGISTERS_SIZE)))
    = call i (DeviceEntity.set_pairing_cmd (Some cmd))).
  { change (DeviceEntity.description_support dD) with ds. unfold cmd.
    now destruct ds. }
  rewrite Hcmd.
  erewrite bind_Ok; cycle 1.
  { apply (call_Ok i _ _ dD). simpl devices. now apply list_lookup_insert_eq. }
  fold dE. simpl devices. rewrite list_insert_insert_eq.
  erewrite bind_Ok; cycle 1.
  { apply (call_Ok i _ _ dE). simpl devices. now apply list_lookup_insert_eq. }
  fold dF. simpl devices. rewrite list_insert_insert_eq.
  set (w1 := with_devices _ _).
  assert (H1 : devices w1 !! i = Some dF) by now apply list_lookup_insert_eq.
  destruct (update_device_Ok i w1 dF H1) as (l & Hup & Hl & _).
  exists (with_devices l w1), dF. split; [exact Hup|]. split; [exact Hl|].
  repeat split; reflexivity.
Qed.

(** One description reply: the text is kept by [keep], the next command
    is [next], the communication is reset and the device filed. *)
Lemma description_step (w : Connector) (i : nat) (d : DeviceEntity.t)
    (keep : DeviceEntity.t -> DeviceEntity.t) (next : PairingCommands) :
  devices w !! i = Some d ->
  exists w',
    ((call i keep ≫= fun _ =>
        call i (DeviceEntity.set_pairing_cmd (Some next)) ≫= fun _ =>
          mret true)
     ≫= fun handled : bool =>
          if handled
          then call i DeviceEntity.reset_communication ≫= fun _ =>
               update_device i
          else mret tt) w = Ok tt w'
    /\ devices w' !! i
       = Some (DeviceEntity.reset_communication
                 (DeviceEntity.set_pairing_cmd (Some next) (keep d)))
    /\ sent w' = sent w /\ upstream w' = upstream w
    /\ registers w' = registers w.
Proof.
  intros Hd.
  assert (Hlt : (i < length (devices w))%nat) by now apply lookup_lt_Some in Hd.
  set (dA := keep d).
  set (dB := DeviceEntity.set_pairing_cmd (Some next) dA).
  set (dC := DeviceEntity.reset_communication dB).
  assert (Hfirst :
    (call i keep ≫= fun _ =>
       call i (DeviceEntity.set_pairing_cmd (Some next)) ≫= fun _ =>
         mret true) w
    = Ok true (with_devices (<[i := dB]> (devices w)) w)).
  { rewrite (bind_Ok _ _ _ _ _ (call_Ok _ _ _ _ Hd)). fold dA.
    erewrite bind_Ok; cycle 1.
    { apply (call_Ok i _ _ dA). simpl devices.
      now apply list_lookup_insert_eq. }
    fold dB. simpl devices. now rewrite list_insert_insert_eq. }
  rewrite (bind_Ok _ _ _ _ _ Hfirst).
  erewrite bind_Ok; cycle 1.
  { apply (call_Ok i _ _ dB). simpl devices. now apply list_lookup_insert_eq. }
  fold dC. simpl devices. rewrite list_insert_insert_eq.
  set (w1 := with_devices _ _).
  assert (H1 : devices w1 !! i = Some dC) by now apply list_lookup_insert_eq.
  destruct (update_device_Ok i w1 dC H1) as (l & Hup & Hl & _).
  exists (with_devices l w1). split; [exact Hup|]. split; [exact Hl|].
  repeat split; reflexivity.
Qed.

(** X24. The description of a device is kept field by field, in a fixed
    order: the text of a model reply (read from byte 2 up to a space, a
    null byte or the end) becomes the hardware model and the manufacturer
    is asked next; then the hardware manufacturer, the hardware version,
    the firmware manufacturer and the firmware version, after which the
    registers size is asked.  Each reply clears the expected reply and the
    attempt counter and changes nothing else. *)
Theorem description_replies_are_kept (w : Connector) (a : Z) (i : nat)
    (d : DeviceEntity.t) (p0 p1 : Z) (s : string) (after : list Z) :
  get_device_by_address w (Some a) = Some i ->
  devices w !! i = Some d ->
  plain_text s ->
  (forall b rest, after = b :: rest -> b = 0x20 \/ b = 0x00) ->
  let kept response keep next :=
    exists w',
      device_description_receiver response (Some a)
        (p0 :: p1 :: ords s ++ after) w = Ok tt w'
      /\ devices w' !! i
         = Some (DeviceEntity.reset_communication
                   (DeviceEntity.set_pairing_cmd (Some next) (keep s d)))
      /\ sent w' = sent w /\ upstream w' = upstream w
      /\ registers w' = registers w in
  kept FB_PAIRING_RESPONSE_DEVICE_MODEL DeviceEntity.set_hw_model
    FB_PAIRING_CMD_PROVIDE_DEVICE_MANUFACTURER
  /\ kept FB_PAIRING_RESPONSE_DEVICE_MANUFACTURER
       DeviceEntity.set_hw_manufacturer FB_PAIRING_CMD_PROVIDE_DEVICE_VERSION
  /\ kept FB_PAIRING_RESPONSE_DEVICE_VERSION DeviceEntity.set_hw_version
       FB_PAIRING_CMD_PROVIDE_FIRMWARE_MANUFACTURER
  /\ kept FB_PAIRING_RESPONSE_FIRMWARE_MANUFACTURER
       DeviceEntity.set_fw_manufacturer FB_PAIRING_CMD_PROVIDE_FIRMWARE_VERSION
  /\ kept FB_PAIRING_RESPONSE_FIRMWARE_VERSION DeviceEntity.set_fw_version
       FB_PAIRING_CMD_PROVIDE_REGISTERS_SIZE.
Proof.
  intros Hi Hd Hplain Hafter kept.
  assert (Htext :
    extract_text_from_payload (p0 :: p1 :: ords s ++ after) 2 = Returns s).
  { apply (extract_text_field [p0; p1] after s 2 eq_refl Hplain Hafter). }
  assert (Hany : forall response,
    device_description_receiver response (Some a)
      (p0 :: p1 :: ords s ++ after) w
    = (match response with
       | FB_PAIRING_RESPONSE_DEVICE_MODEL =>
           call i (DeviceEntity.set_hw_model s) ≫= fun _ =>
           call i (DeviceEntity.set_pairing_cmd
                     (Some FB_PAIRING_CMD_PROVIDE_DEVICE_MANUFACTURER))
           ≫= fun _ => mret true
       | FB_PAIRING_RESPONSE_DEVICE_MANUFACTURER =>
           call i (DeviceEntity.set_hw_manufacturer s) ≫= fun _ =>
           call i (DeviceEntity.set_pairing_cmd
                     (Some FB_PAIRING_CMD_PROVIDE_DEVICE_VERSION))
           ≫= fun _ => mret true
       | FB_PAIRING_RESPONSE_DEVICE_VERSION =>
           call i (DeviceEntity.set_hw_version s) ≫= fun _ =>
           call i (DeviceEntity.set_pairing_cmd
                     (Some FB_PAIRING_CMD_PROVIDE_FIRMWARE_MANUFACTURER))
           ≫= fun _ => mret true
       | FB_PAIRING_RESPONSE_FIRMWARE_MANUFACTURER =>
           call i (DeviceEntity.set_fw_manufacturer s) ≫= fun _ =>
           call i (DeviceEntity.set_pairing_cmd
                     (Some FB_PAIRING_CMD_PROVIDE_FIRMWARE_VERSION))
           ≫= fun _ => mret true
       | FB_PAIRING_RESPONSE_FIRMWARE_VERSION =>
           call i (DeviceEntity.set_fw_version s) ≫= fun _ =>
           call i (DeviceEntity.set_pairing_cmd
                     (Some FB_PAIRING_CMD_PROVIDE_REGISTERS_SIZE))
           ≫= fun _ => mret true
       | _ => mret false
       end
       ≫= fun handled : bool =>
            if handled
            then call i DeviceEntity.reset_communication ≫= fun _ =>
                 update_device i
            else mret tt) w).
  { intros response. unfold device_description_receiver.
    unfold mbind at 1, M_bind at 1, get. rewrite Hi.
    unfold mbind at 1, M_bind at 1, lift. rewrite Htext. reflexivity. }
  unfold kept. rewrite !Hany.
  repeat split; apply (description_step w i d _ _ Hd).
Qed.

(** X25. An address is confirmed only under the device's own serial
    number: when the device found at the sender's address confirms with the
    serial number the registry has for it, it enters the state INIT, the
    about-info is asked next and the expected reply and the attempt counter
    are cleared; a confirmation that carries another serial number changes
    nothing. *)
Theorem address_confirmation_checks_serial (w : Connector) (a : Z) (i : nat)
    (d : DeviceEntity.t) (p0 p1 : Z) (s : string) (after : list Z) :
  get_device_by_address w (Some a) = Some i ->
  devices w !! i = Some d ->
  plain_text s ->
  (forall b rest, after = b :: rest -> b = 0x20 \/ b = 0x00) ->
  (s = DeviceEntity.serial_number d ->
   exists w',
     device_address_accepted_receiver env (Some a)
       (p0 :: p1 :: ords s ++ after) w = Ok tt w'
     /\ devices w' !! i
        = Some (DeviceEntity.reset_communication
                  (DeviceEntity.set_pairing_cmd
                     (Some FB_PAIRING_CMD_PROVIDE_ABOUT_INFO)
                     (DeviceEntity.with_state STATE_INIT d)))
     /\ sent w' = sent w /\ upstream w' = upstream w
     /\ registers w' = registers w)
  /\ (s <> DeviceEntity.serial_number d ->
      device_address_accepted_receiver env (Some a)
        (p0 :: p1 :: ords s ++ after) w = Ok tt w).
Proof.
  intros Hi Hd Hplain Hafter.
  assert (Hlt : (i < length (devices w))%nat) by now apply lookup_lt_Some in Hd.
  assert (Htext :
    extract_text_from_payload (p0 :: p1 :: ords s ++ after) 2 = Returns s).
  { apply (extract_text_field [p0; p1] after s 2 eq_refl Hplain Hafter). }
  assert (Hun :
    device_address_accepted_receiver env (Some a)
      (p0 :: p1 :: ords s ++ after) w
    = (if negb (bool_decide (DeviceEntity.serial_number d = s)) then mret tt
       else
         on_device i (DeviceEntity_set_state env STATE_INIT) ≫= fun _ =>
         call i (DeviceEntity.set_pairing_cmd
                   (Some FB_PAIRING_CMD_PROVIDE_ABOUT_INFO)) ≫= fun _ =>
         call i DeviceEntity.reset_communication ≫= fun _ =>
         update_device i) w).
  { unfold device_address_accepted_receiver.
    unfold mbind at 1, M_bind at 1, get. rewrite Hi.
    rewrite (bind_Ok _ _ _ _ _ (deref_Ok _ _ _ Hd)).
    unfold mbind at 1, M_bind at 1, lift. rewrite Htext. reflexivity. }
  rewrite Hun. clear Hun. split.
  - intros ->. rewrite bool_decide_eq_true_2 by reflexivity. cbv [negb].
    set (dA := DeviceEntity.with_state STATE_INIT d).
    set (dB := DeviceEntity.set_pairing_cmd
                 (Some FB_PAIRING_CMD_PROVIDE_ABOUT_INFO) dA).
    set (dC := DeviceEntity.reset_communication dB).
    rewrite (bind_Ok _ _ _ _ _
               (on_device_Ok i _ w d dA w Hd
                  (set_state_plain env STATE_INIT d w ltac:(discriminate)
                     ltac:(discriminate)))).
    erewrite bind_Ok; cycle 1.
    { apply (call_Ok i _ _ dA). simpl devices.
      now apply list_lookup_insert_eq. }
    fold dB. simpl devices. rewrite list_insert_insert_eq.
    erewrite bind_Ok; cycle 1.
    { apply (call_Ok i _ _ dB). simpl devices.
      now apply list_lookup_insert_eq. }
    fold dC. simpl devices. rewrite list_insert_insert_eq.
    set (w1 := with_devices _ _).
    assert (H1 : devices w1 !! i = Some dC) by now apply list_lookup_insert_eq.
    destruct (update_device_Ok i w1 dC H1) as (l & Hup & Hl & _).
    exists (with_devices l w1). split; [exact Hup|]. split; [exact Hl|].
    repeat split; reflexivity.
  - intros Hne. rewrite bool_decide_eq_false_2 by congruence. reflexivity.
Qed.



Context (PJON_BROADCAST : Z).



(** X28. When a pairing is abandoned.  The device being paired is dropped
    and pairing turned off when it is no longer in the registry, when it
    has used up its five attempts, in which case it is marked lost at the
    clock reading, and when its address is to be set but it is not in the
    state CONNECTED.  When another command is due and the device is not in
    the state INIT, the device is dropped but pairing stays on, so the
    search starts again.  In none of these cases is a frame sent or
    anything sent upstream. *)
Theorem pairing_is_abandoned (w : Connector) (h : PairingHelper)
    (identifier : UUID) :
  pairing_enabled h = true ->
  pairing_device h = Some identifier ->
  let dropped := disable_pairing (with_pairing_device None h) in
  (get_device_by_id w identifier = None ->
   PairingHelper_handle env budget PJON_BROADCAST h w = Ok dropped w)
  /\ (forall i d,
        get_device_by_id w identifier = Some i ->
        devices w !! i = Some d ->
        (PairingHelper_MAX_TRANSMIT_ATTEMPTS <= DeviceEntity.attempts d ->
         exists w',
           PairingHelper_handle env budget PJON_BROADCAST h w = Ok dropped w'
           /\ devices w' !! i = Some (lost_at (clock env (time_calls w)) d)
           /\ sent w' = sent w /\ upstream w' = upstream w
           /\ registers w' = registers w)
        /\ (DeviceEntity.attempts d < PairingHelper_MAX_TRANSMIT_ATTEMPTS ->
            DeviceEntity.pairing_cmd d = Some FB_PAIRING_CMD_SET_ADDRESS ->
            DeviceEntity.state d <> STATE_CONNECTED ->
            PairingHelper_handle env budget PJON_BROADCAST h w = Ok dropped w)
        /\ (DeviceEntity.attempts d < PairingHelper_MAX_TRANSMIT_ATTEMPTS ->
            DeviceEntity.pairing_cmd d <> Some FB_PAIRING_CMD_SET_ADDRESS ->
            DeviceEntity.state d <> STATE_INIT ->
            PairingHelper_handle env budget PJON_BROADCAST h w
            = Ok (with_pairing_device None h) w)).
Proof.
  intros Hen Hpd dropped.
  assert (Hun : PairingHelper_handle env budget PJON_BROADCAST h w
    = match get_device_by_id w identifier with
      | None => Ok dropped w
      | Some i =>
          (deref i ≫= fun pairing_device =>
             if PairingHelper_MAX_TRANSMIT_ATTEMPTS
                <=? DeviceEntity.attempts pairing_device
             then
               on_device i (DeviceEntity_set_state env STATE_LOST) ≫= fun _ =>
               update_device i ≫= fun _ => mret dropped
             else if bool_decide (DeviceEntity.pairing_cmd pairing_device
                                  = Some FB_PAIRING_CMD_SET_ADDRESS)
             then
               if negb (bool_decide (DeviceEntity.state pairing_device
                                     = STATE_CONNECTED))
               then mret dropped
               else send_set_address_handler env budget i ≫= fun _ => mret h
             else if negb (bool_decide (DeviceEntity.state pairing_device
                                        = STATE_INIT))
             then mret (with_pairing_device None h)
             else
               match DeviceEntity.pairing_cmd pairing_device with
               | Some FB_PAIRING_CMD_PROVIDE_REGISTERS_STRUCTURE =>
                   send_provide_registers_structure_handler env budget i
               | Some FB_PAIRING_CMD_PROVIDE_SETTINGS_STRUCTURE =>
                   send_provide_settings_structure_handler env budget i
               | Some FB_PAIRING_CMD_PROVIDE_ADDRESS
               | Some FB_PAIRING_CMD_SET_ADDRESS
               | None => mret tt
               | Some command => send_pairing_cmd_handler env budget i command
               end ≫= fun _ => mret h) w
      end).
  { unfold PairingHelper_handle. rewrite Hen, Hpd. cbv [negb].
    unfold mbind at 1, M_bind at 1, get.
    now destruct (get_device_by_id w identifier). }
  rewrite Hun. clear Hun. split.
  - intros ->. reflexivity.
  - intros i d -> Hd.
    rewrite (bind_Ok _ _ _ _ _ (deref_Ok _ _ _ Hd)).
    split; [|split].
    + intros Hmax. rewrite (proj2 (Z.leb_le _ _) Hmax).
      rewrite (bind_Ok _ _ _ _ _
                 (on_device_Ok i _ w d _ _ Hd (set_state_LOST_Ok env d w))).
      set (w1 := with_devices _ _).
      assert (H1 : devices w1 !! i = Some (lost_at (clock env (time_calls w)) d)).
      { apply list_lookup_insert_eq. now apply lookup_lt_Some in Hd. }
      destruct (update_device_Ok i w1 _ H1) as (l & Hup & Hl & _).
      exists (with_devices l w1). rewrite (bind_Ok _ _ _ _ _ Hup).
      split; [reflexivity|]. split; [exact Hl|]. repeat split; reflexivity.
    + intros Hless Hcmd Hst. rewrite (proj2 (Z.leb_gt _ _) Hless).
      rewrite (bool_decide_eq_true_2 _ Hcmd).
      now rewrite (bool_decide_eq_false_2 _ Hst).
    + intros Hless Hcmd Hst. rewrite (proj2 (Z.leb_gt _ _) Hless).
      rewrite (bool_decide_eq_false_2 _ Hcmd).
      now rewrite (bool_decide_eq_false_2 _ Hst).
Qed.

Context (PJON_PACKET_MAX_LENGTH : Z).

(** The end of [__device_address_receiver], from the state and the command
    on: the device is filed and becomes the one being paired. *)
Lemma announcement_tail (w : Connector) (h : PairingHelper) (i : nat)
    (d : DeviceEntity.t) (current : Z) :
  devices w !! i = Some d ->
  let announced :=
    DeviceEntity.reset_communication
      (DeviceEntity.set_pairing_cmd
         (Some (if current =? ADDRESS_NOT_ASSIGNED
                then FB_PAIRING_CMD_SET_ADDRESS
                else FB_PAIRING_CMD_PROVIDE_ABOUT_INFO))
         (DeviceEntity.with_state
            (if current =? ADDRESS_NOT_ASSIGNED then STATE_CONNECTED
             else STATE_INIT) d)) in
  exists w',
    ((if current =? ADDRESS_NOT_ASSIGNED then
        on_device i (DeviceEntity_set_state env STATE_CONNECTED) ≫= fun _ =>
        call i (DeviceEntity.set_pairing_cmd (Some FB_PAIRING_CMD_SET_ADDRESS))
      else
        on_device i (DeviceEntity_set_state env STATE_INIT) ≫= fun _ =>
        call i (DeviceEntity.set_pairing_cmd
                  (Some FB_PAIRING_CMD_PROVIDE_ABOUT_INFO)))
     ≫= fun _ =>
       call i DeviceEntity.reset_communication ≫= fun _ =>
       update_device i ≫= fun _ =>
       deref i ≫= fun device =>
       mret (mkPairingHelper (Some (DeviceEntity.id device)) 0 0
               (pairing_enabled h))) w
    = Ok (mkPairingHelper (Some (DeviceEntity.id d)) 0 0 (pairing_enabled h)) w'
    /\ devices w' !! i = Some announced
    /\ sent w' = sent w /\ upstream w' = upstream w
    /\ registers w' = registers w.
Proof.
  intros Hd announced.
  assert (Hlt : (i < length (devices w))%nat) by now apply lookup_lt_Some in Hd.
  set (st := if current =? ADDRESS_NOT_ASSIGNED then STATE_CONNECTED
             else STATE_INIT).
  set (cmd := if current =? ADDRESS_NOT_ASSIGNED
              then FB_PAIRING_CMD_SET_ADDRESS
              else FB_PAIRING_CMD_PROVIDE_ABOUT_INFO).
  set (dA := DeviceEntity.with_state st d).
  set (dB := DeviceEntity.set_pairing_cmd (Some cmd) dA).
  assert (Hfirst :
    (if current =? ADDRESS_NOT_ASSIGNED then
       on_device i (DeviceEntity_set_state env STATE_CONNECTED) ≫= fun _ =>
       call i (DeviceEntity.set_pairing_cmd (Some FB_PAIRING_CMD_SET_ADDRESS))
     else
       on_device i (DeviceEntity_set_state env STATE_INIT) ≫= fun _ =>
       call i (DeviceEntity.set_pairing_cmd
                 (Some FB_PAIRING_CMD_PROVIDE_ABOUT_INFO))) w
    = Ok tt (with_devices (<[i := dB]> (devices w)) w)).
  { unfold dB, dA, st, cmd. destruct (current =? ADDRESS_NOT_ASSIGNED).
    - rewrite (bind_Ok _ _ _ _ _
                 (on_device_Ok i _ w d _ w Hd
                    (set_state_plain env STATE_CONNECTED d w
                       ltac:(discriminate) ltac:(discriminate)))).
      erewrite call_Ok
        by (simpl devices; now apply list_lookup_insert_eq).
      simpl devices. now rewrite list_insert_insert_eq.
    - rewrite (bind_Ok _ _ _ _ _
                 (on_device_Ok i _ w d _ w Hd
                    (set_state_plain env STATE_INIT d w
                       ltac:(discriminate) ltac:(discriminate)))).
      erewrite call_Ok
        by (simpl devices; now apply list_lookup_insert_eq).
      simpl devices. now rewrite list_insert_insert_eq. }
  rewrite (bind_Ok _ _ _ _ _ Hfirst).
  erewrite bind_Ok; cycle 1.
  { apply (call_Ok i _ _ dB). simpl devices. now apply list_lookup_insert_eq. }
  simpl devices. rewrite list_insert_insert_eq.
  fold announced.
  set (w1 := with_devices _ _).
  assert (H1 : devices w1 !! i = Some announced)
    by now apply list_lookup_insert_eq.
  destruct (update_device_Ok i w1 announced H1) as (l & Hup & Hl & _).
  rewrite (bind_Ok _ _ _ _ _ Hup).
  assert (H2 : devices (with_devices l w1) !! i = Some announced) by exact Hl.
  rewrite (bind_Ok _ _ _ _ _ (deref_Ok _ _ _ H2)).
  exists (with_devices l w1). split; [reflexivity|]. split; [exact Hl|].
  repeat split; reflexivity.
Qed.

(** X29. A device announces itself with its current address and its serial
    number.  An announcement whose address is not the sender's changes
    nothing.  Otherwise the device becomes the one being paired and the
    search counters are cleared: a device that says it has no address
    (255) enters the state CONNECTED and is to be given its address next,
    any other enters INIT and is asked about itself next.  An unknown
    serial number gets a new device, with a free address between 1 and 252
    whatever address it announced; a known device keeps its registry
    address, except that one registered without address takes the address
    it announces, with no check that the address is free. *)
Theorem device_announcement (w : Connector) (h : PairingHelper)
    (sender_address : option Z) (p0 p1 current : Z) (s : string)
    (after : list Z) :
  plain_text s ->
  (forall b rest, after = b :: rest -> b = 0x20 \/ b = 0x00) ->
  let payload := p0 :: p1 :: current :: ords s ++ after in
  let state_next := if current =? ADDRESS_NOT_ASSIGNED then STATE_CONNECTED
                    else STATE_INIT in
  let command_next := if current =? ADDRESS_NOT_ASSIGNED
                      then FB_PAIRING_CMD_SET_ADDRESS
                      else FB_PAIRING_CMD_PROVIDE_ABOUT_INFO in
  let announced d' (w' : Connector) i address d0 :=
    devices w' !! i = Some d'
    /\ d' = DeviceEntity.reset_communication
              (DeviceEntity.set_pairing_cmd (Some command_next)
                 (DeviceEntity.with_state state_next
                    (DeviceEntity.set_address address d0)))
    /\ sent w' = sent w /\ upstream w' = upstream w
    /\ registers w' = registers w in
  (sender_address <> Some current ->
   device_address_receiver env PJON_PACKET_MAX_LENGTH h sender_address
     payload w = Ok h w)
  /\ (forall i w1,
        sender_address = Some current ->
        get_device_by_serial_number w s = None ->
        create_device env s PJON_PACKET_MAX_LENGTH w = Ok i w1 ->
        exists w' d' d0,
          device_address_receiver env PJON_PACKET_MAX_LENGTH h sender_address
            payload w
          = Ok (mkPairingHelper (Some (DeviceEntity.id d')) 0 0
                  (pairing_enabled h)) w'
          /\ announced d' w' i (DeviceEntity.address d0) d0
          /\ devices w1 !! i = Some d0
          /\ DeviceEntity.serial_number d' = s
          /\ 1 <= DeviceEntity.address d' < MAX_ADDRESS
          /\ (DeviceEntity.address d' ∉ DeviceEntity.address <$> devices w))
  /\ (forall i d,
        sender_address = Some current ->
        get_device_by_serial_number w s = Some i ->
        devices w !! i = Some d ->
        exists w' d',
          device_address_receiver env PJON_PACKET_MAX_LENGTH h sender_address
            payload w
          = Ok (mkPairingHelper (Some (DeviceEntity.id d)) 0 0
                  (pairing_enabled h)) w'
          /\ announced d' w' i
               (if (DeviceEntity.address d =? ADDRESS_NOT_ASSIGNED)
                   && negb (current =? ADDRESS_NOT_ASSIGNED)
                then current else DeviceEntity.address d) d).
Proof.
  intros Hplain Hafter payload state_next command_next announced.
  assert (Htext : extract_text_from_payload payload 3 = Returns s).
  { apply (extract_text_field [p0; p1; current] after s 3 eq_refl Hplain
             Hafter). }
  assert (Hun :
    device_address_receiver env PJON_PACKET_MAX_LENGTH h sender_address
      payload w
    = (if negb (bool_decide (Some current = sender_address)) then mret h
       else
         match get_device_by_serial_number w s with
         | None =>
             create_device env s PJON_PACKET_MAX_LENGTH ≫= fun i =>
               mret (Some i)
         | Some i =>
             deref i ≫= fun device =>
               if negb (current =? DeviceEntity.address device)
                  && negb (current =? ADDRESS_NOT_ASSIGNED)
               then
                 if DeviceEntity.address device =? ADDRESS_NOT_ASSIGNED then
                   get ≫= fun w =>
                     if bool_decide
                          (get_device_by_address w (Some current) <> None)
                        && negb (bool_decide
                                   (DeviceEntity.serial_number device
                                    = DeviceEntity.serial_number device))
                     then mret None
                     else
                       call i (DeviceEntity.set_address current) ≫= fun _ =>
                         mret (Some i)
                 else mret (Some i)
               else mret (Some i)
         end
         ≫= fun device : option nat =>
              match device with
              | None => mret h
              | Some i =>
                  (if current =? ADDRESS_NOT_ASSIGNED then
                     on_device i (DeviceEntity_set_state env STATE_CONNECTED)
                     ≫= fun _ =>
                     call i (DeviceEntity.set_pairing_cmd
                               (Some FB_PAIRING_CMD_SET_ADDRESS))
                   else
                     on_device i (DeviceEntity_set_state env STATE_INIT)
                     ≫= fun _ =>
                     call i (DeviceEntity.set_pairing_cmd
                               (Some FB_PAIRING_CMD_PROVIDE_ABOUT_INFO)))
                  ≫= fun _ =>
                    call i DeviceEntity.reset_communication ≫= fun _ =>
                    update_device i ≫= fun _ =>
                    deref i ≫= fun device =>
                    mret (mkPairingHelper (Some (DeviceEntity.id device)) 0 0
                            (pairing_enabled h))
              end) w).
  { unfold device_address_receiver.
    erewrite bind_Ok by (apply payload_at_Ok; [lia | reflexivity]).
    destruct (negb (bool_decide (Some current = sender_address)));
      [reflexivity|].
    unfold mbind at 1, M_bind at 1, lift. fold payload. rewrite Htext.
    reflexivity. }
  rewrite Hun. clear Hun. split; [|split].
  - intros Hne. rewrite bool_decide_eq_false_2 by congruence. reflexivity.
  - intros i w1 -> Hnew Hcreate.
    rewrite bool_decide_eq_true_2 by reflexivity. cbv [negb]. rewrite Hnew.
    assert (Hmade :
      (create_device env s PJON_PACKET_MAX_LENGTH ≫= fun i : nat =>
         mret (Some i)) w = Ok (Some i) w1).
    { now rewrite (bind_Ok _ _ _ _ _ Hcreate). }
    rewrite (bind_Ok _ _ _ _ _ Hmade).
    destruct (create_device_Ok_inv env w w1 i s PJON_PACKET_MAX_LENGTH Hcreate)
      as (a & d0 & Hd0 & Hfree & Hrange & Hlook & _ & _ & Hreg & Hups & Hsent).
    destruct (announcement_tail w1 h i d0 current Hlook)
      as (w' & Hrun & Hd' & Hs' & Hu' & Hr').
    assert (Haddr : DeviceEntity.address d0 = a) by now rewrite Hd0.
    assert (Hsn : DeviceEntity.serial_number d0 = s) by now rewrite Hd0.
    exists w',
      (DeviceEntity.reset_communication
         (DeviceEntity.set_pairing_cmd (Some command_next)
            (DeviceEntity.with_state state_next d0))), d0.
    split; [exact Hrun|]. split.
    { split; [exact Hd'|]. split.
      - now destruct d0.
      - rewrite Hs', Hu', Hr', Hsent, Hups, Hreg. repeat split; reflexivity. }
    split; [exact Hlook|]. simpl. rewrite Haddr.
    repeat split; [exact Hsn | lia | lia | exact Hfree].
  - intros i d -> Hknown Hd.
    rewrite bool_decide_eq_true_2 by reflexivity. cbv [negb]. rewrite Hknown.
    assert (Hlt : (i < length (devices w))%nat)
      by now apply lookup_lt_Some in Hd.
    set (address' := if (DeviceEntity.address d =? ADDRESS_NOT_ASSIGNED)
                        && negb (current =? ADDRESS_NOT_ASSIGNED)
                     then current else DeviceEntity.address d).
    set (d0 := DeviceEntity.set_address address' d).
    assert (Hfound :
      (deref i ≫= fun device =>
         if negb (current =? DeviceEntity.address device)
            && negb (current =? ADDRESS_NOT_ASSIGNED)
         then
           if DeviceEntity.address device =? ADDRESS_NOT_ASSIGNED then
             get ≫= fun w =>
               if bool_decide (get_device_by_address w (Some current) <> None)
                  && negb (bool_decide (DeviceEntity.serial_number device
                                        = DeviceEntity.serial_number device))
               then mret None
               else
                 call i (DeviceEntity.set_address current) ≫= fun _ =>
                   mret (Some i)
           else mret (Some i)
         else mret (Some i)) w
      = Ok (Some i) (with_devices (<[i := d0]> (devices w)) w)).
    { rewrite (bind_Ok _ _ _ _ _ (deref_Ok _ _ _ Hd)).
      assert (Hsame : with_devices (<[i := d]> (devices w)) w = w).
      { rewrite (list_insert_id _ _ _ Hd). apply with_devices_id. }
      assert (Hid : forall x, x = DeviceEntity.address d ->
                DeviceEntity.set_address x d = d).
      { intros x ->. now destruct d. }
      unfold d0, address'.
      destruct (Z.eqb_spec current ADDRESS_NOT_ASSIGNED) as [Hc|Hc].
      - rewrite andb_false_r. cbv [negb]. rewrite andb_false_r.
        rewrite Hid by reflexivity. now rewrite Hsame.
      - cbv [negb]. rewrite !andb_true_r.
        destruct (Z.eqb_spec (DeviceEntity.address d) ADDRESS_NOT_ASSIGNED)
          as [Ha|Ha].
        + destruct (Z.eqb_spec current (DeviceEntity.address d)) as [Hca|Hca];
            [congruence|].
          unfold mbind at 1, M_bind at 1, get.
          rewrite (bool_decide_eq_true_2
                     (DeviceEntity.serial_number d
                      = DeviceEntity.serial_number d)) by reflexivity.
          cbv [negb]. rewrite andb_false_r.
          now rewrite (bind_Ok _ _ _ _ _ (call_Ok _ _ _ _ Hd)).
        + rewrite Hid by reflexivity. rewrite Hsame.
          now destruct (current =? DeviceEntity.address d). }
    rewrite (bind_Ok _ _ _ _ _ Hfound).
    set (w1 := with_devices _ w).
    assert (H1 : devices w1 !! i = Some d0) by now apply list_lookup_insert_eq.
    destruct (announcement_tail w1 h i d0 current H1)
      as (w' & Hrun & Hd' & Hs' & Hu' & Hr').
    exists w',
      (DeviceEntity.reset_communication
         (DeviceEntity.set_pairing_cmd (Some command_next)
            (DeviceEntity.with_state state_next d0))).
    split; [exact Hrun|].
    split; [exact Hd'|]. split; [reflexivity|].
    rewrite Hs', Hu', Hr'. repeat split; reflexivity.
Qed.

End PairingProperties.

(** ** The reading handler, analog replies *)

Section AnalogProperties.

Context (env : Env).

Lemma transform_returns (r : RegisterEntity.t) (block : list Z) :
  RegisterEntity.data_type r <> FB_DATA_TYPE_FLOAT32 ->
  bytes_ok block = true ->
  length block = 4%nat ->
  exists o, transform_value_from_bytes env r block = Returns o.
Proof.
  intros Hf Hok Hlen. unfold transform_value_from_bytes, unpack4.
  rewrite Hok, Hlen. simpl.
  destruct (RegisterEntity.data_type r); try congruence; eexists; reflexivity.
Qed.

(** One round of the loop over the words: the register found at the
    address takes what the codec gives for the word, the others stay. *)
Lemma analog_words_step (device : DeviceEntity.t) (ty : RegistersTypes)
    (payload : list Z) (payload_length : Z) (rounds : nat) (pos a : Z)
    (w : Connector) (b0 b1 b2 b3 : Z) :
  NoDup (RegisterEntity.id <$> registers w) ->
  no_float_registers w ->
  0 <= pos ->
  pos + 3 < payload_length - 1 ->
  payload !! Z.to_nat pos = Some b0 ->
  payload !! Z.to_nat (pos + 1) = Some b1 ->
  payload !! Z.to_nat (pos + 2) = Some b2 ->
  payload !! Z.to_nat (pos + 3) = Some b3 ->
  bytes_ok [b0; b1; b2; b3] = true ->
  exists w',
    analog_words env (S rounds) payload payload_length device ty pos a w
    = analog_words env rounds payload payload_length device ty (pos + 4)
        (a + 1) w'
    /\ same_keys w w' /\ devices w' = devices w
    /\ sent w' = sent w
    /\ no_float_registers w'
    /\ forall a' ri r,
         get_register_by_address w device ty a' = Some ri ->
         registers w !! ri = Some r ->
         registers w' !! ri
         = Some (if bool_decide (a' = a) then decoded env r [b0; b1; b2; b3]
                 else r).
Proof.
  intros Hnd Hnf Hpos Hcond H0 H1 H2 H3 Hok.
  assert (Hstay : forall a' ri r,
    get_register_by_address w device ty a = None ->
    get_register_by_address w device ty a' = Some ri ->
    registers w !! ri = Some r ->
    registers w !! ri
    = Some (if bool_decide (a' = a) then decoded env r [b0; b1; b2; b3]
            else r)).
  { intros a' ri r Hnone Hri Hr. rewrite bool_decide_eq_false_2; [exact Hr|].
    intros ->. congruence. }
  cbn [analog_words]. rewrite (proj2 (Z.ltb_lt _ _) Hcond).
  unfold mbind at 1, M_bind at 1. unfold mbind at 1, M_bind at 1, get.
  destruct (get_register_by_address w device ty a) as [ri|] eqn:Hri.
  2:{ exists w. split; [reflexivity|]. split; [apply same_keys_refl|].
      split; [reflexivity|]. split; [reflexivity|]. split; [exact Hnf|].
      intros a' ri r. now apply Hstay. }
  destruct (get_register_by_address_Some _ _ _ _ _ Hri) as (r & Hr & Ha).
  assert (Hfl : RegisterEntity.data_type r <> FB_DATA_TYPE_FLOAT32).
  { unfold no_float_registers in Hnf. rewrite Forall_lookup in Hnf.
    exact (Hnf ri r Hr). }
  destruct (transform_returns r [b0; b1; b2; b3] Hfl Hok eq_refl) as [o Ho].
  rewrite (bind_Ok _ _ _ _ _ (payload_at_Ok payload pos b0 w Hpos H0)).
  rewrite (bind_Ok _ _ _ _ _
             (payload_at_Ok payload (pos + 1) b1 w ltac:(lia) H1)).
  rewrite (bind_Ok _ _ _ _ _
             (payload_at_Ok payload (pos + 2) b2 w ltac:(lia) H2)).
  rewrite (bind_Ok _ _ _ _ _
             (payload_at_Ok payload (pos + 3) b3 w ltac:(lia) H3)).
  unfold mbind at 1, M_bind at 1. rewrite Hr.
  rewrite Ho.
  rewrite (bind_Ok _ _ _ _ _ (eq_refl : lift (Returns o) w = Ok o w)).
  assert (Hlt : (ri < length (registers w))%nat)
    by now apply lookup_lt_Some in Hr.
  destruct o as [v|]; cbv beta iota.
  - rewrite (update_register_value_Ok ri v w r Hnd Hr).
    eexists. split; [reflexivity|]. split; [|split; [reflexivity|]].
    { unfold same_keys. simpl. rewrite list_fmap_insert.
      apply list_insert_id. now rewrite list_lookup_fmap, Hr. }
    split; [reflexivity|]. split.
    { unfold no_float_registers. simpl registers.
      apply Forall_insert; [exact Hnf | exact Hfl]. }
    intros a' ri' r' Hri' Hr'. simpl registers.
    destruct (decide (a' = a)) as [->|Hne].
    + assert (ri' = ri) as -> by congruence.
      assert (r' = r) as -> by congruence.
      rewrite bool_decide_eq_true_2 by reflexivity.
      unfold decoded. rewrite Ho. now apply list_lookup_insert_eq.
    + rewrite bool_decide_eq_false_2 by exact Hne.
      rewrite list_lookup_insert_ne; [exact Hr'|].
      intros ->.
      destruct (get_register_by_address_Some _ _ _ _ _ Hri') as (r'' & Hr'' & Ha'').
      congruence.
  - exists w. split; [reflexivity|]. split; [apply same_keys_refl|].
    split; [reflexivity|]. split; [reflexivity|]. split; [exact Hnf|].
    intros a' ri' r' Hri' Hr'.
    destruct (decide (a' = a)) as [->|Hne].
    + assert (ri' = ri) as -> by congruence.
      assert (r' = r) as -> by congruence.
      rewrite bool_decide_eq_true_2 by reflexivity.
      unfold decoded. now rewrite Ho.
    + now rewrite bool_decide_eq_false_2 by exact Hne.
Qed.

Lemma payload_word (payload : list Z) (pos : Z) :
  0 <= pos ->
  pos + 3 < Z.of_nat (length payload) ->
  bytes_ok payload = true ->
  exists b0 b1 b2 b3,
    payload !! Z.to_nat pos = Some b0
    /\ payload !! Z.to_nat (pos + 1) = Some b1
    /\ payload !! Z.to_nat (pos + 2) = Some b2
    /\ payload !! Z.to_nat (pos + 3) = Some b3
    /\ take 4 (drop (Z.to_nat pos) payload) = [b0; b1; b2; b3]
    /\ bytes_ok [b0; b1; b2; b3] = true.
Proof.
  intros Hpos Hlen Hok.
  destruct (lookup_lt_is_Some_2 payload (Z.to_nat pos) ltac:(lia)) as [b0 H0].
  destruct (lookup_lt_is_Some_2 payload (Z.to_nat (pos + 1)) ltac:(lia))
    as [b1 H1].
  destruct (lookup_lt_is_Some_2 payload (Z.to_nat (pos + 2)) ltac:(lia))
    as [b2 H2].
  destruct (lookup_lt_is_Some_2 payload (Z.to_nat (pos + 3)) ltac:(lia))
    as [b3 H3].
  exists b0, b1, b2, b3. repeat split; try assumption.
  - replace (Z.to_nat (pos + 1)) with (S (Z.to_nat pos)) in H1 by lia.
    replace (Z.to_nat (pos + 2)) with (S (S (Z.to_nat pos))) in H2 by lia.
    replace (Z.to_nat (pos + 3)) with (S (S (S (Z.to_nat pos)))) in H3 by lia.
    rewrite (drop_S _ _ _ H0), (drop_S _ _ _ H1), (drop_S _ _ _ H2),
      (drop_S _ _ _ H3). reflexivity.
  - unfold bytes_ok in *. rewrite forallb_forall in Hok.
    cbn [forallb].
    rewrite (Hok b0), (Hok b1), (Hok b2), (Hok b3); [reflexivity| | | |];
      apply list_elem_of_In; eapply list_elem_of_lookup_2; eassumption.
Qed.

(** The loop over the words from [pos], from the register address [a]: the
    register found at the address [a + m] holds what the codec gives for
    the word [m] words on, the registers found at lower addresses are as
    they were. *)
Lemma analog_words_outcome (device : DeviceEntity.t) (ty : RegistersTypes)
    (payload : list Z) (payload_length : Z) (rounds : nat) :
  forall (pos a : Z) (w : Connector),
    NoDup (RegisterEntity.id <$> registers w) ->
    no_float_registers w ->
    0 <= pos ->
    payload_length <= Z.of_nat (length payload) ->
    bytes_ok payload = true ->
    exists w',
      analog_words env rounds payload payload_length device ty pos a w
      = Ok tt w'
      /\ same_keys w w' /\ devices w' = devices w /\ sent w' = sent w
      /\ forall a' ri r,
           get_register_by_address w device ty a' = Some ri ->
           registers w !! ri = Some r ->
           (a' < a -> registers w' !! ri = Some r)
           /\ forall m : nat,
                (m < rounds)%nat ->
                pos + 4 * Z.of_nat m + 3 < payload_length - 1 ->
                a' = a + Z.of_nat m ->
                registers w' !! ri
                = Some (decoded env r
                          (take 4 (drop (Z.to_nat (pos + 4 * Z.of_nat m))
                                     payload))).
Proof.
  induction rounds as [|rounds IH]; intros pos a w Hnd Hnf Hpos Hlen Hok.
  - exists w. split; [reflexivity|]. split; [apply same_keys_refl|].
    split; [reflexivity|]. split; [reflexivity|].
    intros a' ri r Hri Hr. split; [intros _; exact Hr|]. intros m Hm. lia.
  - destruct (Z.ltb_spec (pos + 3) (payload_length - 1)) as [Hcond|Hcond].
    + destruct (payload_word payload pos Hpos ltac:(lia) Hok)
        as (b0 & b1 & b2 & b3 & H0 & H1 & H2 & H3 & Hword & Hokw).
      destruct (analog_words_step device ty payload payload_length rounds pos a
                  w b0 b1 b2 b3 Hnd Hnf Hpos Hcond H0 H1 H2 H3 Hokw)
        as (w1 & Hstep & K1 & D1 & S1 & Hnf1 & U1).
      destruct (IH (pos + 4) (a + 1) w1 (NoDup_ids_keys _ _ K1 Hnd) Hnf1
                  ltac:(lia) Hlen Hok)
        as (w' & Hrun & K2 & D2 & S2 & U2).
      exists w'. rewrite Hstep. split; [exact Hrun|].
      split; [eapply same_keys_trans; eassumption|].
      split; [congruence|]. split; [congruence|].
      intros a' ri r Hri Hr.
      assert (Hri1 : get_register_by_address w1 device ty a' = Some ri)
        by now rewrite (get_register_by_address_keys _ _ _ _ _ K1).
      pose proof (U1 a' ri r Hri Hr) as Hr1.
      destruct (U2 a' ri _ Hri1 Hr1) as [Hlow Hword'].
      split.
      * intros Ha. rewrite Hlow by lia.
        now rewrite bool_decide_eq_false_2 by lia.
      * intros m Hm Hin Ha'. destruct m as [|m].
        -- rewrite Hlow by lia.
           rewrite bool_decide_eq_true_2 by lia.
           replace (pos + 4 * Z.of_nat 0) with pos by lia.
           now rewrite Hword.
        -- rewrite (Hword' m) by lia.
           rewrite bool_decide_eq_false_2 by lia.
           now replace (pos + 4 + 4 * Z.of_nat m)
             with (pos + 4 * Z.of_nat (S m)) by lia.
    + exists w. split.
      { cbn [analog_words]. now rewrite (proj2 (Z.ltb_ge _ _) Hcond). }
      split; [apply same_keys_refl|]. split; [reflexivity|].
      split; [reflexivity|].
      intros a' ri r Hri Hr. split; [intros _; exact Hr|]. intros m Hm. lia.
Qed.

(** X30. A reply to a read of analog registers: with no register of the
    data type FLOAT32 in the registry, the receiver always returns, and
    for every word [k] of four bytes that lies wholly before the last byte
    of the payload, the register found at the address [start + k] is the
    one found there before and holds what the codec gives for that word
    and the register's data type; where the codec gives no value the
    register stays as it was.  The device's expected reply and attempt
    counter are cleared and no frame is sent. *)
Theorem analog_read_sets_registers (w : Connector)
    (sender_address : option Z) (di : nat) (device : DeviceEntity.t)
    (identifier hi lo bytes_length : Z) (ty : RegistersTypes) (data : list Z)
    (payload_length : Z) :
  let payload :=
    identifier :: RegistersTypes_value ty :: hi :: lo :: bytes_length :: data in
  let s := Z.lor (Z.shiftl hi 8) lo in
  NoDup (RegisterEntity.id <$> registers w) ->
  no_float_registers w ->
  get_device_by_address w sender_address = Some di ->
  devices w !! di = Some device ->
  ty = FB_REGISTER_AI \/ ty = FB_REGISTER_AO ->
  bytes_ok payload = true ->
  payload_length <= Z.of_nat (length payload) ->
  exists w',
    ReadingHandler_receive env FB_PACKET_READ_MULTIPLE_REGISTERS sender_address
      payload payload_length w = Ok tt w'
    /\ devices w' !! di = Some (DeviceEntity.reset_communication device)
    /\ sent w' = sent w
    /\ forall (k : nat) (ri : nat) (r : RegisterEntity.t),
         5 + 4 * Z.of_nat k + 3 < payload_length - 1 ->
         get_register_by_address w device ty (s + Z.of_nat k) = Some ri ->
         registers w !! ri = Some r ->
         get_register_by_address w' device ty (s + Z.of_nat k) = Some ri
         /\ registers w' !! ri
            = Some (decoded env r (take 4 (drop (4 * k) data))).
Proof.
  intros payload s Hnd Hnf Hdi Hdev Hty Hok Hlen.
  unfold ReadingHandler_receive, read_multiple_registers_receiver.
  unfold mbind at 1, M_bind at 1, get. rewrite Hdi.
  rewrite (bind_Ok _ _ _ _ _ (deref_Ok _ _ _ Hdev)).
  rewrite (bind_Ok _ _ _ _ _ (payload_at_Ok payload 1 _ w ltac:(lia) eq_refl)).
  assert (Hof : RegistersTypes_of_value (RegistersTypes_value ty) = Some ty)
    by now destruct ty.
  rewrite Hof.
  rewrite (bind_Ok _ _ _ _ _ (payload_at_Ok payload 2 _ w ltac:(lia) eq_refl)).
  rewrite (bind_Ok _ _ _ _ _ (payload_at_Ok payload 3 _ w ltac:(lia) eq_refl)).
  rewrite (bind_Ok _ _ _ _ _ (payload_at_Ok payload 4 _ w ltac:(lia) eq_refl)).
  fold s.
  destruct (analog_words_outcome device ty payload payload_length
              (Z.to_nat (payload_length - 1 - 5)) 5 s w Hnd Hnf ltac:(lia)
              Hlen Hok)
    as (w1 & Hrun & K & D & S1 & U).
  assert (Hloop :
    (match ty with
     | FB_REGISTER_DI | FB_REGISTER_DO =>
         get ≫= fun w0 : Connector =>
           digital_bytes (Z.to_nat (payload_length - 1 - 5)) payload
             payload_length device ty
             (Z.of_nat (length (get_registers_by_type w0 device ty))) 5 s
     | FB_REGISTER_AI | FB_REGISTER_AO =>
         analog_words env (Z.to_nat (payload_length - 1 - 5)) payload
           payload_length device ty 5 s
     end) w = Ok tt w1).
  { destruct Hty as [-> | ->]; exact Hrun. }
  rewrite (bind_Ok _ _ _ _ _ Hloop).
  assert (Hdev1 : devices w1 !! di = Some device) by now rewrite D.
  rewrite (bind_Ok _ _ _ _ _ (call_Ok _ _ _ _ Hdev1)).
  set (d' := DeviceEntity.reset_communication device).
  set (w2 := with_devices _ w1).
  assert (Hdev2 : devices w2 !! di = Some d').
  { apply list_lookup_insert_eq. now apply lookup_lt_Some in Hdev1. }
  destruct (update_device_Ok di w2 d' Hdev2) as (ds & Hup & Hds & _).
  exists (with_devices ds w2). split; [exact Hup|]. split; [exact Hds|].
  split; [exact S1|].
  intros k ri r Hk Hri Hr. split.
  - rewrite <- Hri. now apply (find_register_keys device ty _ (registers w1)).
  - destruct (U _ ri r Hri Hr) as [_ Uword].
    simpl registers. rewrite (Uword k) by lia. do 2 f_equal.
    replace (Z.to_nat (5 + 4 * Z.of_nat k)) with (5 + 4 * k)%nat by lia.
    reflexivity.
Qed.

End AnalogProperties.

(** ** Pairing and closing at work *)

(** The device at address 7 tells: packets of 24 bytes, description and
    settings support, no pub/sub. *)
Lemma about_info_is_stored_witness :
  exists w' d',
    device_about_info_receiver (Some 7)
      [0x01; 0x53; 0x00; 0x18; 0xFF; 0x00; 0xFF; 0x00; 0x00; 0x00; 0x00]
      (single_device_connector STATE_INIT 50 0) = Ok tt w'
    /\ devices w' !! 0%nat = Some d'
    /\ DeviceEntity.max_packet_length d' = 24
    /\ DeviceEntity.settings_support d' = true
    /\ DeviceEntity.pub_sub_support d' = false
    /\ DeviceEntity.pairing_cmd d' = Some FB_PAIRING_CMD_PROVIDE_DEVICE_MODEL.
Proof.
  destruct (about_info_is_stored (single_device_connector STATE_INIT 50 0) 7 0
              (single_device STATE_INIT 50)
              0x01 0x53 0x00 0x18 0xFF 0x00 0xFF 0x00 0x00 0x00 [0x00])
    as (w' & d' & Hrun & Hd & Hm & _ & Hs & Hp & Hc & _).
  - reflexivity.
  - reflexivity.
  - exists w', d'. split; [exact Hrun|]. split; [exact Hd|].
    split; [exact Hm|]. split; [exact Hs|]. split; [exact Hp | exact Hc].
Defined.

(** The device at address 7 names its model. *)
Lemma description_replies_are_kept_witness :
  exists w' d',
    device_description_receiver FB_PAIRING_RESPONSE_DEVICE_MODEL (Some 7)
      (0x01 :: 0x54 :: ords "M1" ++ [0x00])
      (single_device_connector STATE_INIT 24 0) = Ok tt w'
    /\ devices w' !! 0%nat = Some d'
    /\ DeviceEntity.hw_model d' = "M1"%string
    /\ DeviceEntity.pairing_cmd d'
       = Some FB_PAIRING_CMD_PROVIDE_DEVICE_MANUFACTURER.
Proof.
  destruct (description_replies_are_kept
              (single_device_connector STATE_INIT 24 0) 7 0
              (single_device STATE_INIT 24) 0x01 0x54 "M1" [0x00])
    as ((w' & Hrun & Hd & _) & _).
  - reflexivity.
  - reflexivity.
  - unfold plain_text. simpl. repeat constructor; vm_compute; intros H;
      discriminate H.
  - intros b rest H. injection H as <- _. right. reflexivity.
  - eexists w', _. split; [exact Hrun|]. split; [exact Hd|].
    split; reflexivity.
Defined.

(** The device at address 7 confirms its address under its serial
    number. *)
Lemma address_confirmation_checks_serial_witness :
  exists w' d',
    device_address_accepted_receiver (silent_env 0) (Some 7)
      (0x01 :: 0x52 :: ords "AABBCC" ++ [0x00]) pairing_connector = Ok tt w'
    /\ devices w' !! 0%nat = Some d'
    /\ DeviceEntity.state d' = STATE_INIT
    /\ DeviceEntity.pairing_cmd d' = Some FB_PAIRING_CMD_PROVIDE_ABOUT_INFO.
Proof.
  destruct (address_confirmation_checks_serial (silent_env 0) pairing_connector
              7 0 pairing_candidate 0x01 0x52 "AABBCC" [0x00])
    as [Hsame _].
  - reflexivity.
  - reflexivity.
  - unfold plain_text. simpl. repeat constructor; vm_compute; intros H;
      discriminate H.
  - intros b rest H. injection H as <- _. right. reflexivity.
  - destruct Hsame as (w' & Hrun & Hd & _); [reflexivity|].
    eexists w', _. split; [exact Hrun|]. split; [exact Hd|].
    split; reflexivity.
Defined.



(** The device being paired is not in the registry. *)
Lemma pairing_is_abandoned_witness :
  PairingHelper_handle (silent_env 0) 5 0 (mkPairingHelper (Some 1%N) 0 0 true)
    empty_connector
  = Ok (mkPairingHelper None 0 0 false) empty_connector.
Proof.
  destruct (pairing_is_abandoned (silent_env 0) 5 0 empty_connector
              (mkPairingHelper (Some 1%N) 0 0 true) 1%N eq_refl eq_refl)
    as [Hgone _].
  apply Hgone. reflexivity.
Defined.

(** A device without address announces itself to an empty registry. *)
Lemma device_announcement_witness :
  exists w' d',
    device_address_receiver (silent_env 0) 50 (mkPairingHelper None 3 2 true)
      (Some 255) (0x01 :: 0x51 :: 255 :: ords "DDEEFF" ++ [0x00])
      empty_connector
    = Ok (mkPairingHelper (Some (DeviceEntity.id d')) 0 0 true) w'
    /\ devices w' !! 0%nat = Some d'
    /\ DeviceEntity.serial_number d' = "DDEEFF"%string
    /\ DeviceEntity.state d' = STATE_CONNECTED
    /\ DeviceEntity.pairing_cmd d' = Some FB_PAIRING_CMD_SET_ADDRESS.
Proof.
  destruct (create_device (silent_env 0) "DDEEFF" 50 empty_connector)
    as [i w1| |] eqn:H; [|vm_compute in H; discriminate H ..].
  assert (Hi : i = 0%nat) by (vm_compute in H; now injection H).
  subst i.
  destruct (device_announcement (silent_env 0) 50 empty_connector
              (mkPairingHelper None 3 2 true) (Some 255) 0x01 0x51 255
              "DDEEFF" [0x00])
    as (_ & Hnew & _).
  - unfold plain_text. simpl. repeat constructor; vm_compute; intros H';
      discriminate H'.
  - intros b rest H'. injection H' as <- _. right. reflexivity.
  - destruct (Hnew 0%nat w1 eq_refl eq_refl H)
      as (w' & d' & d0 & Hrun & (Hd & -> & _) & _ & Hsn & _).
    eexists w', _. split; [exact Hrun|]. split; [exact Hd|].
    split; [exact Hsn|]. split; reflexivity.
Defined.

(** The analog output of the device at address 7 is read as 0x1234. *)
Lemma analog_read_sets_registers_witness :
  exists w' r,
    ReadingHandler_receive (silent_env 0) FB_PACKET_READ_MULTIPLE_REGISTERS
      (Some 7) [0x05; 0x04; 0x00; 0x00; 0x04; 0x34; 0x12; 0x00; 0x00; 0x00] 10
      mixed_connector = Ok tt w'
    /\ registers w' !! 2%nat = Some r
    /\ RegisterEntity.value r = VInt 0x1234.
Proof.
  destruct (analog_read_sets_registers (silent_env 0) mixed_connector (Some 7) 0
              (single_device STATE_RUNNING 24) 0x05 0x00 0x00 0x04
              FB_REGISTER_AO [0x34; 0x12; 0x00; 0x00; 0x00] 10)
    as (w' & Hrun & _ & _ & Hword).
  - apply (bool_decide_unpack _). vm_compute. reflexivity.
  - unfold no_float_registers. simpl. repeat constructor; discriminate.
  - reflexivity.
  - reflexivity.
  - now right.
  - reflexivity.
  - vm_compute. discriminate.
  - destruct (Hword 0%nat 2%nat
                (RegisterEntity.init 400%N "key" 52%N 1%N 0 FB_REGISTER_AO
                   FB_DATA_TYPE_UINT16))
      as [_ Hr]; [vm_compute; reflexivity | reflexivity | reflexivity |].
    eexists w', _. split; [exact Hrun|]. split; [exact Hr|].
    vm_compute. reflexivity.
Defined.
